(** * Lanfinitas public demo package: a shallow embedding and its properties

    The Python sources embedded here are
    - [lanfinitas_types/common.py]       (Point2D, BoundingBox2D, Transform2D, Color,
                                          Texture),
    - [lanfinitas_types/data_models.py]  (Measurement, PatternPiece, Pattern,
                                          LayoutResult),
    - [lanfinitas_types/pattern.py]      (Contour, Seam, GrainLine, Notch, PatternPiece,
                                          Pattern2D),
    - [lanfinitas_pattern/fake_pattern_generator.py],
    - [lanfinitas_layout/fake_layout_optimizer.py],
    - [lanfinitas_fabric/fake_fabric_simulator.py],
    - [api/mock/patterns.py], [api/mock/fabric.py], [api/mock/layout.py].

    Modelling conventions.
    - A Python [float] is an exact rational ([Q]); a Python [int] is a [Z].
      Python's [==] on numbers is [Qeq] ([==]).  The rationals leave out the
      rounding of binary64, and with it overflow to an infinity or to NaN and
      underflow to zero.  A property whose truth depends on these is stated
      for numbers of a magnitude at which they do not occur ([moderate],
      [sizeable], [binary_fraction]); what the interpreter does beyond is
      shown on the floats themselves ([Binary64]).  An [int] too large for a
      [float] raises [OverflowError] where the code converts it
      ([float_of_int]).
    - A raised exception is the [Raise] branch of [result]; [None] as the
      return value of [intersection] is [None] of [option].
    - A [str] is a [string], its characters the code points below 256.
    - A [Dict[str, Any]] holding JSON-like data is a [gmap string value].
      Where a function writes into the dictionary it was given, dictionaries
      and lists are objects of a store ([Store.heap]) and values refer to
      them by location, so that two names for one object stay two names for
      one object.
    - [time.time()] and the [random] module are inputs of the functions that
      call them ([world]); [async] methods are called like plain ones.
    - An instance of a class has fields of the annotated types, except where
      [from_dict] builds it from a dictionary: a dataclass checks no types, so
      such an instance holds whatever the dictionary held ([Untyped],
      [Texture]).

    The file has the embedding first, then sample inputs, then the
    properties. *)

From Stdlib Require Import ZArith QArith Qabs Qminmax String Ascii List Lia Lqa.
From stdpp Require Import gmap strings pretty.
From Corelib Require PrimFloat.

Open Scope Q_scope.

(** ** Exceptions *)

Inductive exn : Type :=
  | ValueError
  | TypeError
  | AttributeError
  | KeyError
  | ZeroDivisionError
  | OverflowError.

Inductive result (A : Type) : Type :=
  | Ok (a : A)
  | Raise (e : exn).

Arguments Ok {A} a.
Arguments Raise {A} e.

#[global] Instance result_ret : MRet result := fun A a => Ok a.

#[global] Instance result_bind : MBind result := fun A B k r =>
  match r with
  | Ok a => k a
  | Raise e => Raise e
  end.

(** The call returned, no exception was raised. *)
Definition is_ok {A : Type} (r : result A) : bool :=
  match r with Ok _ => true | Raise _ => false end.

(** ** Python numbers *)

(** [a < b] on floats. *)
Definition Qltb (x y : Q) : bool := negb (Qle_bool y x).

(** [max(x, y)]: the built-in keeps its first argument unless the second is
    strictly greater. *)
Definition py_max (x y : Q) : Q := if Qltb x y then y else x.

(** [min(x, y)]: the built-in keeps its first argument unless the second is
    strictly smaller. *)
Definition py_min (x y : Q) : Q := if Qltb y x then y else x.

(** [min(l)] of a list or a generator: the first least item, [ValueError] on
    an empty one. *)
Definition py_min_of (l : list Q) : result Q :=
  match l with
  | [] => Raise ValueError
  | first :: rest => Ok (fold_left py_min rest first)
  end.

(** [max(l)]: the first greatest item, [ValueError] on an empty one. *)
Definition py_max_of (l : list Q) : result Q :=
  match l with
  | [] => Raise ValueError
  | first :: rest => Ok (fold_left py_max rest first)
  end.

(** [x / y] on floats raises [ZeroDivisionError] on a zero divisor. *)
Definition float_div (x y : Q) : result Q :=
  if Qeq_bool y 0.0 then Raise ZeroDivisionError else Ok (x / y).

(** [n] where a [float] is wanted ([n / 255.0], [area * n]): the interpreter
    converts the [int], and raises [OverflowError] for one that rounds to no
    finite binary64, that is from [2^1024 - 2^970] on. *)
Definition float_of_int (n : Z) : result Q :=
  if (Z.abs n <? 2 ^ 1024 - 2 ^ 970)%Z then Ok (inject_Z n) else Raise OverflowError.

(** The integers that a float holds, up to rounding. *)
Definition fits_float (n : Z) : Prop := (Z.abs n < 2 ^ 1024 - 2 ^ 970)%Z.

(** *** Magnitudes at which binary64 neither overflows nor underflows

    The products and sums that the code forms of numbers up to [2^400] stay
    below the largest binary64, and a product of two numbers from [2^-400]
    on is not rounded to zero. *)
Definition bound : Q := inject_Z (2 ^ 400).

Definition tiny : Q := / bound.

(** Of absolute value at most [2^400]. *)
Definition moderate (q : Q) : Prop := - bound <= q /\ q <= bound.

(** Between [2^-400] and [2^400]. *)
Definition sizeable (q : Q) : Prop := tiny <= q /\ q <= bound.

(** ** JSON-like values

    The demo engines and the mock API pass [Dict[str, Any]] around.  [Any]
    ranges over the values that JSON data decodes to. *)

#[local] Set Warnings "-register-all".

Inductive value : Type :=
  | VNone
  | VBool (b : bool)
  | VInt (n : Z)
  | VFloat (q : Q)
  | VStr (s : string)
  | VList (l : list value)
  | VDict (d : gmap string value).

(** [d.get(key, default)] on a dictionary. *)
Definition dict_get (d : gmap string value) (key : string) (default_ : value) : value :=
  default default_ (d !! key).

(** [v.get(key, default)] on any value: only a dictionary has the method. *)
Definition py_get (v : value) (key : string) (default_ : value) : result value :=
  match v with
  | VDict d => Ok (dict_get d key default_)
  | _ => Raise AttributeError
  end.

(** [v[key]] for a [str] key: a dictionary raises [KeyError] on a key it does
    not hold; a list or a string takes no [str] index and any other value no
    index at all, both with [TypeError]. *)
Definition py_getitem (v : value) (key : string) : result value :=
  match v with
  | VDict d =>
      match d !! key with
      | Some item => Ok item
      | None => Raise KeyError
      end
  | _ => Raise TypeError
  end.

(** [len(v)]. *)
Definition py_len (v : value) : result Z :=
  match v with
  | VStr s => Ok (Z.of_nat (String.length s))
  | VList l => Ok (Z.of_nat (length l))
  | VDict d => Ok (Z.of_nat (size d))
  | _ => Raise TypeError
  end.

Fixpoint chars (s : string) : list value :=
  match s with
  | String c rest => VStr (String c EmptyString) :: chars rest
  | EmptyString => []
  end.

(** The items that [for ... in v] or [enumerate(v)] walks through: the
    elements of a list, the characters of a string, the keys of a dictionary
    (in the order of the map, which no property below depends on). *)
Definition py_iter (v : value) : result (list value) :=
  match v with
  | VStr s => Ok (chars s)
  | VList l => Ok l
  | VDict d => Ok (VStr <$> (map_to_list d).*1)
  | _ => Raise TypeError
  end.

(** [n / v] for an [int] [n]: true division by an [int], a [bool] or a
    [float]; a zero divisor raises [ZeroDivisionError], any other operand
    [TypeError]. *)
Definition int_truediv (n : Z) (v : value) : result Q :=
  match v with
  | VInt w => float_div (inject_Z n) (inject_Z w)
  | VBool b => float_div (inject_Z n) (inject_Z (if b then 1 else 0))
  | VFloat w => float_div (inject_Z n) w
  | _ => Raise TypeError
  end.

(** [int(x)] on a float: truncation towards zero. *)
Definition int_of_float (q : Q) : Z := Z.quot (Qnum q) (Z.pos (Qden q)).

(** [random.uniform(a, b)] is [a + (b - a) * random()]; [u] is the draw of
    [random()], a number in [[0, 1)]. *)
Definition uniform (a b u : Q) : Q := a + (b - a) * u.

(** What a call reads from its surroundings: the two readings of
    [time.time()], the draw of [random.randint(1000, 9999)] and the draws of
    [random()] behind the calls to [random.uniform], in program order. *)
Record world : Type := mkWorld {
  start_time : Q;
  end_time : Q;
  randint_draw : Z;
  random_draws : nat -> Q
}.

(** [int((time.time() - start_time) * 1000)]. *)
Definition elapsed_ms (w : world) : Z := int_of_float ((end_time w - start_time w) * 1000).

(** ** common.py: Point2D and BoundingBox2D

    [Point2D] also stands for the class of the same name and fields in
    [data_models.py]. *)

Record Point2D : Type := mkPoint2D { x : Q; y : Q }.

Module BoundingBox2D.

Record t : Type := mk { min_point : Point2D; max_point : Point2D }.

Definition width (self : t) : Q := x (max_point self) - x (min_point self).

Definition height (self : t) : Q := y (max_point self) - y (min_point self).

Definition area (self : t) : Q := width self * height self.

Definition center (self : t) : result Point2D :=
  cx ← float_div (x (min_point self) + x (max_point self)) 2.0;
  cy ← float_div (y (min_point self) + y (max_point self)) 2.0;
  Ok (mkPoint2D cx cy).

Definition intersects (self other : t) : bool :=
  negb (Qltb (x (max_point self)) (x (min_point other))
        || Qltb (x (max_point other)) (x (min_point self))
        || Qltb (y (max_point self)) (y (min_point other))
        || Qltb (y (max_point other)) (y (min_point self))).

Definition intersection (self other : t) : option t :=
  if negb (intersects self other) then None
  else
    let min_x := py_max (x (min_point self)) (x (min_point other)) in
    let min_y := py_max (y (min_point self)) (y (min_point other)) in
    let max_x := py_min (x (max_point self)) (x (max_point other)) in
    let max_y := py_min (y (max_point self)) (y (max_point other)) in
    Some (mk (mkPoint2D min_x min_y) (mkPoint2D max_x max_y)).

Definition iou (self other : t) : result Q :=
  match intersection self other with
  | None => Ok 0.0
  | Some intersection_box =>
      let intersection_area := area intersection_box in
      let union_area := area self + area other - intersection_area in
      if Qeq_bool union_area 0.0 then Ok 0.0
      else float_div intersection_area union_area
  end.

(** [min_point] is componentwise below [max_point]. *)
Definition ordered (b : t) : Prop :=
  x (min_point b) <= x (max_point b) /\ y (min_point b) <= y (max_point b).

(** The point [p] lies in the box, borders included. *)
Definition inside (b : t) (p : Point2D) : Prop :=
  x (min_point b) <= x p /\ x p <= x (max_point b) /\
  y (min_point b) <= y p /\ y p <= y (max_point b).



(** The four coordinates are of absolute value at most [2^400]: widths,
    areas and sums of areas stay finite. *)
Definition moderate (b : t) : Prop :=
  moderate (x (min_point b)) /\ moderate (y (min_point b)) /\
  moderate (x (max_point b)) /\ moderate (y (max_point b)).

End BoundingBox2D.

(** ** core_enums.py *)

Module MeasurementUnit.
Inductive t : Type := CENTIMETERS | INCHES | MILLIMETERS | METERS.

#[global] Instance eq_dec : EqDecision t.
Proof. solve_decision. Defined.
End MeasurementUnit.

Module Gender.
Inductive t : Type := MALE | FEMALE | UNISEX | KIDS_BOYS | KIDS_GIRLS.
End Gender.

Module SizeCategory.
Inductive t : Type :=
  | XXS | XS | S | M | L | XL | XXL | XXXL
  | PLUS_1X | PLUS_2X | PLUS_3X | PLUS_4X | PLUS_5X
  | SIZE_0 | SIZE_2 | SIZE_4 | SIZE_6 | SIZE_8 | SIZE_10 | SIZE_12
  | SIZE_14 | SIZE_16 | SIZE_18 | SIZE_20
  | CUSTOM.
End SizeCategory.

Module LayoutStrategy.
Inductive t : Type :=
  | GREEDY | GENETIC_ALGORITHM | SIMULATED_ANNEALING | REINFORCEMENT_LEARNING
  | HYBRID | CUSTOM.
End LayoutStrategy.

Module OptimizationObjective.
Inductive t : Type :=
  | MINIMIZE_WASTE | MAXIMIZE_UTILIZATION | MINIMIZE_COST | BALANCE | CUSTOM.
End OptimizationObjective.

(** ** data_models.py: Measurement *)

Module Measurement.

(** The sixteen [Optional[float]] fields, the three metadata fields and the
    [custom] dictionary, in the order of the class body. *)
Record t : Type := mk {
  chest : option Q;
  waist : option Q;
  hip : option Q;
  shoulder_width : option Q;
  sleeve_length : option Q;
  body_length : option Q;
  inseam : option Q;
  neck : option Q;
  bust : option Q;
  under_bust : option Q;
  arm_length : option Q;
  bicep : option Q;
  wrist : option Q;
  thigh : option Q;
  calf : option Q;
  ankle : option Q;
  unit : MeasurementUnit.t;
  gender : option Gender.t;
  size_category : option SizeCategory.t;
  custom : gmap string Q
}.

(** The local dictionary [to_cm] of [convert_to]; every unit is a key. *)
Definition to_cm (u : MeasurementUnit.t) : Q :=
  match u with
  | MeasurementUnit.CENTIMETERS => 1.0
  | MeasurementUnit.MILLIMETERS => 0.1
  | MeasurementUnit.METERS => 100.0
  | MeasurementUnit.INCHES => 2.54
  end.

(** One turn of the loop over [model_fields] on a field holding [value]: a
    number is multiplied by [factor], [None] stays.  The fields [unit],
    [gender], [size_category] (string enums) and [custom] (a dict) fail the
    [isinstance(value, (int, float))] test and keep the copied value. *)
Definition scaled (factor : Q) (value : option Q) : option Q :=
  match value with
  | Some v => Some (v * factor)
  | None => None
  end.

Definition convert_to (self : t) (target_unit : MeasurementUnit.t) : result t :=
  if decide (unit self = target_unit) then Ok self
  else
    factor ← float_div (to_cm (unit self)) (to_cm target_unit);
    Ok {| chest := scaled factor (chest self);
          waist := scaled factor (waist self);
          hip := scaled factor (hip self);
          shoulder_width := scaled factor (shoulder_width self);
          sleeve_length := scaled factor (sleeve_length self);
          body_length := scaled factor (body_length self);
          inseam := scaled factor (inseam self);
          neck := scaled factor (neck self);
          bust := scaled factor (bust self);
          under_bust := scaled factor (under_bust self);
          arm_length := scaled factor (arm_length self);
          bicep := scaled factor (bicep self);
          wrist := scaled factor (wrist self);
          thigh := scaled factor (thigh self);
          calf := scaled factor (calf self);
          ankle := scaled factor (ankle self);
          unit := target_unit;
          gender := gender self;
          size_category := size_category self;
          custom := (fun v => v * factor) <$> custom self |}.

(** The numeric measurement fields, by name. *)
Definition numeric_fields : list (string * (t -> option Q)) :=
  [ ("chest", chest); ("waist", waist); ("hip", hip);
    ("shoulder_width", shoulder_width); ("sleeve_length", sleeve_length);
    ("body_length", body_length); ("inseam", inseam); ("neck", neck);
    ("bust", bust); ("under_bust", under_bust); ("arm_length", arm_length);
    ("bicep", bicep); ("wrist", wrist); ("thigh", thigh); ("calf", calf);
    ("ankle", ankle) ]%string.

End Measurement.

(** ** data_models.py: PatternPiece *)

(** [sum(...)] of a generator of numbers: left to right from [0]. *)
Definition py_sum (l : list Q) : Q := fold_left Qplus l 0.

Module PatternPiece.

(** The fields [get_area] and [get_total_area] read; [piece_type], [seams],
    [darts], [grain_line] and [notes] play no part here. *)
Record t : Type := mk {
  piece_id : string;
  label : string;
  outline : list Point2D;
  mirror : bool;
  quantity : Z
}.

Definition to_tuple (p : Point2D) : Q * Q := (x p, y p).

Definition get_area (self : t) : Q :=
  if (length (outline self) <? 3)%nat then 0.0
  else
    let points := map to_tuple (outline self) in
    let x := map fst points in
    let y := map snd points in
    0.5 * Qabs (py_sum (map (fun i => nth i x 0 * nth (i + 1) y 0
                                      - nth (i + 1) x 0 * nth i y 0)
                            (seq 0 (length points - 1)))).

Definition get_bounding_box (self : t) : result (Point2D * Point2D) :=
  let xs := map x (outline self) in
  let ys := map y (outline self) in
  min_x ← py_min_of xs;
  min_y ← py_min_of ys;
  max_x ← py_max_of xs;
  max_y ← py_max_of ys;
  Ok (mkPoint2D min_x min_y, mkPoint2D max_x max_y).

(** Coordinates of absolute value at most [2^400] and a quantity from 0 to
    [2^64]: the area, its multiple by the quantity and the sums of such
    multiples stay within the floats. *)
Definition moderate (self : t) : Prop :=
  Forall (fun p => moderate (x p) /\ moderate (y p)) (outline self)
  /\ (0 <= quantity self <= 2 ^ 64)%Z.

(** The cross product [x_p * y_q - x_q * y_p] that the edge from [p] to [q]
    adds to the shoelace sum. *)
Definition cross (p q : Point2D) : Q := x p * y q - x q * y p.

Definition origin : Point2D := mkPoint2D 0 0.

(** The shoelace formula as the specification words it: half the absolute
    value of the sum of the cross products of all edges, the closing edge
    from the last point back to the first included. *)
Definition shoelace_area (pts : list Point2D) : Q :=
  let n := length pts in
  (1 # 2) * Qabs (py_sum (map (fun i => cross (nth (i mod n) pts origin)
                                             (nth ((i + 1) mod n) pts origin))
                              (seq 0 n))).

End PatternPiece.

(** ** data_models.py: Pattern *)

Module Pattern.

(** The fields the two methods read. *)
Record t : Type := mk {
  pattern_id : string;
  name : string;
  pieces : list PatternPiece.t
}.

(** The generator of [get_total_area], item by item: [float * int] converts
    the quantity and raises [OverflowError] for one that no float holds. *)
Fixpoint areas (pieces : list PatternPiece.t) : result (list Q) :=
  match pieces with
  | [] => Ok []
  | piece :: rest =>
      quantity ← float_of_int (PatternPiece.quantity piece);
      rest ← areas rest;
      Ok (PatternPiece.get_area piece * quantity :: rest)
  end.

Definition get_total_area (self : t) : result Q :=
  items ← areas (pieces self);
  Ok (py_sum items).

(** The loop of [get_piece_by_id] over the pieces that remain. *)
Fixpoint first_with_id (pieces : list PatternPiece.t) (piece_id : string)
  : option PatternPiece.t :=
  match pieces with
  | [] => None
  | piece :: rest =>
      if String.eqb (PatternPiece.piece_id piece) piece_id then Some piece
      else first_with_id rest piece_id
  end.

Definition get_piece_by_id (self : t) (piece_id : string) : option PatternPiece.t :=
  first_with_id (pieces self) piece_id.

End Pattern.

(** ** data_models.py: LayoutResult *)

Module LayoutResult.

Section Model.

(** Field types whose validation is not at stake here. *)
Context {Pattern Fabric PlacedPiece datetime : Type}.

Record t : Type := mk {
  layout_id : string;
  pattern : Pattern;
  fabric : Fabric;
  placed_pieces : list PlacedPiece;
  fabric_length_used : Q;
  utilization_rate : Q;
  waste_percentage : Q;
  total_area_used : Q;
  total_area_available : Q;
  strategy : LayoutStrategy.t;
  objective : OptimizationObjective.t;
  computation_time : Q;
  created_at : datetime
}.

(** The validator [calculate_waste(cls, v, values)].  [values] holds the
    fields declared before [waste_percentage] that passed their own
    validation; only its numeric entries are kept here, the validator reads
    none but ['utilization_rate']. *)
Definition calculate_waste (v : Q) (values : gmap string Q) : Q :=
  match values !! "utilization_rate"%string with
  | Some utilization_rate => (1 - utilization_rate) * 100
  | None => v
  end.

(** The bounds of [Field(..., gt=, ge=, le=)]. *)
Definition gt (bound v : Q) : bool := Qltb bound v.
Definition ge (bound v : Q) : bool := Qle_bool bound v.
Definition le (bound v : Q) : bool := Qle_bool v bound.

(** A field that passed its validation enters [values]. *)
Definition validated (ok : bool) (name : string) (v : Q) (values : gmap string Q)
  : gmap string Q :=
  if ok then <[name := v]> values else values.

(** The constructor [LayoutResult] on keyword arguments of the declared types:
    pydantic validates the fields in declaration order, runs the validator of
    [waste_percentage] after that field's own bounds, and raises
    [ValidationError] (a [ValueError]) when any field failed. *)
Definition model_validate (kwargs : t) : result t :=
  let ok_length := gt 0 (fabric_length_used kwargs) in
  let values := validated ok_length "fabric_length_used" (fabric_length_used kwargs) ∅ in
  let ok_utilization := ge 0 (utilization_rate kwargs) && le 1 (utilization_rate kwargs) in
  let values := validated ok_utilization "utilization_rate" (utilization_rate kwargs) values in
  let ok_waste := ge 0 (waste_percentage kwargs) && le 100 (waste_percentage kwargs) in
  let waste := calculate_waste (waste_percentage kwargs) values in
  let values := validated ok_waste "waste_percentage" waste values in
  let ok_used := gt 0 (total_area_used kwargs) in
  let ok_available := gt 0 (total_area_available kwargs) in
  let ok_time := ge 0 (computation_time kwargs) in
  if ok_length && ok_utilization && ok_waste && ok_used && ok_available && ok_time
  then Ok {| layout_id := layout_id kwargs;
             pattern := pattern kwargs;
             fabric := fabric kwargs;
             placed_pieces := placed_pieces kwargs;
             fabric_length_used := fabric_length_used kwargs;
             utilization_rate := utilization_rate kwargs;
             waste_percentage := waste;
             total_area_used := total_area_used kwargs;
             total_area_available := total_area_available kwargs;
             strategy := strategy kwargs;
             objective := objective kwargs;
             computation_time := computation_time kwargs;
             created_at := created_at kwargs |}
  else Raise ValueError.

End Model.

Arguments t : clear implicits.

End LayoutResult.

(** ** Python strings and [int(s, 16)]

    A [str] is a [string]: a sequence of characters with code points below
    256. *)

Definition code (c : ascii) : nat := nat_of_ascii c.

(** [s.lstrip("#")]. *)
Fixpoint lstrip_hash (s : string) : string :=
  match s with
  | String c rest => if Ascii.eqb c "#" then lstrip_hash rest else s
  | EmptyString => s
  end.

(** [s[i] * 2]: the one-character string [s[i]] repeated twice. *)
Definition doubled (s : string) (i : nat) : string :=
  match String.get i s with
  | Some c => String c (String c EmptyString)
  | None => EmptyString
  end.

(** [s[i:j]] for [i <= j <= len(s)]. *)
Definition slice (s : string) (i j : nat) : string := String.substring i (j - i) s.

(** The value of a character as a digit in a base up to 36. *)
Definition digit_value (c : ascii) : option Z :=
  let n := code c in
  if (48 <=? n)%nat && (n <=? 57)%nat then Some (Z.of_nat (n - 48))
  else if (97 <=? n)%nat && (n <=? 122)%nat then Some (Z.of_nat (n - 97 + 10))
  else if (65 <=? n)%nat && (n <=? 90)%nat then Some (Z.of_nat (n - 65 + 10))
  else None.

Definition hex_value (c : ascii) : option Z :=
  match digit_value c with
  | Some d => if (d <? 16)%Z then Some d else None
  | None => None
  end.

(** A hexadecimal digit: [0-9], [a-f] or [A-F]. *)
Definition is_hex_digit (c : ascii) : bool :=
  match hex_value c with Some _ => true | None => false end.

(** White space that [int] skips around a literal: tab, line feed, vertical
    tab, form feed, carriage return and space. *)
Definition is_space (c : ascii) : bool :=
  let n := code c in
  ((9 <=? n)%nat && (n <=? 13)%nat) || (n =? 32)%nat.

(** Before parsing, [int] turns each non-ASCII white space character (below
    256: NEL and the no-break space) into a space; any other character from
    127 on becomes ['?'], which no literal contains. *)
Definition to_ascii_digit (c : ascii) : ascii :=
  let n := code c in
  if (n <? 127)%nat then c
  else if (n =? 133)%nat || (n =? 160)%nat then " "%char
  else "?"%char.

Fixpoint map_string (f : ascii -> ascii) (s : string) : string :=
  match s with
  | String c rest => String (f c) (map_string f rest)
  | EmptyString => EmptyString
  end.

Fixpoint skip_spaces (s : string) : string :=
  match s with
  | String c rest => if is_space c then skip_spaces rest else s
  | EmptyString => s
  end.

(** An optional sign. *)
Definition read_sign (s : string) : Z * string :=
  match s with
  | String "+" rest => (1%Z, rest)
  | String "-" rest => ((-1)%Z, rest)
  | _ => (1%Z, s)
  end.

(** With base 16, an optional [0x] or [0X], after which one underscore may
    stand. *)
Definition skip_hex_prefix (s : string) : string :=
  match s with
  | String "0" (String c rest) =>
      if Ascii.eqb c "x" || Ascii.eqb c "X" then
        match rest with
        | String "_" rest' => rest'
        | _ => rest
        end
      else s
  | _ => s
  end.

(** The run of digits, single underscores allowed between two digits.  [prev]
    is the character read last ([None] at the start), [acc] the value so far.
    The result is [None] on a leading, doubled or trailing underscore and on
    an empty run. *)
Fixpoint read_digits (base : Z) (prev : option ascii) (acc : Z) (s : string)
  : option (Z * string) :=
  let stop :=
    match prev with
    | None => None
    | Some p => if Ascii.eqb p "_" then None else Some (acc, s)
    end in
  match s with
  | String c rest =>
      if Ascii.eqb c "_" then
        match prev with
        | None => None
        | Some p => if Ascii.eqb p "_" then None
                    else read_digits base (Some c) acc rest
        end
      else
        match digit_value c with
        | Some d => if (d <? base)%Z
                    then read_digits base (Some c) (base * acc + d)%Z rest
                    else stop
        | None => stop
        end
  | EmptyString => stop
  end.

(** [int(s, 16)] on a [str]. *)
Definition int16 (s : string) : result Z :=
  let s := skip_spaces (map_string to_ascii_digit s) in
  let '(sign, s) := read_sign s in
  let s := skip_hex_prefix s in
  match read_digits 16 None 0%Z s with
  | None => Raise ValueError
  | Some (n, rest) =>
      match skip_spaces rest with
      | EmptyString => Ok (sign * n)%Z
      | String _ _ => Raise ValueError
      end
  end.

(** The digits of a natural number in base 16, upper case, as the [X]
    presentation type prints them. *)
Fixpoint upper_hex (digits : Hexadecimal.uint) : string :=
  match digits with
  | Hexadecimal.Nil => EmptyString
  | Hexadecimal.D0 rest => String "0" (upper_hex rest)
  | Hexadecimal.D1 rest => String "1" (upper_hex rest)
  | Hexadecimal.D2 rest => String "2" (upper_hex rest)
  | Hexadecimal.D3 rest => String "3" (upper_hex rest)
  | Hexadecimal.D4 rest => String "4" (upper_hex rest)
  | Hexadecimal.D5 rest => String "5" (upper_hex rest)
  | Hexadecimal.D6 rest => String "6" (upper_hex rest)
  | Hexadecimal.D7 rest => String "7" (upper_hex rest)
  | Hexadecimal.D8 rest => String "8" (upper_hex rest)
  | Hexadecimal.D9 rest => String "9" (upper_hex rest)
  | Hexadecimal.Da rest => String "A" (upper_hex rest)
  | Hexadecimal.Db rest => String "B" (upper_hex rest)
  | Hexadecimal.Dc rest => String "C" (upper_hex rest)
  | Hexadecimal.Dd rest => String "D" (upper_hex rest)
  | Hexadecimal.De rest => String "E" (upper_hex rest)
  | Hexadecimal.Df rest => String "F" (upper_hex rest)
  end.

(** [digits] filled with ['0'] on the left up to [width] characters. *)
Definition zero_fill (width : nat) (digits : string) : string :=
  String.append (string_of_list_ascii (repeat "0"%char (width - String.length digits)))
                digits.

(** [f"{n:02X}"]: upper-case hexadecimal in a field of two characters, filled
    with zeros after the sign, which takes one of the two places. *)
Definition format_02X (n : Z) : string :=
  let digits := upper_hex (N.to_hex_uint (Z.abs_N n)) in
  if (n <? 0)%Z then String "-" (zero_fill 1 digits) else zero_fill 2 digits.

(** ** common.py: Color *)

Module Color.

Record t : Type := mk { r : Q; g : Q; b : Q; a : Q }.

(** [0.0 <= value <= 1.0]. *)
Definition in_unit_range (value : Q) : bool := Qle_bool 0.0 value && Qle_bool value 1.0.

(** The loop of [__post_init__] over the four channels. *)
Fixpoint check_channels (channels : list (string * Q)) : result unit :=
  match channels with
  | [] => Ok tt
  | (channel, value) :: rest =>
      if negb (in_unit_range value) then Raise ValueError
      else check_channels rest
  end.

Definition post_init (self : t) : result unit :=
  check_channels [("r", r self); ("g", g self); ("b", b self); ("a", a self)]%string.

(** [cls(r=r, g=g, b=b, a=a)]: the constructor of the dataclass, which ends
    with [__post_init__]. *)
Definition new (r g b a : Q) : result t :=
  let self := mk r g b a in
  _ ← post_init self;
  Ok self.

(** [int(digits, 16) / 255.0]. *)
Definition channel (digits : string) : result Q :=
  n ← int16 digits;
  float_div (inject_Z n) 255.0.

Definition from_hex (hex_string : string) : result t :=
  let hex_string := lstrip_hash hex_string in
  if (String.length hex_string =? 3)%nat then
    r ← channel (doubled hex_string 0);
    g ← channel (doubled hex_string 1);
    b ← channel (doubled hex_string 2);
    let a := 1.0 in
    new r g b a
  else if (String.length hex_string =? 6)%nat then
    r ← channel (slice hex_string 0 2);
    g ← channel (slice hex_string 2 4);
    b ← channel (slice hex_string 4 6);
    let a := 1.0 in
    new r g b a
  else if (String.length hex_string =? 8)%nat then
    r ← channel (slice hex_string 0 2);
    g ← channel (slice hex_string 2 4);
    b ← channel (slice hex_string 4 6);
    a ← channel (slice hex_string 6 8);
    new r g b a
  else Raise ValueError.

(** The test [0.0 <= value <= 1.0] of [__post_init__] on a value of any
    type: a number is compared, anything else cannot be ordered with a float.
    The number is kept as a float. *)
Definition checked_channel (value : value) : result Q :=
  let compared (q : Q) := if negb (in_unit_range q) then Raise ValueError else Ok q in
  match value with
  | VFloat q => compared q
  | VInt n => compared (inject_Z n)
  | VBool b => compared (inject_Z (if b then 1 else 0))
  | _ => Raise TypeError
  end.

(** [cls(r=r, g=g, b=b, a=a)] on values of any type. *)
Definition new_of_values (r g b a : value) : result t :=
  r ← checked_channel r;
  g ← checked_channel g;
  b ← checked_channel b;
  a ← checked_channel a;
  Ok (mk r g b a).

Definition to_dict (self : t) : value :=
  VDict (<["r" := VFloat (r self)]> (<["g" := VFloat (g self)]>
        (<["b" := VFloat (b self)]> (<["a" := VFloat (a self)]> ∅)))).

Definition from_dict (data : value) : result t :=
  r ← py_getitem data "r";
  g ← py_getitem data "g";
  b ← py_getitem data "b";
  a ← py_get data "a" (VFloat 1.0);
  new_of_values r g b a.

Definition to_hex (self : t) (include_alpha : bool) : string :=
  let r := int_of_float (r self * 255) in
  let g := int_of_float (g self * 255) in
  let b := int_of_float (b self * 255) in
  if include_alpha then
    let a := int_of_float (a self * 255) in
    String "#" (String.append (format_02X r) (String.append (format_02X g)
               (String.append (format_02X b) (format_02X a))))
  else
    String "#" (String.append (format_02X r) (String.append (format_02X g) (format_02X b))).

(** [r / 255.0] for an [int] [r]. *)
Definition int_div_float (n : Z) (y : Q) : result Q :=
  n ← float_of_int n;
  float_div n y.

Definition from_rgb (r g b a : Z) : result t :=
  r ← int_div_float r 255.0;
  g ← int_div_float g 255.0;
  b ← int_div_float b 255.0;
  a ← int_div_float a 255.0;
  new r g b a.

End Color.

(** A multiple of [2^-20]: for such a channel [self.r * 255] is exact in
    binary64, so that [to_hex] truncates the very product written here. *)
Definition binary_fraction (q : Q) : Prop :=
  exists m : Z, q == inject_Z m / inject_Z (2 ^ 20).

Definition binary_channels (c : Color.t) : Prop :=
  binary_fraction (Color.r c) /\ binary_fraction (Color.g c) /\
  binary_fraction (Color.b c) /\ binary_fraction (Color.a c).

(** *** Vocabulary for the properties of [Color.from_hex] *)

Fixpoint all_chars (p : ascii -> bool) (s : string) : bool :=
  match s with
  | String c rest => p c && all_chars p rest
  | EmptyString => true
  end.

(** The digit at index [i] of [h], and the byte that the digits at [i] and
    [j] spell. *)
Definition hex_digit_at (h : string) (i : nat) : Z :=
  default 0%Z (String.get i h ≫= hex_value).

Definition byte_of (h : string) (i j : nat) : Z :=
  (16 * hex_digit_at h i + hex_digit_at h j)%Z.

Definition pair (c1 c2 : ascii) : string := String c1 (String c2 EmptyString).

(** [n] times the character ['#']. *)
Fixpoint hashes (n : nat) : string :=
  match n with
  | O => EmptyString
  | S n' => String "#" (hashes n')
  end.

(** White space for [int], non-ASCII white space included. *)
Definition is_int_space (c : ascii) : bool := is_space (to_ascii_digit c).

(** The two-character literals that [from_hex] takes for a channel: two
    hexadecimal digits; one hexadecimal digit after a plus sign or a white
    space character; one hexadecimal digit before a white space character;
    and [-0]. *)
Definition accepted_pair (c1 c2 : ascii) : bool :=
  (is_hex_digit c1 && is_hex_digit c2)
  || ((is_int_space c1 || Ascii.eqb c1 "+") && is_hex_digit c2)
  || (is_hex_digit c1 && is_int_space c2)
  || (Ascii.eqb c1 "-" && Ascii.eqb c2 "0").

Fixpoint accepted_pairs (s : string) : bool :=
  match s with
  | String c1 (String c2 rest) => accepted_pair c1 c2 && accepted_pairs rest
  | String _ EmptyString => false
  | EmptyString => true
  end.

(** The strings, leading ['#'] removed, on which [from_hex] returns. *)
Definition accepted_hex (h : string) : bool :=
  ((String.length h =? 3)%nat && all_chars is_hex_digit h)
  || (((String.length h =? 6)%nat || (String.length h =? 8)%nat) && accepted_pairs h).

(** A channel literal that parses to a value in range. *)
Definition channel_ok (digits : string) : bool :=
  match Color.channel digits with
  | Ok q => Color.in_unit_range q
  | Raise _ => false
  end.

(** [from_hex] on the three shapes it takes, and on every other length. *)
Inductive hex_shape (s : string) : Type :=
  | shape3 (c0 c1 c2 : ascii)
      (Hh : lstrip_hash s = String c0 (String c1 (String c2 EmptyString)))
      (Hf : Color.from_hex s
            = (r ← Color.channel (pair c0 c0); g ← Color.channel (pair c1 c1);
               b ← Color.channel (pair c2 c2); Color.new r g b 1.0))
  | shape6 (c0 c1 c2 c3 c4 c5 : ascii)
      (Hh : lstrip_hash s
            = String c0 (String c1 (String c2 (String c3 (String c4
                (String c5 EmptyString))))))
      (Hf : Color.from_hex s
            = (r ← Color.channel (pair c0 c1); g ← Color.channel (pair c2 c3);
               b ← Color.channel (pair c4 c5); Color.new r g b 1.0))
  | shape8 (c0 c1 c2 c3 c4 c5 c6 c7 : ascii)
      (Hh : lstrip_hash s
            = String c0 (String c1 (String c2 (String c3 (String c4
                (String c5 (String c6 (String c7 EmptyString))))))))
      (Hf : Color.from_hex s
            = (r ← Color.channel (pair c0 c1); g ← Color.channel (pair c2 c3);
               b ← Color.channel (pair c4 c5); a ← Color.channel (pair c6 c7);
               Color.new r g b a))
  | shape_other
      (Hl : String.length (lstrip_hash s) <> 3%nat /\
            String.length (lstrip_hash s) <> 6%nat /\
            String.length (lstrip_hash s) <> 8%nat)
      (Hf : Color.from_hex s = Raise ValueError).

Definition all_ascii : list ascii := map ascii_of_nat (seq 0 256).

(** *** Vocabulary for the properties of [Color.to_hex] *)

(** The upper-case form of a letter [a-z]; any other character is kept. *)
Definition ascii_upper (c : ascii) : ascii :=
  let n := code c in
  if (97 <=? n)%nat && (n <=? 122)%nat then ascii_of_nat (n - 32) else c.

(** The eight digits that a string of 3, 6 or 8 digits stands for: each of
    three digits doubled, and [FF] for a missing alpha. *)
Definition expanded (h : string) : string :=
  if (String.length h =? 3)%nat then
    String.append (doubled h 0) (String.append (doubled h 1)
                  (String.append (doubled h 2) "FF"))
  else if (String.length h =? 6)%nat then String.append h "FF"
  else h.

Definition is_byte (n : Z) : Prop := (0 <= n <= 255)%Z.

Definition all_bytes : list Z := map Z.of_nat (seq 0 256).

(** ** fake_pattern_generator.py (the tree-shaped part) *)

Module FakePatternGenerator.

Record t : Type := mk {
  last_generation_time : Z;
  metrics : gmap string value
}.

(** [__init__]. *)
Definition init : t := mk 0 ∅.

Definition point (px py : Z) : value := VDict {[ "x" := VInt px; "y" := VInt py ]}.

Definition rectangle_contour : value :=
  VList [point 0 0; point 50 0; point 50 70; point 0 70].

Definition front_panel : value :=
  VDict {[ "id" := VStr "front_panel";
           "type" := VStr "front";
           "contour" := rectangle_contour;
           "seams" := VList [VDict {[ "id" := VStr "side_seam";
                                      "type" := VStr "plain";
                                      "points" := VList [VList [VInt 50; VInt 0];
                                                         VList [VInt 50; VInt 70]] ]}];
           "notches" := VList [] ]}.

Definition back_panel : value :=
  VDict {[ "id" := VStr "back_panel";
           "type" := VStr "back";
           "contour" := rectangle_contour;
           "seams" := VList [VDict {[ "id" := VStr "side_seam";
                                      "type" := VStr "plain";
                                      "points" := VList [VList [VInt 0; VInt 0];
                                                         VList [VInt 0; VInt 70]] ]}];
           "notches" := VList [] ]}.

Definition generate (self : t) (design : value) (params : value) (w : world)
  : result (t * value) :=
  design_id ← py_get design "id" (VStr "unknown");
  let pieces := [front_panel; back_panel] in
  let pattern : gmap string value :=
    {[ "id" := VStr ("pattern_" +:+ pretty (randint_draw w));
       "design_id" := design_id;
       "pieces" := VList pieces;
       "metadata" := VDict {[ "version" := VStr "1.0.0-demo";
                              "generated_by" := VStr "FakePatternGenerator";
                              "note" := VStr "DEMO ONLY - Not real pattern data" ]} ]} in
  let last_generation_time := elapsed_ms w in
  let metrics : gmap string value :=
    {[ "generation_time_ms" := VInt last_generation_time;
       "num_pieces" := VInt (Z.of_nat (length pieces));
       "total_area" := VFloat 7000.0;
       "seam_count" := VInt 2;
       "complexity_score" := VFloat 45.0 ]} in
  Ok (mk last_generation_time metrics, VDict pattern).

Definition get_generation_metrics (self : t) : value := VDict (metrics self).

End FakePatternGenerator.

(** ** fake_layout_optimizer.py *)

Module FakeLayoutOptimizer.

Record t : Type := mk {
  optimization_history : list value;
  last_optimization_time : Z
}.

(** [__init__]. *)
Definition init : t := mk [] 0.

(** The loop over [enumerate(...)], from index [i] on. *)
Fixpoint place_from (i : nat) (pieces : list value) : result (list value) :=
  match pieces with
  | [] => Ok []
  | piece :: rest =>
      piece_id ← py_get piece "id" (VStr ("piece_" +:+ pretty i));
      layout ← place_from (S i) rest;
      Ok (VDict {[ "piece_id" := piece_id;
                   "position" := VDict {[ "x" := VInt (Z.of_nat i * 60);
                                          "y" := VInt 0 ]};
                   "rotation" := VInt 0 ]} :: layout)
  end.

Definition optimize (self : t) (pattern fabric params : value) (w : world)
  : result (t * value) :=
  pieces ← py_get pattern "pieces" (VList []);
  num_pieces ← py_len pieces;
  fabric_width ← py_get fabric "width" (VInt 150);
  pieces ← py_get pattern "pieces" (VList []);
  items ← py_iter pieces;
  layout ← place_from 0 items;
  ratio ← int_truediv (num_pieces * 60) fabric_width;
  let fabric_length := ratio * 100 + 50 in
  let optimization_time_ms := elapsed_ms w in
  let result : gmap string value :=
    {[ "layout" := VList layout;
       "fabric_length" := VFloat fabric_length;
       "utilization" := VFloat (uniform 0.65 0.75 (random_draws w 0));
       "waste_percentage" := VFloat (uniform 25 35 (random_draws w 1));
       "optimization_time_ms" := VInt optimization_time_ms;
       "metadata" :=
         VDict {[ "version" := VStr "1.0.0-demo";
                  "optimized_by" := VStr "FakeLayoutOptimizer";
                  "note" := VStr "DEMO ONLY - Not real optimization (no RL, no genetic algorithm)" ]} ]} in
  Ok (mk (optimization_history self ++ [VDict result]) optimization_time_ms,
      VDict result).

Definition evaluate_layout (self : t) (layout pattern fabric : value) (w : world)
  : value :=
  VDict {[ "utilization" := VFloat (uniform 0.65 0.75 (random_draws w 0));
           "waste" := VFloat (uniform 2000 3000 (random_draws w 1));
           "compactness" := VFloat (uniform 0.6 0.8 (random_draws w 2));
           "grain_alignment" := VFloat (uniform 0.7 0.9 (random_draws w 3)) ]}.

Definition suggest_improvements (self : t) (layout pattern : value) : value :=
  VList [ VStr "Try rotating piece 1 by 90 degrees";
          VStr "Consider grouping similar pieces together";
          VStr "Review grain line alignment for piece 2" ].

Definition get_optimization_history (self : t) : value :=
  VList (optimization_history self).

(** The loop of [optimize_multi_fabric] over the pairs that remain; the
    [i]-th call of [optimize] reads the world [ws i].  A call that raises
    ends the loop: the optimizer stays as the calls before it left it. *)
Fixpoint optimize_pairs (self : t) (pairs : list (value * value)) (params : value)
    (ws : nat -> world) (i : nat) : t * result (list value) :=
  match pairs with
  | [] => (self, Ok [])
  | (pattern, fabric) :: rest =>
      match optimize self pattern fabric params (ws i) with
      | Raise e => (self, Raise e)
      | Ok (self, result) =>
          let '(self, results) := optimize_pairs self rest params ws (S i) in
          (self, results ← results; Ok (result :: results))
      end
  end.

Definition optimize_multi_fabric (self : t) (patterns fabrics : list value)
    (params : value) (ws : nat -> world) : t * result (list value) :=
  optimize_pairs self (combine patterns fabrics) params ws 0.

(** [result["metadata"]["constraints_applied"] = n] followed by
    [result["metadata"]["note"] += suffix], on the tree of [result]. *)
Definition note_constraints (optimized : value) (n : Z) (suffix : string) : result value :=
  metadata ← py_getitem optimized "metadata";
  match optimized, metadata with
  | VDict r, VDict m =>
      let m := <["constraints_applied" := VInt n]> m in
      let r := <["metadata" := VDict m]> r in
      metadata ← py_getitem (VDict r) "metadata";
      note ← py_getitem metadata "note";
      match metadata, note with
      | VDict m, VStr note =>
          Ok (VDict (<["metadata" := VDict (<["note" := VStr (note +:+ suffix)]> m)]> r))
      | _, _ => Raise TypeError
      end
  | _, _ => Raise TypeError
  end.

(** [optimize_with_constraints].  The dictionary that [optimize] returns is
    the object it has appended to the history, so what is written into it
    afterwards shows in the last entry of the history as well.  [len] of the
    constraints is taken after [optimize] has returned: if it raises, the
    optimizer keeps the new entry. *)
Definition optimize_with_constraints (self : t) (pattern fabric constraints : value)
    (w : world) : t * result value :=
  match optimize self pattern fabric VNone w with
  | Raise e => (self, Raise e)
  | Ok (self1, result) =>
      match (n ← py_len constraints;
             note_constraints result n " - Constraints ignored in demo") with
      | Raise e => (self1, Raise e)
      | Ok result =>
          (mk (optimization_history self ++ [result]) (last_optimization_time self1),
           Ok result)
      end
  end.

End FakeLayoutOptimizer.

(** ** fake_fabric_simulator.py (the tree-shaped part) *)

Module FakeFabricSimulator.

Record t : Type := mk {
  last_simulation_time : Z;
  metrics : gmap string value
}.

(** [__init__]. *)
Definition init : t := mk 0 ∅.

Definition vertex (vx vy : Z) (vz : value) : value :=
  VDict {[ "x" := VInt vx; "y" := VInt vy; "z" := vz ]}.

Definition simulate_draping (self : t) (pattern design fabric params : value)
    (w : world) : t * value :=
  let mesh : gmap string value :=
    {[ "id" := VStr ("draped_mesh_" +:+ pretty (randint_draw w));
       "vertices" := VList [ vertex 0 0 (VInt 0); vertex 10 0 (VFloat 0.5);
                             vertex 10 10 (VFloat 0.3); vertex 0 10 (VFloat 0.2) ];
       "faces" := VList [ VDict {[ "indices" := VList [VInt 0; VInt 1; VInt 2] ]};
                          VDict {[ "indices" := VList [VInt 0; VInt 2; VInt 3] ]} ];
       "normals" := VList [ vertex 0 0 (VInt 1); vertex 0 0 (VInt 1) ];
       "metadata" :=
         VDict {[ "version" := VStr "1.0.0-demo";
                  "simulated_by" := VStr "FakeFabricSimulator";
                  "note" := VStr "DEMO ONLY - Not real physics simulation" ]} ]} in
  let last_simulation_time := elapsed_ms w in
  let metrics : gmap string value :=
    {[ "simulation_time_ms" := VInt last_simulation_time;
       "iterations_completed" := VInt 100;
       "convergence_rate" := VFloat 0.95;
       "energy" := VFloat 12.5;
       "stability" := VFloat 0.98 ]} in
  (mk last_simulation_time metrics, VDict mesh).

Definition calculate_fit (self : t) (fabric_mesh body_mesh : value) (tolerance : Q)
  : value :=
  VDict {[ "ease_distribution" :=
             VDict {[ "bust" := VFloat 5.0; "waist" := VFloat 3.0; "hip" := VFloat 4.5 ]};
           "pressure_points" :=
             VList [ VDict {[ "location" := VStr "shoulder"; "pressure" := VFloat 0.3 ]};
                     VDict {[ "location" := VStr "armpit"; "pressure" := VFloat 0.5 ]} ];
           "gap_areas" :=
             VList [ VDict {[ "location" := VStr "waist_back"; "gap_cm" := VFloat 0.8 ]} ];
           "overall_fit_score" := VFloat 0.82;
           "metadata" := VDict {[ "note" := VStr "DEMO - Placeholder fit metrics" ]} ]}.

Definition get_simulation_metrics (self : t) : value := VDict (metrics self).

End FakeFabricSimulator.

(** ** api/mock *)

Module MockPatternAPI.

Record t : Type := mk { generator : FakePatternGenerator.t }.

Definition init : t := mk FakePatternGenerator.init.

Definition generate_pattern (self : t) (design_data : gmap string value) (w : world)
  : result (t * value) :=
  '(generator, pattern) ←
    FakePatternGenerator.generate (generator self) (VDict design_data) VNone w;
  Ok (mk generator,
      VDict {[ "success" := VBool true;
               "data" := VDict {[ "pattern" := pattern;
                                  "metrics" :=
                                    FakePatternGenerator.get_generation_metrics generator ]};
               "message" := VStr "DEMO: Pattern generated with placeholder data";
               "meta" := VDict {[ "version" := VStr "1.0.0-demo";
                                  "warning" := VStr "This is demonstration data only" ]} ]}).

Definition optimize_pattern (self : t) (pattern_id : string) : value :=
  VDict {[ "success" := VBool true;
           "data" := VDict {[ "pattern_id" := VStr pattern_id;
                              "optimization_applied" := VBool false;
                              "message" := VStr "Demo only - no real optimization" ]};
           "meta" := VDict {[ "version" := VStr "1.0.0-demo";
                              "warning" := VStr "This is demonstration data only" ]} ]}.

Definition contour : value :=
  VList [ VList [VInt 0; VInt 0]; VList [VInt 50; VInt 0];
          VList [VInt 50; VInt 70]; VList [VInt 0; VInt 70] ].

Definition get_pattern (self : t) (pattern_id : string) : value :=
  VDict {[ "success" := VBool true;
           "data" :=
             VDict {[ "id" := VStr pattern_id;
                      "pieces" :=
                        VList [ VDict {[ "id" := VStr "front";
                                         "type" := VStr "front_panel";
                                         "contour" := contour ]};
                                VDict {[ "id" := VStr "back";
                                         "type" := VStr "back_panel";
                                         "contour" := contour ]} ];
                      "metadata" :=
                        VDict {[ "note" := VStr "DEMO data - placeholder pattern" ]} ]};
           "meta" := VDict {[ "version" := VStr "1.0.0-demo" ]} ]}.

End MockPatternAPI.

Module MockFabricAPI.

Record t : Type := mk { simulator : FakeFabricSimulator.t }.

Definition init : t := mk FakeFabricSimulator.init.

Definition simulate_draping (self : t) (request_data : gmap string value) (w : world)
  : t * value :=
  let pattern := dict_get request_data "pattern" (VDict ∅) in
  let design := dict_get request_data "design" (VDict ∅) in
  let fabric := dict_get request_data "fabric" (VDict ∅) in
  let '(simulator, mesh) :=
    FakeFabricSimulator.simulate_draping (simulator self) pattern design fabric VNone w in
  (mk simulator,
   VDict {[ "success" := VBool true;
            "data" := VDict {[ "draped_mesh" := mesh;
                               "metrics" :=
                                 FakeFabricSimulator.get_simulation_metrics simulator ]};
            "message" := VStr "DEMO: Simulation completed with placeholder physics";
            "meta" :=
              VDict {[ "version" := VStr "1.0.0-demo";
                       "warning" := VStr "This is demonstration data only - no real physics simulation" ]} ]}).

Definition calculate_fit (self : t) (request_data : gmap string value) : value :=
  let fabric_mesh := dict_get request_data "fabric_mesh" (VDict ∅) in
  let body_mesh := dict_get request_data "body_mesh" (VDict ∅) in
  let fit_metrics :=
    FakeFabricSimulator.calculate_fit (simulator self) fabric_mesh body_mesh 1.0 in
  VDict {[ "success" := VBool true;
           "data" := fit_metrics;
           "message" := VStr "DEMO: Fit calculated with placeholder metrics";
           "meta" := VDict {[ "version" := VStr "1.0.0-demo";
                              "warning" := VStr "This is demonstration data only" ]} ]}.

Definition get_fabric_properties (self : t) (fabric_id : string) : value :=
  VDict {[ "success" := VBool true;
           "data" :=
             VDict {[ "id" := VStr fabric_id;
                      "name" := VStr "Cotton Poplin (Demo)";
                      "type" := VStr "cotton";
                      "weight" := VStr "light";
                      "width" := VInt 150;
                      "physical_properties" :=
                        VDict {[ "elasticity" := VFloat 0.1;
                                 "shear" := VFloat 0.05;
                                 "bend" := VFloat 0.02;
                                 "note" := VStr "Placeholder values for demo" ]} ]};
           "meta" := VDict {[ "version" := VStr "1.0.0-demo" ]} ]}.

End MockFabricAPI.

Module MockLayoutAPI.

Record t : Type := mk { optimizer : FakeLayoutOptimizer.t }.

Definition init : t := mk FakeLayoutOptimizer.init.

Definition optimize_layout (self : t) (request_data : gmap string value) (w : world)
  : result (t * value) :=
  let pattern := dict_get request_data "pattern" (VDict ∅) in
  let fabric := dict_get request_data "fabric" (VDict ∅) in
  let params := dict_get request_data "params" (VDict ∅) in
  '(optimizer, result) ←
    FakeLayoutOptimizer.optimize (optimizer self) pattern fabric params w;
  Ok (mk optimizer,
      VDict {[ "success" := VBool true;
               "data" := result;
               "message" := VStr "DEMO: Layout optimized with placeholder algorithm (no RL)";
               "meta" :=
                 VDict {[ "version" := VStr "1.0.0-demo";
                          "warning" := VStr "This is demonstration data only - no real RL optimization" ]} ]}).

Definition evaluate_layout (self : t) (request_data : gmap string value) (w : world)
  : value :=
  let layout := dict_get request_data "layout" (VList []) in
  let pattern := dict_get request_data "pattern" (VDict ∅) in
  let fabric := dict_get request_data "fabric" (VDict ∅) in
  let metrics := FakeLayoutOptimizer.evaluate_layout (optimizer self) layout pattern fabric w in
  VDict {[ "success" := VBool true;
           "data" :=
             VDict {[ "metrics" := metrics;
                      "suggestions" :=
                        FakeLayoutOptimizer.suggest_improvements (optimizer self)
                          (VDict ∅) pattern ]};
           "message" := VStr "DEMO: Layout evaluated with placeholder metrics";
           "meta" := VDict {[ "version" := VStr "1.0.0-demo";
                              "warning" := VStr "This is demonstration data only" ]} ]}.

Definition get_optimization_history (self : t) : value :=
  let history := FakeLayoutOptimizer.optimization_history (optimizer self) in
  VDict {[ "success" := VBool true;
           "data" := VDict {[ "history" := VList history;
                              "count" := VInt (Z.of_nat (length history)) ]};
           "meta" := VDict {[ "version" := VStr "1.0.0-demo" ]} ]}.

End MockLayoutAPI.

(** *** The nine public endpoints as one interface *)

Record apis : Type := mkApis {
  pattern_api : MockPatternAPI.t;
  fabric_api : MockFabricAPI.t;
  layout_api : MockLayoutAPI.t
}.

Inductive endpoint : Type :=
  | GeneratePattern (design_data : gmap string value)
  | OptimizePattern (pattern_id : string)
  | GetPattern (pattern_id : string)
  | SimulateDraping (request_data : gmap string value)
  | CalculateFit (request_data : gmap string value)
  | GetFabricProperties (fabric_id : string)
  | OptimizeLayout (request_data : gmap string value)
  | EvaluateLayout (request_data : gmap string value)
  | GetOptimizationHistory.

Definition call (s : apis) (e : endpoint) (w : world) : result (apis * value) :=
  match e with
  | GeneratePattern design_data =>
      '(api, envelope) ← MockPatternAPI.generate_pattern (pattern_api s) design_data w;
      Ok (mkApis api (fabric_api s) (layout_api s), envelope)
  | OptimizePattern pattern_id =>
      Ok (s, MockPatternAPI.optimize_pattern (pattern_api s) pattern_id)
  | GetPattern pattern_id =>
      Ok (s, MockPatternAPI.get_pattern (pattern_api s) pattern_id)
  | SimulateDraping request_data =>
      let '(api, envelope) := MockFabricAPI.simulate_draping (fabric_api s) request_data w in
      Ok (mkApis (pattern_api s) api (layout_api s), envelope)
  | CalculateFit request_data =>
      Ok (s, MockFabricAPI.calculate_fit (fabric_api s) request_data)
  | GetFabricProperties fabric_id =>
      Ok (s, MockFabricAPI.get_fabric_properties (fabric_api s) fabric_id)
  | OptimizeLayout request_data =>
      '(api, envelope) ← MockLayoutAPI.optimize_layout (layout_api s) request_data w;
      Ok (mkApis (pattern_api s) (fabric_api s) api, envelope)
  | EvaluateLayout request_data =>
      Ok (s, MockLayoutAPI.evaluate_layout (layout_api s) request_data w)
  | GetOptimizationHistory =>
      Ok (s, MockLayoutAPI.get_optimization_history (layout_api s))
  end.

(** An envelope that reports success: ['success'] is [True], ['meta'] is a
    dictionary whose ['version'] is ['1.0.0-demo'], and there is no ['error']
    entry. *)
Definition success_envelope (v : value) : Prop :=
  exists d meta : gmap string value,
    v = VDict d /\
    d !! "success" = Some (VBool true) /\
    d !! "meta" = Some (VDict meta) /\
    meta !! "version" = Some (VStr "1.0.0-demo") /\
    d !! "error" = None.

(** *** Vocabulary for the properties of the demo engines *)

(** The number that a value stands for in arithmetic, if it is one. *)
Definition number (v : value) : option Q :=
  match v with
  | VInt n => Some (inject_Z n)
  | VBool b => Some (inject_Z (if b then 1 else 0))
  | VFloat q => Some q
  | _ => None
  end.

(** The point [{"x": px, "y": py}]. *)
Definition xy (px py : Z) : value := VDict (<["x" := VInt px]> (<["y" := VInt py]> ∅)).

(** A piece of the fixed demo geometry: the 50 by 70 rectangle with one plain
    side seam. *)
Definition demo_piece (id type : string) (v : value) : Prop :=
  exists p seam : gmap string value,
    v = VDict p /\
    p !! "id" = Some (VStr id) /\
    p !! "type" = Some (VStr type) /\
    p !! "contour" = Some (VList [xy 0 0; xy 50 0; xy 50 70; xy 0 70]) /\
    p !! "seams" = Some (VList [VDict seam]) /\
    seam !! "id" = Some (VStr "side_seam") /\
    seam !! "type" = Some (VStr "plain").

(** ** Dictionaries as shared, mutable objects

    [optimize_seams], [add_seam_allowance] and [simulate_collision] write into
    the dictionary they are given and return that very dictionary.  For them a
    dictionary or list is an object in a store and a value refers to it by
    its location. *)

Module Store.

Abbreviation loc := positive.

Inductive ref_value : Type :=
  | RNone
  | RBool (b : bool)
  | RInt (n : Z)
  | RFloat (q : Q)
  | RStr (s : string)
  | RRef (l : loc).

Inductive object : Type :=
  | ODict (d : gmap string ref_value)
  | OList (l : list ref_value).

Abbreviation heap := (gmap loc object).

(** [container[key]] for a string [key]: only a dictionary is subscripted by
    a string, and the key has to be there.  A location outside the store does
    not occur in a run; it is treated like a value without items. *)
Definition getitem (h : heap) (container : ref_value) (key : string)
  : result ref_value :=
  match container with
  | RRef l =>
      match h !! l with
      | Some (ODict d) =>
          match d !! key with
          | Some v => Ok v
          | None => Raise KeyError
          end
      | _ => Raise TypeError
      end
  | _ => Raise TypeError
  end.

(** [container[key] = v] for a string [key]: the dictionary object is updated
    in place. *)
Definition setitem (h : heap) (container : ref_value) (key : string) (v : ref_value)
  : result heap :=
  match container with
  | RRef l =>
      match h !! l with
      | Some (ODict d) => Ok (<[l := ODict (<[key := v]> d)]> h)
      | _ => Raise TypeError
      end
  | _ => Raise TypeError
  end.

(** [FakePatternGenerator.optimize_seams]. *)
Definition optimize_seams (h : heap) (pattern fabric : ref_value)
  : result (heap * ref_value) :=
  metadata ← getitem h pattern "metadata";
  h ← setitem h metadata "seam_optimized" (RBool true);
  metadata ← getitem h pattern "metadata";
  h ← setitem h metadata "note" (RStr "DEMO - No real optimization performed");
  Ok (h, pattern).

(** [FakePatternGenerator.add_seam_allowance]. *)
Definition add_seam_allowance (h : heap) (pattern allowance : ref_value)
  : result (heap * ref_value) :=
  metadata ← getitem h pattern "metadata";
  h ← setitem h metadata "seam_allowance" allowance;
  metadata ← getitem h pattern "metadata";
  h ← setitem h metadata "note" (RStr "DEMO - No real seam allowance added");
  Ok (h, pattern).

(** [FakeFabricSimulator.simulate_collision]. *)
Definition simulate_collision (h : heap) (fabric_mesh body_mesh fabric : ref_value)
  : result (heap * ref_value) :=
  metadata ← getitem h fabric_mesh "metadata";
  h ← setitem h metadata "collision_resolved" (RBool true);
  metadata ← getitem h fabric_mesh "metadata";
  h ← setitem h metadata "note" (RStr "DEMO - No real collision detection");
  Ok (h, fabric_mesh).

(** *** Vocabulary for the frame properties *)

(** The object at [l'] can be reached from the value [v] through items of
    dictionaries and lists. *)
Inductive reaches (h : heap) : ref_value -> loc -> Prop :=
  | reaches_here (l : loc) : reaches h (RRef l) l
  | reaches_dict (l : loc) (d : gmap string ref_value) (k : string)
      (v : ref_value) (l' : loc) :
      h !! l = Some (ODict d) -> d !! k = Some v -> reaches h v l' ->
      reaches h (RRef l) l'
  | reaches_list (l : loc) (vs : list ref_value) (v : ref_value) (l' : loc) :
      h !! l = Some (OList vs) -> v ∈ vs -> reaches h v l' ->
      reaches h (RRef l) l'.

(** Everything that [v] reaches is in [h'] the object it was in [h]. *)
Definition untouched (h h' : heap) (v : ref_value) : Prop :=
  forall l : loc, reaches h v l -> h' !! l = h !! l.

(** The call went from [h] to [h'] and only wrote the items [keys] of the
    metadata dictionary at [m] of the dictionary at [p]: every other object
    of the store is as before, the dictionary at [p] holds the same items as
    before, the metadata has its other items as before, and an item of [p]
    other than ['metadata'] that does not reach [m] is untouched. *)
Definition wrote_metadata_only (h h' : heap) (p m : loc) (keys : list string) : Prop :=
  (forall l : loc, l <> m -> h' !! l = h !! l) /\
  h' !! p = h !! p /\
  (exists md md' : gmap string ref_value,
     h !! m = Some (ODict md) /\ h' !! m = Some (ODict md') /\
     (forall k : string, k ∉ keys -> md' !! k = md !! k) /\
     (forall k : string, k ∈ keys -> is_Some (md' !! k))) /\
  (forall (d : gmap string ref_value) (k : string) (v : ref_value),
     h !! p = Some (ODict d) -> d !! k = Some v -> k <> "metadata"%string ->
     ~ reaches h v m ->
     h' !! p = Some (ODict d) /\ untouched h h' v).

End Store.


(** ** List comprehensions and truth values *)

(** [[f(item) for item in l]]: the first exception ends the comprehension. *)
Fixpoint map_result {A B : Type} (f : A -> result B) (l : list A) : result (list B) :=
  match l with
  | [] => Ok []
  | item :: rest =>
      b ← f item;
      bs ← map_result f rest;
      Ok (b :: bs)
  end.

(** The truth value of a JSON-like value, as [if v] takes it. *)
Definition truthy (v : value) : bool :=
  match v with
  | VNone => false
  | VBool b => b
  | VInt n => negb (n =? 0)%Z
  | VFloat q => negb (Qeq_bool q 0)
  | VStr s => match s with EmptyString => false | String _ _ => true end
  | VList l => match l with [] => false | _ :: _ => true end
  | VDict d => match map_to_list d with [] => false | _ :: _ => true end
  end.

(** [hash(v)], as a set takes it of an item or of a candidate member: a list
    or a dictionary has none. *)
Definition hashed (v : value) : result value :=
  match v with
  | VList _ | VDict _ => Raise TypeError
  | _ => Ok v
  end.

(** [a == b] on values that can be hashed: numbers are compared as numbers,
    whatever their types; a string equals a string with the same characters;
    [None] equals [None]. *)
Definition py_eq (a b : value) : bool :=
  match number a, number b with
  | Some p, Some q => Qeq_bool p q
  | Some _, None | None, Some _ => false
  | None, None =>
      match a, b with
      | VStr s, VStr t => String.eqb s t
      | VNone, VNone => true
      | _, _ => false
      end
  end.

(** [v < 0]: only a number is ordered with an [int]. *)
Definition below_zero (v : value) : result bool :=
  match number v with
  | Some q => Ok (Qltb q 0)
  | None => Raise TypeError
  end.

(** ** pattern.py: the enumerations *)

Module PatternPieceType.

Inductive t : Type :=
  FRONT | BACK | SLEEVE | COLLAR | CUFF | POCKET | FACING | LINING | INTERFACING | CUSTOM.

(** The [value] attribute of a member. *)
Definition value_of (self : t) : string :=
  match self with
  | FRONT => "front" | BACK => "back" | SLEEVE => "sleeve" | COLLAR => "collar"
  | CUFF => "cuff" | POCKET => "pocket" | FACING => "facing" | LINING => "lining"
  | INTERFACING => "interfacing" | CUSTOM => "custom"
  end.

Definition members : list t :=
  [FRONT; BACK; SLEEVE; COLLAR; CUFF; POCKET; FACING; LINING; INTERFACING; CUSTOM].

(** [PatternPieceType(v)]: the member with the value [v]; [ValueError]
    when there is none. *)
Definition call (v : value) : result t :=
  match v with
  | VStr s =>
      match find (fun member => String.eqb (value_of member) s) members with
      | Some member => Ok member
      | None => Raise ValueError
      end
  | _ => Raise ValueError
  end.

End PatternPieceType.

Module NotchType.

Inductive t : Type :=
  SINGLE | DOUBLE | TRIPLE | DOT | CROSS | BUTTONHOLE | BUTTON | PLEAT.

Definition value_of (self : t) : string :=
  match self with
  | SINGLE => "single" | DOUBLE => "double" | TRIPLE => "triple" | DOT => "dot"
  | CROSS => "cross" | BUTTONHOLE => "buttonhole" | BUTTON => "button" | PLEAT => "pleat"
  end.

Definition members : list t :=
  [SINGLE; DOUBLE; TRIPLE; DOT; CROSS; BUTTONHOLE; BUTTON; PLEAT].

Definition call (v : value) : result t :=
  match v with
  | VStr s =>
      match find (fun member => String.eqb (value_of member) s) members with
      | Some member => Ok member
      | None => Raise ValueError
      end
  | _ => Raise ValueError
  end.

End NotchType.

Module SeamType.

Inductive t : Type := PLAIN | FRENCH | FLAT_FELL | OVERLOCK | TOPSTITCH | ZIGZAG | BLIND.

Definition value_of (self : t) : string :=
  match self with
  | PLAIN => "plain" | FRENCH => "french" | FLAT_FELL => "flat_fell"
  | OVERLOCK => "overlock" | TOPSTITCH => "topstitch" | ZIGZAG => "zigzag"
  | BLIND => "blind"
  end.

Definition members : list t :=
  [PLAIN; FRENCH; FLAT_FELL; OVERLOCK; TOPSTITCH; ZIGZAG; BLIND].

Definition call (v : value) : result t :=
  match v with
  | VStr s =>
      match find (fun member => String.eqb (value_of member) s) members with
      | Some member => Ok member
      | None => Raise ValueError
      end
  | _ => Raise ValueError
  end.

End SeamType.

(** ** pattern.py: geometry and validation

    The instances here have fields of the annotated types: points with float
    coordinates, identifiers that are strings.  The classes of [pattern.py]
    are kept apart from those of [data_models.py] by the module
    [pattern_py]. *)

Module pattern_py.

Module Contour.

Record t : Type := mk {
  points : list Point2D;
  closed : bool;
  label : option string
}.

Definition post_init (self : t) : result unit :=
  if (length (points self) <? 2)%nat then Raise ValueError else Ok tt.

(** [Contour(points, closed, label)]. *)
Definition new (points : list Point2D) (closed : bool) (label : option string) : result t :=
  let self := mk points closed label in
  _ ← post_init self;
  Ok self.

Definition num_points (self : t) : Z := Z.of_nat (length (points self)).

Definition get_bounding_box (self : t) : result BoundingBox2D.t :=
  match points self with
  | [] => Raise ValueError
  | _ :: _ =>
      min_x ← py_min_of (map x (points self));
      max_x ← py_max_of (map x (points self));
      min_y ← py_min_of (map y (points self));
      max_y ← py_max_of (map y (points self));
      Ok (BoundingBox2D.mk (mkPoint2D min_x min_y) (mkPoint2D max_x max_y))
  end.

End Contour.

Module Seam.

(** [type] and [metadata] play no part in the validation. *)
Record t : Type := mk {
  id : string;
  piece1_id : string;
  piece2_id : string;
  edge1_indices : list Z;
  edge2_indices : list Z;
  allowance : Q
}.

Definition post_init (self : t) : result unit :=
  if negb (length (edge1_indices self) =? length (edge2_indices self))%nat
  then Raise ValueError
  else if Qltb (allowance self) 0 then Raise ValueError
  else Ok tt.

Definition new (id piece1_id piece2_id : string) (edge1_indices edge2_indices : list Z)
    (allowance : Q) : result t :=
  let self := mk id piece1_id piece2_id edge1_indices edge2_indices allowance in
  _ ← post_init self;
  Ok self.

End Seam.

Module PatternPiece.

(** The fields that the methods below read. *)
Record t : Type := mk {
  id : string;
  name : string;
  outer_contour : Contour.t;
  metadata : gmap string value
}.

Definition get_bounding_box (self : t) : result BoundingBox2D.t :=
  Contour.get_bounding_box (outer_contour self).

Definition is_symmetric (self : t) : value :=
  dict_get (metadata self) "cut_on_fold" (VBool false).

End PatternPiece.

Module Pattern2D.

Record t : Type := mk {
  id : string;
  name : string;
  design_id : option string;
  pieces : list PatternPiece.t;
  seams : list Seam.t
}.

(** The loop of [__post_init__] over the seams. *)
Fixpoint check_seams (piece_ids : gset string) (seams : list Seam.t) : result unit :=
  match seams with
  | [] => Ok tt
  | seam :: rest =>
      if negb (bool_decide (Seam.piece1_id seam ∈ piece_ids)) then Raise ValueError
      else if negb (bool_decide (Seam.piece2_id seam ∈ piece_ids)) then Raise ValueError
      else check_seams piece_ids rest
  end.

Definition post_init (self : t) : result unit :=
  match pieces self with
  | [] => Raise ValueError
  | _ :: _ =>
      let piece_ids : gset string := list_to_set (map PatternPiece.id (pieces self)) in
      check_seams piece_ids (seams self)
  end.

(** [Pattern2D(id, name, design_id, pieces, seams)]. *)
Definition new (id name : string) (design_id : option string)
    (pieces : list PatternPiece.t) (seams : list Seam.t) : result t :=
  let self := mk id name design_id pieces seams in
  _ ← post_init self;
  Ok self.

Definition num_pieces (self : t) : Z := Z.of_nat (length (pieces self)).

Definition num_seams (self : t) : Z := Z.of_nat (length (seams self)).

Definition get_bounding_box (self : t) : result BoundingBox2D.t :=
  match pieces self with
  | [] => Raise ValueError
  | _ :: _ =>
      all_bboxes ← map_result PatternPiece.get_bounding_box (pieces self);
      min_x ← py_min_of (map (fun bbox => x (BoundingBox2D.min_point bbox)) all_bboxes);
      max_x ← py_max_of (map (fun bbox => x (BoundingBox2D.max_point bbox)) all_bboxes);
      min_y ← py_min_of (map (fun bbox => y (BoundingBox2D.min_point bbox)) all_bboxes);
      max_y ← py_max_of (map (fun bbox => y (BoundingBox2D.max_point bbox)) all_bboxes);
      Ok (BoundingBox2D.mk (mkPoint2D min_x min_y) (mkPoint2D max_x max_y))
  end.

(** The loop of [get_piece_by_id] over the pieces that remain. *)
Fixpoint first_with_id (pieces : list PatternPiece.t) (piece_id : string)
  : option PatternPiece.t :=
  match pieces with
  | [] => None
  | piece :: rest =>
      if String.eqb (PatternPiece.id piece) piece_id then Some piece
      else first_with_id rest piece_id
  end.

Definition get_piece_by_id (self : t) (piece_id : string) : option PatternPiece.t :=
  first_with_id (pieces self) piece_id.

(** Some piece of [pieces] carries the identifier. *)
Definition known_id (pieces : list PatternPiece.t) (piece_id : string) : Prop :=
  exists piece, In piece pieces /\ PatternPiece.id piece = piece_id.

End Pattern2D.

End pattern_py.

(** ** common.py and pattern.py: [to_dict] and [from_dict]

    A dataclass does not check the types of its fields, and [from_dict]
    stores what the dictionary holds: the instances here have fields that
    hold any JSON-like value where [from_dict] copies an entry, and an
    instance where it builds one. *)

Module Untyped.

Module Point2D.

Record t : Type := mk { x : value; y : value }.

Definition to_dict (self : t) : value :=
  VDict (<["x" := x self]> (<["y" := y self]> ∅)).

Definition from_dict (data : value) : result t :=
  x ← py_getitem data "x";
  y ← py_getitem data "y";
  Ok (mk x y).

End Point2D.

Module BoundingBox2D.

Record t : Type := mk { min_point : Point2D.t; max_point : Point2D.t }.

Definition to_dict (self : t) : value :=
  VDict (<["min_point" := Point2D.to_dict (min_point self)]>
        (<["max_point" := Point2D.to_dict (max_point self)]> ∅)).

Definition from_dict (data : value) : result t :=
  min_data ← py_getitem data "min_point";
  min_point ← Point2D.from_dict min_data;
  max_data ← py_getitem data "max_point";
  max_point ← Point2D.from_dict max_data;
  Ok (mk min_point max_point).

End BoundingBox2D.

Module Transform2D.

Record t : Type := mk { translation : Point2D.t; rotation : value; scale : Point2D.t }.

Definition to_dict (self : t) : value :=
  VDict (<["translation" := Point2D.to_dict (translation self)]>
        (<["rotation" := rotation self]>
        (<["scale" := Point2D.to_dict (scale self)]> ∅))).

Definition from_dict (data : value) : result t :=
  translation_data ← py_getitem data "translation";
  translation ← Point2D.from_dict translation_data;
  rotation ← py_getitem data "rotation";
  scale_data ← py_getitem data "scale";
  scale ← Point2D.from_dict scale_data;
  Ok (mk translation rotation scale).

(** [cls()]: the defaults of the three fields. *)
Definition identity : t :=
  mk (Point2D.mk (VFloat 0.0) (VFloat 0.0)) (VFloat 0.0)
     (Point2D.mk (VFloat 1.0) (VFloat 1.0)).

End Transform2D.

Module Contour.

Record t : Type := mk { points : list Point2D.t; closed : value; label : value }.

Definition post_init (self : t) : result unit :=
  if (length (points self) <? 2)%nat then Raise ValueError else Ok tt.

Definition new (points : list Point2D.t) (closed label : value) : result t :=
  let self := mk points closed label in
  _ ← post_init self;
  Ok self.

Definition to_dict (self : t) : value :=
  VDict (<["points" := VList (map Point2D.to_dict (points self))]>
        (<["closed" := closed self]>
        (<["label" := label self]> ∅))).

Definition from_dict (data : value) : result t :=
  points_data ← py_getitem data "points";
  items ← py_iter points_data;
  points ← map_result Point2D.from_dict items;
  closed ← py_get data "closed" (VBool true);
  label ← py_get data "label" VNone;
  new points closed label.

End Contour.

Module GrainLine.

Record t : Type := mk { start : Point2D.t; end_ : Point2D.t; label : value }.

Definition to_dict (self : t) : value :=
  VDict (<["start" := Point2D.to_dict (start self)]>
        (<["end" := Point2D.to_dict (end_ self)]>
        (<["label" := label self]> ∅))).

Definition from_dict (data : value) : result t :=
  start_data ← py_getitem data "start";
  start ← Point2D.from_dict start_data;
  end_data ← py_getitem data "end";
  end_ ← Point2D.from_dict end_data;
  label ← py_get data "label" (VStr "GRAIN");
  Ok (mk start end_ label).

End GrainLine.

Module Notch.

Record t : Type := mk {
  id : value;
  position : Point2D.t;
  type : NotchType.t;
  label : value
}.

Definition to_dict (self : t) : value :=
  VDict (<["id" := id self]>
        (<["position" := Point2D.to_dict (position self)]>
        (<["type" := VStr (NotchType.value_of (type self))]>
        (<["label" := label self]> ∅)))).

Definition from_dict (data : value) : result t :=
  id ← py_getitem data "id";
  position_data ← py_getitem data "position";
  position ← Point2D.from_dict position_data;
  type_data ← py_getitem data "type";
  type ← NotchType.call type_data;
  label ← py_get data "label" VNone;
  Ok (mk id position type label).

End Notch.

Module PatternPiece.

Record t : Type := mk {
  id : value;
  name : value;
  type : PatternPieceType.t;
  outer_contour : Contour.t;
  inner_contours : list Contour.t;
  grain_line : option GrainLine.t;
  notches : list Notch.t;
  transform : Transform2D.t;
  metadata : value
}.

Definition to_dict (self : t) : value :=
  VDict (<["id" := id self]>
        (<["name" := name self]>
        (<["type" := VStr (PatternPieceType.value_of (type self))]>
        (<["outer_contour" := Contour.to_dict (outer_contour self)]>
        (<["inner_contours" := VList (map Contour.to_dict (inner_contours self))]>
        (<["grain_line" := match grain_line self with
                           | Some grain_line => GrainLine.to_dict grain_line
                           | None => VNone
                           end]>
        (<["notches" := VList (map Notch.to_dict (notches self))]>
        (<["transform" := Transform2D.to_dict (transform self)]>
        (<["metadata" := metadata self]> ∅))))))))).

(** The dictionary that stands in for a missing ['transform']. *)
Definition default_transform : value :=
  VDict (<["matrix" := VList [VList [VInt 1; VInt 0; VInt 0];
                              VList [VInt 0; VInt 1; VInt 0];
                              VList [VInt 0; VInt 0; VInt 1]]]> ∅).

Definition from_dict (data : value) : result t :=
  id ← py_getitem data "id";
  name ← py_getitem data "name";
  type_data ← py_getitem data "type";
  type ← PatternPieceType.call type_data;
  outer_data ← py_getitem data "outer_contour";
  outer_contour ← Contour.from_dict outer_data;
  inner_data ← py_get data "inner_contours" (VList []);
  inner_items ← py_iter inner_data;
  inner_contours ← map_result Contour.from_dict inner_items;
  grain_data ← py_get data "grain_line" VNone;
  grain_line ← (if truthy grain_data then
                  grain_data ← py_getitem data "grain_line";
                  grain_line ← GrainLine.from_dict grain_data;
                  Ok (Some grain_line)
                else Ok None);
  notch_data ← py_get data "notches" (VList []);
  notch_items ← py_iter notch_data;
  notches ← map_result Notch.from_dict notch_items;
  transform_data ← py_get data "transform" default_transform;
  transform ← Transform2D.from_dict transform_data;
  metadata ← py_get data "metadata" (VDict ∅);
  Ok (mk id name type outer_contour inner_contours grain_line notches transform metadata).

End PatternPiece.

Module Seam.

Record t : Type := mk {
  id : value;
  piece1_id : value;
  piece2_id : value;
  edge1_indices : value;
  edge2_indices : value;
  type : SeamType.t;
  allowance : value;
  metadata : value
}.

Definition post_init (self : t) : result unit :=
  n1 ← py_len (edge1_indices self);
  n2 ← py_len (edge2_indices self);
  if negb (n1 =? n2)%Z then Raise ValueError
  else
    (negative ← below_zero (allowance self);
     if (negative : bool) then Raise ValueError else Ok tt).

Definition new (id piece1_id piece2_id edge1_indices edge2_indices : value)
    (type : SeamType.t) (allowance metadata : value) : result t :=
  let self := mk id piece1_id piece2_id edge1_indices edge2_indices type allowance
                 metadata in
  _ ← post_init self;
  Ok self.

Definition to_dict (self : t) : value :=
  VDict (<["id" := id self]>
        (<["piece1_id" := piece1_id self]>
        (<["piece2_id" := piece2_id self]>
        (<["edge1_indices" := edge1_indices self]>
        (<["edge2_indices" := edge2_indices self]>
        (<["type" := VStr (SeamType.value_of (type self))]>
        (<["allowance" := allowance self]>
        (<["metadata" := metadata self]> ∅)))))))).

Definition from_dict (data : value) : result t :=
  id ← py_getitem data "id";
  piece1_id ← py_getitem data "piece1_id";
  piece2_id ← py_getitem data "piece2_id";
  edge1_indices ← py_getitem data "edge1_indices";
  edge2_indices ← py_getitem data "edge2_indices";
  type_data ← py_get data "type" (VStr "plain");
  type ← SeamType.call type_data;
  allowance ← py_get data "allowance" (VFloat 1.0);
  metadata ← py_get data "metadata" (VDict ∅);
  new id piece1_id piece2_id edge1_indices edge2_indices type allowance metadata.

End Seam.

Module Pattern2D.

Record t : Type := mk {
  id : value;
  name : value;
  design_id : value;
  pieces : list PatternPiece.t;
  seams : list Seam.t;
  format : value;
  metadata : value;
  version : value
}.

(** [piece_id not in piece_ids]. *)
Definition unknown (piece_ids : list value) (piece_id : value) : result bool :=
  piece_id ← hashed piece_id;
  Ok (negb (existsb (py_eq piece_id) piece_ids)).

(** The loop of [__post_init__] over the seams. *)
Fixpoint check_seams (piece_ids : list value) (seams : list Seam.t) : result unit :=
  match seams with
  | [] => Ok tt
  | seam :: rest =>
      unknown1 ← unknown piece_ids (Seam.piece1_id seam);
      if (unknown1 : bool) then Raise ValueError
      else
        (unknown2 ← unknown piece_ids (Seam.piece2_id seam);
         if (unknown2 : bool) then Raise ValueError
         else check_seams piece_ids rest)
  end.

(** The set [piece_ids] is kept as the list of its items. *)
Definition post_init (self : t) : result unit :=
  match pieces self with
  | [] => Raise ValueError
  | _ :: _ =>
      piece_ids ← map_result (fun piece => hashed (PatternPiece.id piece)) (pieces self);
      check_seams piece_ids (seams self)
  end.

Definition new (id name design_id : value) (pieces : list PatternPiece.t)
    (seams : list Seam.t) (format metadata version : value) : result t :=
  let self := mk id name design_id pieces seams format metadata version in
  _ ← post_init self;
  Ok self.

Definition to_dict (self : t) : value :=
  VDict (<["id" := id self]>
        (<["name" := name self]>
        (<["design_id" := design_id self]>
        (<["pieces" := VList (map PatternPiece.to_dict (pieces self))]>
        (<["seams" := VList (map Seam.to_dict (seams self))]>
        (<["format" := format self]>
        (<["metadata" := metadata self]>
        (<["version" := version self]> ∅)))))))).

Definition from_dict (data : value) : result t :=
  id ← py_getitem data "id";
  name ← py_getitem data "name";
  design_id ← py_get data "design_id" VNone;
  pieces_data ← py_getitem data "pieces";
  piece_items ← py_iter pieces_data;
  pieces ← map_result PatternPiece.from_dict piece_items;
  seams_data ← py_get data "seams" (VList []);
  seam_items ← py_iter seams_data;
  seams ← map_result Seam.from_dict seam_items;
  format ← py_get data "format" (VStr "JSON");
  metadata ← py_get data "metadata" (VDict ∅);
  version ← py_get data "version" (VStr "1.0");
  new id name design_id pieces seams format metadata version.

End Pattern2D.

End Untyped.

(** ** Sessions with the mock API *)

(** The endpoints called one after the other, each with the world it reads.
    A call that raises leaves the three APIs as they were: [optimize], the
    one function that can raise, does so before it writes to the optimizer. *)
Fixpoint session (s : apis) (calls : list (endpoint * world))
  : apis * list (result value) :=
  match calls with
  | [] => (s, [])
  | (e, w) :: rest =>
      match call s e w with
      | Ok (s1, response) =>
          let '(s2, responses) := session s1 rest in (s2, Ok response :: responses)
      | Raise err =>
          let '(s2, responses) := session s rest in (s2, Raise err :: responses)
      end
  end.

(** The ['data'] of the responses to [optimize_layout] that came back, in
    the order of the calls. *)
Fixpoint optimized (calls : list (endpoint * world)) (responses : list (result value))
  : list value :=
  match calls, responses with
  | (OptimizeLayout _, _) :: calls, Ok (VDict envelope) :: responses =>
      match envelope !! "data" with
      | Some data => data :: optimized calls responses
      | None => optimized calls responses
      end
  | _ :: calls, _ :: responses => optimized calls responses
  | _, _ => []
  end.

(** The entry of a layout for the piece [piece_id], placed at [x = px]. *)
Definition placement (piece_id : string) (px : Z) : value :=
  VDict {[ "piece_id" := VStr piece_id;
           "position" := VDict {[ "x" := VInt px; "y" := VInt 0 ]};
           "rotation" := VInt 0 ]}.

(** ** In-place updates: when they go through *)

(** [v] refers to a dictionary whose ['metadata'] refers to the dictionary at
    [m], with the items [md]. *)
Definition metadata_at (h : Store.heap) (v : Store.ref_value) (m : Store.loc)
    (md : gmap string Store.ref_value) : Prop :=
  exists (p : Store.loc) (d : gmap string Store.ref_value),
    v = Store.RRef p /\ h !! p = Some (Store.ODict d) /\
    d !! "metadata" = Some (Store.RRef m) /\ h !! m = Some (Store.ODict md).

(** The shape that [optimize_seams], [add_seam_allowance] and
    [simulate_collision] share: read ['metadata'], set one item, read
    ['metadata'] again, set a second item, return the argument. *)
Definition two_writes (h : Store.heap) (v : Store.ref_value) (k1 k2 : string)
    (v1 v2 : Store.ref_value) : result (Store.heap * Store.ref_value) :=
  metadata ← Store.getitem h v "metadata";
  h1 ← Store.setitem h metadata k1 v1;
  metadata ← Store.getitem h1 v "metadata";
  h2 ← Store.setitem h1 metadata k2 v2;
  Ok (h2, v).

(** ** Measurement: the constraint of the numeric fields *)

(** Every numeric field that is set holds a number above zero, as the
    declaration of the fields demands ([gt=0]). *)
Definition all_positive (m : Measurement.t) : Prop :=
  Forall (fun f : string * (Measurement.t -> option Q) =>
            match f.2 m with
            | Some v => 0 < v
            | None => True
            end)
         Measurement.numeric_fields.

(** Every numeric field that is set holds a number between [2^-400] and
    [2^400]: a multiple of it by a factor between two units is neither
    rounded to zero nor beyond the floats. *)
Definition all_sizeable (m : Measurement.t) : Prop :=
  Forall (fun f : string * (Measurement.t -> option Q) =>
            match f.2 m with
            | Some v => sizeable v
            | None => True
            end)
         Measurement.numeric_fields.

(** ** common.py: Texture

    As for the classes of [Untyped], a field holds any value. *)

Module Texture.

Record t : Type := mk {
  file_path : value;
  width : value;
  height : value;
  format : value;
  wrap_u : value;
  wrap_v : value;
  metadata : value
}.

Definition valid_wrap_modes : list string := ["repeat"; "clamp"; "mirror"]%string.

(** [mode not in valid_wrap_modes]: a list or a dictionary cannot be hashed;
    of the other values only a string can equal a member. *)
Definition not_in_modes (mode : value) : result bool :=
  match mode with
  | VStr s => Ok (negb (existsb (String.eqb s) valid_wrap_modes))
  | VList _ | VDict _ => Raise TypeError
  | _ => Ok true
  end.

(** [size is not None and size <= 0]. *)
Definition not_positive (size : value) : result bool :=
  match size with
  | VNone => Ok false
  | VInt n => Ok (n <=? 0)%Z
  | VBool b => Ok (negb b)
  | VFloat q => Ok (Qle_bool q 0)
  | _ => Raise TypeError
  end.

(** One test of [__post_init__]: [ValueError] when it holds. *)
Definition refuse_if (test : result bool) : result unit :=
  bad ← test;
  if (bad : bool) then Raise ValueError else Ok tt.

Definition post_init (self : t) : result unit :=
  _ ← refuse_if (not_in_modes (wrap_u self));
  _ ← refuse_if (not_in_modes (wrap_v self));
  _ ← refuse_if (not_positive (width self));
  refuse_if (not_positive (height self)).

Definition new (file_path width height format wrap_u wrap_v metadata : value) : result t :=
  let self := mk file_path width height format wrap_u wrap_v metadata in
  _ ← post_init self;
  Ok self.

Definition to_dict (self : t) : value :=
  VDict (<["file_path" := file_path self]>
        (<["width" := width self]>
        (<["height" := height self]>
        (<["format" := format self]>
        (<["wrap_u" := wrap_u self]>
        (<["wrap_v" := wrap_v self]>
        (<["metadata" := metadata self]> ∅))))))).

Definition from_dict (data : value) : result t :=
  file_path ← py_getitem data "file_path";
  width ← py_get data "width" VNone;
  height ← py_get data "height" VNone;
  format ← py_get data "format" VNone;
  wrap_u ← py_get data "wrap_u" (VStr "repeat");
  wrap_v ← py_get data "wrap_v" (VStr "repeat");
  metadata ← py_get data "metadata" (VDict ∅);
  new file_path width height format wrap_u wrap_v metadata.

End Texture.

(** A size as the annotation has it: [None] or an [int]. *)
Definition optional_int (size : option Z) : value :=
  match size with
  | Some n => VInt n
  | None => VNone
  end.

(** ** Instances that [from_dict] takes back *)

(** Every contour of the piece has at least two points. *)
Definition loadable_piece (p : Untyped.PatternPiece.t) : Prop :=
  Untyped.Contour.post_init (Untyped.PatternPiece.outer_contour p) = Ok tt /\
  Forall (fun c => Untyped.Contour.post_init c = Ok tt)
         (Untyped.PatternPiece.inner_contours p).

(** ** Outlines that return to their first point *)

(** The outline has at least three points and its last point is its first. *)
Definition explicitly_closed (piece : PatternPiece.t) : Prop :=
  (3 <= length (PatternPiece.outline piece))%nat /\
  List.last (PatternPiece.outline piece) PatternPiece.origin
  = nth 0 (PatternPiece.outline piece) PatternPiece.origin.

(** The vertices of the polygon that such an outline draws. *)
Definition polygon (piece : PatternPiece.t) : list Point2D :=
  removelast (PatternPiece.outline piece).

(** ** common.py on binary64: BoundingBox2D

    The methods of [BoundingBox2D] once more, on the floats of the
    interpreter (IEEE 754 binary64, rounding to nearest), for the inputs at
    which a width, an area or a sum leaves the range of the rationals'
    counterpart: beyond the largest float a result is an infinity, the
    difference of two infinities is NaN, and a product below the smallest
    float is zero. *)

Module Binary64.

Import PrimFloat.

#[local] Open Scope float_scope.

Record Point2D : Type := mkPoint2D { x : float; y : float }.

(** [max(a, b)] and [min(a, b)]: the first argument unless the second is
    strictly greater, strictly smaller. *)
Definition py_max (a b : float) : float := if a <? b then b else a.

Definition py_min (a b : float) : float := if b <? a then b else a.

(** [a / b] raises [ZeroDivisionError] on a divisor equal to zero. *)
Definition float_div (a b : float) : result float :=
  if b =? 0 then Raise ZeroDivisionError else Ok (a / b).

Module BoundingBox2D.

Record t : Type := mk { min_point : Point2D; max_point : Point2D }.

Definition width (self : t) : float := x (max_point self) - x (min_point self).

Definition height (self : t) : float := y (max_point self) - y (min_point self).

Definition area (self : t) : float := width self * height self.

Definition center (self : t) : result Point2D :=
  cx ← float_div (x (min_point self) + x (max_point self)) 2;
  cy ← float_div (y (min_point self) + y (max_point self)) 2;
  Ok (mkPoint2D cx cy).

Definition intersects (self other : t) : bool :=
  negb ((x (max_point self) <? x (min_point other))
        || (x (max_point other) <? x (min_point self))
        || (y (max_point self) <? y (min_point other))
        || (y (max_point other) <? y (min_point self))).

Definition intersection (self other : t) : option t :=
  if negb (intersects self other) then None
  else
    let min_x := py_max (x (min_point self)) (x (min_point other)) in
    let min_y := py_max (y (min_point self)) (y (min_point other)) in
    let max_x := py_min (x (max_point self)) (x (max_point other)) in
    let max_y := py_min (y (max_point self)) (y (max_point other)) in
    Some (mk (mkPoint2D min_x min_y) (mkPoint2D max_x max_y)).

Definition iou (self other : t) : result float :=
  match intersection self other with
  | None => Ok 0
  | Some intersection_box =>
      let intersection_area := area intersection_box in
      let union_area := area self + area other - intersection_area in
      if union_area =? 0 then Ok 0
      else float_div intersection_area union_area
  end.

(** [min_point] is componentwise below [max_point]. *)
Definition ordered (b : t) : bool :=
  (x (min_point b) <=? x (max_point b)) && (y (min_point b) <=? y (max_point b)).

(** The point [p] lies in the box, borders included. *)
Definition inside (b : t) (p : Point2D) : bool :=
  (x (min_point b) <=? x p) && (x p <=? x (max_point b))
  && (y (min_point b) <=? y p) && (y p <=? y (max_point b)).

End BoundingBox2D.


Definition minute_box : BoundingBox2D.t :=
  BoundingBox2D.mk (mkPoint2D 0 0) (mkPoint2D 0x1p-600 0x1p-600).

Definition far_box : BoundingBox2D.t :=
  BoundingBox2D.mk (mkPoint2D 0x1p1023 0) (mkPoint2D 0x1p1023 0).

End Binary64.
(** ** Sample inputs *)

Definition unit_triangle : PatternPiece.t :=
  PatternPiece.mk "t1" "triangle"
    [mkPoint2D 1 1; mkPoint2D 2 1; mkPoint2D 1 2] false 1.

(** A world whose clock advances by 3 ms and whose random draws are all 1/2. *)
Definition sample_world : world := mkWorld 10 (10 + 3 # 1000) 4242 (fun _ => 1 # 2).

Definition sample_apis : apis :=
  mkApis MockPatternAPI.init MockFabricAPI.init MockLayoutAPI.init.

(** A pattern (at location 1) whose ['pieces'] item is the very dictionary
    (at location 2) that is also its ['metadata']. *)
Definition shared_store : Store.heap :=
  {[ 1%positive := Store.ODict {[ "metadata" := Store.RRef 2; "pieces" := Store.RRef 2 ]};
     2%positive := Store.ODict ∅ ]}.

(** A pattern (at 1) with its metadata (at 2) and its list of pieces (at 3),
    one piece (at 4). *)
Definition tree_store : Store.heap :=
  {[ 1%positive := Store.ODict {[ "metadata" := Store.RRef 2; "pieces" := Store.RRef 3 ]};
     2%positive := Store.ODict {[ "version" := Store.RStr "1.0.0-demo" ]};
     3%positive := Store.OList [Store.RRef 4];
     4%positive := Store.ODict {[ "id" := Store.RStr "front_panel" ]} ]}.

(** The boxes of the docstrings of [intersects], [intersection] and [iou]. *)
Definition box_a : BoundingBox2D.t := BoundingBox2D.mk (mkPoint2D 0 0) (mkPoint2D 10 10).
Definition box_b : BoundingBox2D.t := BoundingBox2D.mk (mkPoint2D 5 5) (mkPoint2D 15 15).

(** Keyword arguments for [LayoutResult] with a waste percentage, 10, that
    does not fit the utilization rate, 3/4. *)
Definition sample_kwargs : LayoutResult.t unit unit unit unit :=
  LayoutResult.mk "layout_1" tt tt [] 120 (3 # 4) 10 5000 9000
    LayoutStrategy.GREEDY OptimizationObjective.MINIMIZE_WASTE 2 tt.

(** A pattern of two pieces, the second without an ['id']. *)
Definition two_pieces : list (gmap string value) :=
  [ {[ "id" := VStr "front_panel" ]}; ∅ ].

Definition sample_pattern : gmap string value :=
  {[ "pieces" := VList (VDict <$> two_pieces) ]}.


(** The corners of the square with side 2 at (1, 1), and the piece whose
    outline walks them and returns to the first. *)
Definition square_corners : list Point2D :=
  [mkPoint2D 1 1; mkPoint2D 3 1; mkPoint2D 3 3; mkPoint2D 1 3].

Definition closed_square : PatternPiece.t :=
  PatternPiece.mk "square" "Square" (square_corners ++ [mkPoint2D 1 1]) false 1.

(** The point with the integer coordinates [px] and [py]. *)
Definition point (px py : Z) : Untyped.Point2D.t := Untyped.Point2D.mk (VInt px) (VInt py).

(** A pocket with a triangular outer contour, one inner contour, a grain
    line, one notch and the identity transform. *)
Definition sample_piece : Untyped.PatternPiece.t :=
  Untyped.PatternPiece.mk (VStr "pocket_1") (VStr "Pocket") PatternPieceType.POCKET
    (Untyped.Contour.mk [point 0 0; point 12 0; point 6 9] (VBool true) VNone)
    [Untyped.Contour.mk [point 4 2; point 8 2] (VBool false) (VStr "slit")]
    (Some (Untyped.GrainLine.mk (point 6 1) (point 6 8) (VStr "GRAIN")))
    [Untyped.Notch.mk (VStr "n1") (point 6 0) NotchType.SINGLE VNone]
    Untyped.Transform2D.identity
    (VDict ∅).

(** The entries of [sample_piece.to_dict()] other than ['transform']. *)
Definition sample_piece_without_transform : gmap string value :=
  match Untyped.PatternPiece.to_dict sample_piece with
  | VDict e => delete "transform" e
  | _ => ∅
  end.

(** A chest of 40 and a waist of 32 inches, with a custom cuff of 9. *)
Definition sample_measurement : Measurement.t :=
  Measurement.mk (Some 40) (Some 32) None None None None None None None None None None
    None None None None MeasurementUnit.INCHES None None {[ "cuff" := 9 ]}.

(** The fabric of the demo: 150.0 wide. *)
Definition sample_fabric : gmap string value :=
  {[ "id" := VStr "fabric_001"; "width" := VFloat 150.0 ]}.

(** Two pieces of a typed pattern, a triangle and a segment next to it, and
    a seam between them. *)
Definition triangle_piece : pattern_py.PatternPiece.t :=
  pattern_py.PatternPiece.mk "front" "Front"
    (pattern_py.Contour.mk [mkPoint2D 0 0; mkPoint2D 12 0; mkPoint2D 6 9] true None) ∅.

Definition segment_piece : pattern_py.PatternPiece.t :=
  pattern_py.PatternPiece.mk "back" "Back"
    (pattern_py.Contour.mk [mkPoint2D 20 (-2); mkPoint2D 30 4] false None) ∅.

Definition side_seam : pattern_py.Seam.t :=
  pattern_py.Seam.mk "side" "front" "back" [0; 1]%Z [1; 0]%Z 1.0.

(** A pattern with the sample piece and a seam from the piece to itself. *)
Definition sample_seam : Untyped.Seam.t :=
  Untyped.Seam.mk (VStr "s1") (VStr "pocket_1") (VStr "pocket_1")
    (VList [VInt 0; VInt 1]) (VList [VInt 1; VInt 2]) SeamType.TOPSTITCH (VFloat 1.0)
    (VDict ∅).

Definition sample_pattern2d : Untyped.Pattern2D.t :=
  Untyped.Pattern2D.mk (VStr "pattern_1") (VStr "Pocket") VNone [sample_piece] [sample_seam]
    (VStr "JSON") (VDict ∅) (VStr "1.0").
(** * Properties *)

Section NumberFacts.


Lemma Qltb_ge (a b : Q) : Qltb a b = false <-> b <= a.
Proof.
  unfold Qltb. rewrite negb_false_iff. apply Qle_bool_iff.
Qed.



End NumberFacts.


(** ** BoundingBox2D *)

Section BoundingBoxFacts.

Import BoundingBox2D.

Variables a b : BoundingBox2D.t.

Lemma intersects_true_iff :
  intersects a b = true <->
  x (min_point b) <= x (max_point a) /\ x (min_point a) <= x (max_point b) /\
  y (min_point b) <= y (max_point a) /\ y (min_point a) <= y (max_point b).
Proof.
  unfold intersects. rewrite negb_true_iff, !orb_false_iff, !Qltb_ge. tauto.
Qed.


End BoundingBoxFacts.


Section IouFacts.

Import BoundingBox2D.

Lemma intersects_sym (a b : t) : intersects a b = intersects b a.
Proof.
  unfold intersects.
  destruct (Qltb (x (max_point a)) (x (min_point b))),
           (Qltb (x (max_point b)) (x (min_point a))),
           (Qltb (y (max_point a)) (y (min_point b))),
           (Qltb (y (max_point b)) (y (min_point a))); reflexivity.
Qed.





End IouFacts.


Section HugeBox.

Import PrimFloat.


End HugeBox.


(** ** PatternPiece.get_area *)

Section AreaFacts.

Import PatternPiece.

(** An outline of fewer than three points has area [0.0]. *)
Lemma get_area_short (p : t) : (length (outline p) < 3)%nat -> get_area p = 0.0.
Proof.
  intros H. unfold get_area.
  destruct (Nat.ltb_spec (length (outline p)) 3); [reflexivity | lia].
Qed.

Lemma py_sum_snoc (l : list Q) (q : Q) : py_sum (l ++ [q]) = py_sum l + q.
Proof. unfold py_sum. rewrite fold_left_app. reflexivity. Qed.

Lemma nth_x (pts : list Point2D) (i : nat) :
  nth i (map fst (map to_tuple pts)) 0 = x (nth i pts origin).
Proof.
  rewrite map_map. change 0 with (fst (to_tuple origin)).
  apply (map_nth (fun p => fst (to_tuple p))).
Qed.

Lemma nth_y (pts : list Point2D) (i : nat) :
  nth i (map snd (map to_tuple pts)) 0 = y (nth i pts origin).
Proof.
  rewrite map_map. change 0 with (snd (to_tuple origin)).
  apply (map_nth (fun p => snd (to_tuple p))).
Qed.

(** What [get_area] sums: the edges between consecutive outline points. *)
Lemma get_area_open_edges (p : t) :
  (3 <= length (outline p))%nat ->
  get_area p
  = 0.5 * Qabs (py_sum (map (fun i => cross (nth i (outline p) origin)
                                           (nth (i + 1) (outline p) origin))
                            (seq 0 (length (outline p) - 1)))).
Proof.
  intros Hn. unfold get_area.
  destruct (Nat.ltb_spec (length (outline p)) 3) as [Hlt|_]; [lia|].
  cbv zeta. rewrite length_map. do 3 f_equal.
  apply map_ext. intros i. unfold cross. rewrite !nth_x, !nth_y. reflexivity.
Qed.

(** What the shoelace formula sums: the same edges and the closing one. *)
Lemma shoelace_area_edges (pts : list Point2D) :
  (1 <= length pts)%nat ->
  shoelace_area pts
  = (1 # 2) * Qabs (py_sum (map (fun i => cross (nth i pts origin)
                                               (nth (i + 1) pts origin))
                                (seq 0 (length pts - 1)))
                    + cross (nth (length pts - 1) pts origin) (nth 0 pts origin)).
Proof.
  intros Hn. unfold shoelace_area. cbv zeta.
  replace (seq 0 (length pts)) with (seq 0 (length pts - 1) ++ [(length pts - 1)%nat]).
  2:{ replace (length pts) with (length pts - 1 + 1)%nat at 3 by lia.
      rewrite seq_app. reflexivity. }
  rewrite map_app. cbn [map]. rewrite py_sum_snoc. do 3 f_equal.
  - f_equal. apply map_ext_in. intros i Hi. apply in_seq in Hi.
    rewrite !Nat.mod_small by lia. reflexivity.
  - replace (length pts - 1 + 1)%nat with (length pts) by lia.
    rewrite Nat.Div0.mod_same, Nat.mod_small by lia. reflexivity.
Qed.

(** [get_area] is the shoelace area whenever the closing edge adds nothing
    to the sum, as it does for an outline that repeats its first point at the
    end or that starts at the origin. *)
Lemma get_area_closed_outline (p : t) :
  (3 <= length (outline p))%nat ->
  cross (nth (length (outline p) - 1) (outline p) origin) (nth 0 (outline p) origin) == 0 ->
  get_area p == shoelace_area (outline p).
Proof.
  intros Hn Hc.
  rewrite get_area_open_edges by exact Hn.
  rewrite shoelace_area_edges by lia.
  rewrite Hc, Qplus_0_r.
  apply Qmult_comp; [unfold Qeq; reflexivity | reflexivity].
Qed.

End AreaFacts.

(** C1. On the triangle (1,1), (2,1), (1,2), whose area is 1/2 by the shoelace
    formula, [get_area] returns 1: its sum runs over [range(len(points) - 1)]
    and so leaves out the closing edge from the last point back to the
    first. *)
Theorem get_area_omits_closing_edge :
  PatternPiece.get_area unit_triangle == 1 /\
  PatternPiece.shoelace_area (PatternPiece.outline unit_triangle) == 1 # 2 /\
  ~ PatternPiece.get_area unit_triangle
    == PatternPiece.shoelace_area (PatternPiece.outline unit_triangle).
Proof.
  split; [reflexivity|]. split; [reflexivity|]. intros H. discriminate H.
Qed.

(** ** Measurement.convert_to *)

(** C2. [m.convert_to(t)] returns [m] itself when [m.unit] is [t].  Otherwise
    it returns a measurement of unit [t] in which every numeric field that is
    set, and every entry of [custom], is the original value times
    [to_cm[m.unit] / to_cm[t]], where [to_cm] is 1 for cm, 0.1 for mm, 100 for
    m and 2.54 for in; [gender] and [size_category] are unchanged. *)
Theorem convert_to_spec (m : Measurement.t) (t : MeasurementUnit.t) :
  (Measurement.to_cm MeasurementUnit.CENTIMETERS == 1 /\
   Measurement.to_cm MeasurementUnit.MILLIMETERS == 1 # 10 /\
   Measurement.to_cm MeasurementUnit.METERS == 100 /\
   Measurement.to_cm MeasurementUnit.INCHES == 254 # 100) /\
  (Measurement.unit m = t -> Measurement.convert_to m t = Ok m) /\
  (Measurement.unit m <> t ->
   exists m' : Measurement.t,
     Measurement.convert_to m t = Ok m' /\
     Measurement.unit m' = t /\
     Forall (fun f : string * (Measurement.t -> option Q) =>
               f.2 m' = (fun v => v * (Measurement.to_cm (Measurement.unit m)
                                       / Measurement.to_cm t)) <$> f.2 m)
            Measurement.numeric_fields /\
     (forall k : string,
        Measurement.custom m' !! k
        = (fun v => v * (Measurement.to_cm (Measurement.unit m)
                         / Measurement.to_cm t)) <$> Measurement.custom m !! k) /\
     Measurement.gender m' = Measurement.gender m /\
     Measurement.size_category m' = Measurement.size_category m).
Proof.
  split; [repeat split; unfold Qeq; reflexivity|].
  split; intros Hu; unfold Measurement.convert_to.
  - destruct (decide (Measurement.unit m = t)); [reflexivity | contradiction].
  - destruct (decide (Measurement.unit m = t)) as [|_]; [contradiction|].
    assert (Hdiv : float_div (Measurement.to_cm (Measurement.unit m)) (Measurement.to_cm t)
                   = Ok (Measurement.to_cm (Measurement.unit m) / Measurement.to_cm t)).
    { unfold float_div. destruct t; reflexivity. }
    rewrite Hdiv. cbn [mbind result_bind].
    eexists. split; [reflexivity|]. cbn.
    split; [reflexivity|]. split.
    + repeat constructor; cbn; match goal with
        |- Measurement.scaled _ ?o = _ => destruct o; reflexivity end.
    + split; [|split; reflexivity].
      intros k. apply lookup_fmap.
Qed.

(** ** LayoutResult *)

(** C9. Every [LayoutResult] that the constructor returns satisfies
    [waste_percentage = (1 - utilization_rate) * 100], whatever value was
    supplied for [waste_percentage]; its [utilization_rate] is the supplied
    one. *)
Theorem layout_result_waste_invariant
    {Pattern Fabric PlacedPiece datetime : Type}
    (kwargs r : LayoutResult.t Pattern Fabric PlacedPiece datetime) :
  LayoutResult.model_validate kwargs = Ok r ->
  LayoutResult.utilization_rate r = LayoutResult.utilization_rate kwargs /\
  LayoutResult.waste_percentage r = (1 - LayoutResult.utilization_rate r) * 100.
Proof.
  unfold LayoutResult.model_validate.
  destruct (LayoutResult.gt 0 (LayoutResult.fabric_length_used kwargs)); [|discriminate].
  destruct (LayoutResult.ge 0 (LayoutResult.utilization_rate kwargs)
            && LayoutResult.le 1 (LayoutResult.utilization_rate kwargs)) eqn:Hu;
    [|discriminate].
  match goal with |- (if ?c then _ else _) = _ -> _ => destruct c end; [|discriminate].
  intros [= <-]. cbn. split; [reflexivity|].
  unfold LayoutResult.calculate_waste, LayoutResult.validated.
  rewrite lookup_insert_eq. reflexivity.
Qed.

(** ** Color.from_hex *)

Section HexFacts.

Lemma all_ascii_complete (p : ascii -> bool) :
  forallb p all_ascii = true -> forall c, p c = true.
Proof.
  intros H c. rewrite forallb_forall in H. apply H.
  unfold all_ascii. rewrite <- (ascii_nat_embedding c).
  apply in_map, in_seq. pose proof (nat_ascii_bounded c). lia.
Qed.

Lemma all_ascii_pairs (p : ascii -> ascii -> bool) :
  forallb (fun c1 => forallb (p c1) all_ascii) all_ascii = true ->
  forall c1 c2, p c1 c2 = true.
Proof.
  intros H c1 c2.
  apply (all_ascii_complete (p c1)).
  apply (all_ascii_complete (fun c => forallb (p c) all_ascii) H).
Qed.

(** A channel literal of two characters is taken exactly when it is one of
    the [accepted_pair]s. *)
Lemma channel_ok_pair (c1 c2 : ascii) :
  channel_ok (pair c1 c2) = accepted_pair c1 c2.
Proof.
  apply Bool.eqb_prop.
  apply (all_ascii_pairs
           (fun c1 c2 => Bool.eqb (channel_ok (pair c1 c2)) (accepted_pair c1 c2))).
  vm_compute. reflexivity.
Qed.

(** A doubled character is taken exactly when it is a hexadecimal digit. *)
Lemma channel_ok_doubled (c : ascii) :
  channel_ok (pair c c) = is_hex_digit c.
Proof.
  apply Bool.eqb_prop.
  apply (all_ascii_complete
           (fun c => Bool.eqb (channel_ok (pair c c)) (is_hex_digit c))).
  vm_compute. reflexivity.
Qed.

(** A channel never fails with anything but [ValueError]. *)
Lemma channel_raises (c1 c2 : ascii) (e : exn) :
  Color.channel (pair c1 c2) = Raise e -> e = ValueError.
Proof.
  pose proof (all_ascii_pairs
    (fun c1 c2 => match Color.channel (pair c1 c2) with
                  | Raise ValueError | Ok _ => true
                  | Raise _ => false
                  end)) as H.
  specialize (H ltac:(vm_compute; reflexivity) c1 c2). cbv beta in H.
  intros E. rewrite E in H. destruct e; congruence.
Qed.

(** Two hexadecimal digits spell their byte, over 255. *)
Lemma channel_hex_pair (c1 c2 : ascii) (d1 d2 : Z) :
  hex_value c1 = Some d1 -> hex_value c2 = Some d2 ->
  exists q, Color.channel (pair c1 c2) = Ok q /\
            q == inject_Z (16 * d1 + d2) / 255 /\ 0 <= q /\ q <= 1.
Proof.
  pose proof (all_ascii_pairs
    (fun c1 c2 => match hex_value c1, hex_value c2, Color.channel (pair c1 c2) with
                  | Some d1, Some d2, Ok q =>
                      Qeq_bool q (inject_Z (16 * d1 + d2) / 255)
                      && Qle_bool 0 q && Qle_bool q 1
                  | Some _, Some _, Raise _ => false
                  | _, _, _ => true
                  end)) as H.
  specialize (H ltac:(vm_compute; reflexivity) c1 c2). cbv beta in H.
  intros E1 E2. rewrite E1, E2 in H.
  destruct (Color.channel (pair c1 c2)) as [q|]; [|discriminate].
  apply andb_prop in H as [H H3]. apply andb_prop in H as [H1 H2].
  exists q. split; [reflexivity|].
  apply Qeq_bool_iff in H1. apply Qle_bool_iff in H2, H3. auto.
Qed.

Lemma lstrip_hash_spec (s : string) :
  exists n : nat,
    s = String.append (hashes n) (lstrip_hash s) /\
    String.get 0 (lstrip_hash s) <> Some "#"%char.
Proof.
  induction s as [|c s IH].
  - exists 0%nat. split; [reflexivity | discriminate].
  - cbn [lstrip_hash]. destruct (Ascii.eqb_spec c "#") as [->|Hc].
    + destruct IH as (n & Hs & Hh). exists (S n). split; [|exact Hh].
      change (String "#" s = String "#" (String.append (hashes n) (lstrip_hash s))).
      f_equal. exact Hs.
    + exists 0%nat. split; [reflexivity|]. cbn. congruence.
Qed.

Lemma new_ok (r g b a : Q) :
  is_ok (Color.new r g b a)
  = Color.in_unit_range r && Color.in_unit_range g
    && Color.in_unit_range b && Color.in_unit_range a.
Proof.
  unfold Color.new, Color.post_init. cbn [Color.check_channels Color.r Color.g Color.b Color.a].
  destruct (Color.in_unit_range r), (Color.in_unit_range g),
           (Color.in_unit_range b), (Color.in_unit_range a); reflexivity.
Qed.

Lemma new_Ok (r g b a : Q) (c : Color.t) :
  Color.new r g b a = Ok c -> c = Color.mk r g b a.
Proof.
  unfold Color.new, Color.post_init. cbn [Color.check_channels Color.r Color.g Color.b Color.a].
  destruct (Color.in_unit_range r), (Color.in_unit_range g),
           (Color.in_unit_range b), (Color.in_unit_range a); cbn; congruence.
Qed.

Lemma new_raises (r g b a : Q) (e : exn) :
  Color.new r g b a = Raise e -> e = ValueError.
Proof.
  unfold Color.new, Color.post_init. cbn [Color.check_channels Color.r Color.g Color.b Color.a].
  destruct (Color.in_unit_range r), (Color.in_unit_range g),
           (Color.in_unit_range b), (Color.in_unit_range a); cbn; congruence.
Qed.

(** Three channels and a constant alpha. *)
Lemma rgb_ok (R G B : string) :
  is_ok (r ← Color.channel R; g ← Color.channel G; b ← Color.channel B;
         Color.new r g b 1.0)
  = channel_ok R && channel_ok G && channel_ok B.
Proof.
  unfold channel_ok.
  destruct (Color.channel R) as [r|], (Color.channel G) as [g|],
           (Color.channel B) as [b|]; cbn [mbind result_bind is_ok];
    rewrite ?new_ok, ?andb_false_r, ?andb_false_l; try reflexivity.
  change (Color.in_unit_range 1.0) with true. apply andb_true_r.
Qed.

(** Four channels. *)
Lemma rgba_ok (R G B A : string) :
  is_ok (r ← Color.channel R; g ← Color.channel G; b ← Color.channel B;
         a ← Color.channel A; Color.new r g b a)
  = channel_ok R && channel_ok G && channel_ok B && channel_ok A.
Proof.
  unfold channel_ok.
  destruct (Color.channel R) as [r|], (Color.channel G) as [g|],
           (Color.channel B) as [b|], (Color.channel A) as [a|];
    cbn [mbind result_bind is_ok];
    rewrite ?new_ok, ?andb_false_r, ?andb_false_l; reflexivity.
Qed.

Lemma rgb_raises (c0 c1 c2 c3 c4 c5 : ascii) (e : exn) :
  (r ← Color.channel (pair c0 c1); g ← Color.channel (pair c2 c3);
   b ← Color.channel (pair c4 c5); Color.new r g b 1.0) = Raise e ->
  e = ValueError.
Proof.
  destruct (Color.channel (pair c0 c1)) as [r|e0] eqn:E0;
    [|intros [= <-]; exact (channel_raises _ _ _ E0)].
  destruct (Color.channel (pair c2 c3)) as [g|e1] eqn:E1;
    [|intros [= <-]; exact (channel_raises _ _ _ E1)].
  destruct (Color.channel (pair c4 c5)) as [b|e2] eqn:E2;
    [|intros [= <-]; exact (channel_raises _ _ _ E2)].
  cbn [mbind result_bind]. apply new_raises.
Qed.

Lemma rgba_raises (c0 c1 c2 c3 c4 c5 c6 c7 : ascii) (e : exn) :
  (r ← Color.channel (pair c0 c1); g ← Color.channel (pair c2 c3);
   b ← Color.channel (pair c4 c5); a ← Color.channel (pair c6 c7);
   Color.new r g b a) = Raise e ->
  e = ValueError.
Proof.
  destruct (Color.channel (pair c0 c1)) as [r|e0] eqn:E0;
    [|intros [= <-]; exact (channel_raises _ _ _ E0)].
  destruct (Color.channel (pair c2 c3)) as [g|e1] eqn:E1;
    [|intros [= <-]; exact (channel_raises _ _ _ E1)].
  destruct (Color.channel (pair c4 c5)) as [b|e2] eqn:E2;
    [|intros [= <-]; exact (channel_raises _ _ _ E2)].
  destruct (Color.channel (pair c6 c7)) as [a|e3] eqn:E3;
    [|intros [= <-]; exact (channel_raises _ _ _ E3)].
  cbn [mbind result_bind]. apply new_raises.
Qed.

Lemma from_hex_shape (s : string) : hex_shape s.
Proof.
  destruct (lstrip_hash s) as [|c0 [|c1 [|c2 [|c3 [|c4 [|c5 [|c6 [|c7 [|c8 h]]]]]]]]] eqn:Hh.
  1-3, 5-6, 8, 10: apply shape_other; [rewrite Hh; cbn; lia | unfold Color.from_hex; rewrite Hh; reflexivity].
  - eapply shape3; [exact Hh | unfold Color.from_hex; rewrite Hh; reflexivity].
  - eapply shape6; [exact Hh | unfold Color.from_hex; rewrite Hh; reflexivity].
  - eapply shape8; [exact Hh | unfold Color.from_hex; rewrite Hh; reflexivity].
Qed.

Lemma from_hex_is_ok (s : string) :
  is_ok (Color.from_hex s) = accepted_hex (lstrip_hash s).
Proof.
  destruct (from_hex_shape s) as [c0 c1 c2 Hh Hf|c0 c1 c2 c3 c4 c5 Hh Hf
                                 |c0 c1 c2 c3 c4 c5 c6 c7 Hh Hf|(H3 & H6 & H8) Hf];
    rewrite Hf.
  - rewrite rgb_ok, !channel_ok_doubled, Hh.
    unfold accepted_hex.
    cbn [String.length Nat.eqb all_chars accepted_pairs andb orb].
    destruct (is_hex_digit c0), (is_hex_digit c1), (is_hex_digit c2); reflexivity.
  - rewrite rgb_ok, !channel_ok_pair, Hh.
    unfold accepted_hex.
    cbn [String.length Nat.eqb all_chars accepted_pairs andb orb].
    destruct (accepted_pair c0 c1), (accepted_pair c2 c3), (accepted_pair c4 c5);
      reflexivity.
  - rewrite rgba_ok, !channel_ok_pair, Hh.
    unfold accepted_hex.
    cbn [String.length Nat.eqb all_chars accepted_pairs andb orb].
    destruct (accepted_pair c0 c1), (accepted_pair c2 c3), (accepted_pair c4 c5),
             (accepted_pair c6 c7); reflexivity.
  - unfold accepted_hex.
    apply Nat.eqb_neq in H3, H6, H8. rewrite H3, H6, H8. reflexivity.
Qed.

Lemma from_hex_raises (s : string) (e : exn) :
  Color.from_hex s = Raise e -> e = ValueError.
Proof.
  destruct (from_hex_shape s) as [c0 c1 c2 Hh Hf|c0 c1 c2 c3 c4 c5 Hh Hf
                                 |c0 c1 c2 c3 c4 c5 c6 c7 Hh Hf|_ Hf];
    rewrite Hf.
  - apply rgb_raises.
  - apply rgb_raises.
  - apply rgba_raises.
  - congruence.
Qed.

Lemma in_unit_range_iff (q : Q) : Color.in_unit_range q = true <-> 0 <= q /\ q <= 1.
Proof.
  unfold Color.in_unit_range. rewrite andb_true_iff, !Qle_bool_iff.
  split; intros [H0 H1]; split; lra.
Qed.

End HexFacts.

Section HexValues.

Lemma channel_of_digits (h : string) (i j : nat) (ci cj : ascii) :
  String.get i h = Some ci -> String.get j h = Some cj ->
  is_hex_digit ci = true -> is_hex_digit cj = true ->
  exists q, Color.channel (pair ci cj) = Ok q /\
            q == inject_Z (byte_of h i j) / 255 /\
            Color.in_unit_range q = true.
Proof.
  intros Hi Hj Di Dj. unfold is_hex_digit in Di, Dj.
  destruct (hex_value ci) as [di|] eqn:Ei; [|discriminate].
  destruct (hex_value cj) as [dj|] eqn:Ej; [|discriminate].
  destruct (channel_hex_pair ci cj di dj Ei Ej) as (q & Hq & Hv & H0 & H1).
  exists q. split; [exact Hq|]. split.
  - unfold byte_of, hex_digit_at. rewrite Hi, Hj. cbn. rewrite Ei, Ej. exact Hv.
  - apply in_unit_range_iff. auto.
Qed.

Lemma new_in_range (r g b a : Q) :
  Color.in_unit_range r = true -> Color.in_unit_range g = true ->
  Color.in_unit_range b = true -> Color.in_unit_range a = true ->
  Color.new r g b a = Ok (Color.mk r g b a).
Proof.
  intros Hr Hg Hb Ha. unfold Color.new, Color.post_init.
  cbn [Color.check_channels Color.r Color.g Color.b Color.a].
  rewrite Hr, Hg, Hb, Ha. reflexivity.
Qed.

End HexValues.

(** X27. [Color.from_hex] in full, on a [str] whose characters are all below
    U+0100 (the strings of this embedding; of the characters beyond, [int]
    reads the decimal digits and the white space of other scripts as well).
    It first removes all leading ['#'].  It raises
    no exception other than [ValueError], and raises it exactly when the
    remaining string [h] is not an [accepted_hex] one; in particular whenever
    the length of [h] is not 3, 6 or 8, and, at length 3, exactly when some
    character is not a hexadecimal digit.  When [h] has length 3, 6 or 8 and
    only hexadecimal digits, the call returns the color whose channels are
    the bytes over 255 (each digit doubled at length 3), alpha being the
    fourth byte over 255 at length 8 and 1 otherwise, every channel within
    [[0, 1]], so that [__post_init__] does not raise. *)
Theorem from_hex_spec (s : string) :
  let h := lstrip_hash s in
  (exists n : nat, s = String.append (hashes n) h /\ String.get 0 h <> Some "#"%char) /\
  (forall e, Color.from_hex s = Raise e -> e = ValueError) /\
  (Color.from_hex s = Raise ValueError <-> accepted_hex h = false) /\
  (String.length h <> 3%nat -> String.length h <> 6%nat -> String.length h <> 8%nat ->
   Color.from_hex s = Raise ValueError) /\
  (String.length h = 3%nat ->
   (Color.from_hex s = Raise ValueError <-> all_chars is_hex_digit h = false)) /\
  (all_chars is_hex_digit h = true ->
   String.length h = 3%nat \/ String.length h = 6%nat \/ String.length h = 8%nat ->
   exists c : Color.t,
     Color.from_hex s = Ok c /\
     (String.length h = 3%nat ->
      Color.r c == inject_Z (byte_of h 0 0) / 255 /\
      Color.g c == inject_Z (byte_of h 1 1) / 255 /\
      Color.b c == inject_Z (byte_of h 2 2) / 255 /\
      Color.a c == 1) /\
     (String.length h = 6%nat ->
      Color.r c == inject_Z (byte_of h 0 1) / 255 /\
      Color.g c == inject_Z (byte_of h 2 3) / 255 /\
      Color.b c == inject_Z (byte_of h 4 5) / 255 /\
      Color.a c == 1) /\
     (String.length h = 8%nat ->
      Color.r c == inject_Z (byte_of h 0 1) / 255 /\
      Color.g c == inject_Z (byte_of h 2 3) / 255 /\
      Color.b c == inject_Z (byte_of h 4 5) / 255 /\
      Color.a c == inject_Z (byte_of h 6 7) / 255) /\
     Color.in_unit_range (Color.r c) = true /\
     Color.in_unit_range (Color.g c) = true /\
     Color.in_unit_range (Color.b c) = true /\
     Color.in_unit_range (Color.a c) = true).
Proof.
  intros h. subst h.
  assert (Hiff : Color.from_hex s = Raise ValueError
                 <-> accepted_hex (lstrip_hash s) = false).
  { rewrite <- from_hex_is_ok. split.
    - intros ->. reflexivity.
    - destruct (Color.from_hex s) as [c|e] eqn:E; [discriminate|].
      intros _. f_equal. exact (from_hex_raises _ _ E). }
  split; [apply lstrip_hash_spec|].
  split; [apply from_hex_raises|].
  split; [exact Hiff|].
  split; [|split].
  - intros H3 H6 H8. apply Hiff. unfold accepted_hex.
    apply Nat.eqb_neq in H3, H6, H8. rewrite H3, H6, H8. reflexivity.
  - intros H3. rewrite Hiff. unfold accepted_hex. rewrite H3. cbn.
    rewrite orb_false_r. reflexivity.
  - intros Hhex Hlen.
    destruct (from_hex_shape s) as [c0 c1 c2 Hh Hf|c0 c1 c2 c3 c4 c5 Hh Hf
                                   |c0 c1 c2 c3 c4 c5 c6 c7 Hh Hf|(H3 & H6 & H8) Hf];
      [| | |lia]; rewrite Hf, Hh in *; cbn [all_chars] in Hhex;
      repeat match type of Hhex with
             | _ && _ = true =>
                 let H := fresh "D" in apply andb_prop in Hhex as [H Hhex]
             end.
    + destruct (channel_of_digits (String c0 (String c1 (String c2 ""))) 0 0 c0 c0)
        as (r & -> & Hr & Rr); try reflexivity; try assumption.
      destruct (channel_of_digits (String c0 (String c1 (String c2 ""))) 1 1 c1 c1)
        as (g & -> & Hg & Rg); try reflexivity; try assumption.
      destruct (channel_of_digits (String c0 (String c1 (String c2 ""))) 2 2 c2 c2)
        as (b & -> & Hb & Rb); try reflexivity; try assumption.
      cbn [mbind result_bind]. rewrite new_in_range by (assumption || reflexivity).
      eexists. split; [reflexivity|]. cbn [Color.r Color.g Color.b Color.a].
      repeat split; try assumption; try reflexivity;
        match goal with H : String.length _ = _ |- _ => discriminate H end.
    + destruct (channel_of_digits
                  (String c0 (String c1 (String c2 (String c3 (String c4 (String c5 ""))))))
                  0 1 c0 c1) as (r & -> & Hr & Rr); try reflexivity; try assumption.
      destruct (channel_of_digits
                  (String c0 (String c1 (String c2 (String c3 (String c4 (String c5 ""))))))
                  2 3 c2 c3) as (g & -> & Hg & Rg); try reflexivity; try assumption.
      destruct (channel_of_digits
                  (String c0 (String c1 (String c2 (String c3 (String c4 (String c5 ""))))))
                  4 5 c4 c5) as (b & -> & Hb & Rb); try reflexivity; try assumption.
      cbn [mbind result_bind]. rewrite new_in_range by (assumption || reflexivity).
      eexists. split; [reflexivity|]. cbn [Color.r Color.g Color.b Color.a].
      repeat split; try assumption; try reflexivity;
        match goal with H : String.length _ = _ |- _ => discriminate H end.
    + destruct (channel_of_digits
                  (String c0 (String c1 (String c2 (String c3 (String c4 (String c5
                     (String c6 (String c7 ""))))))))
                  0 1 c0 c1) as (r & -> & Hr & Rr); try reflexivity; try assumption.
      destruct (channel_of_digits
                  (String c0 (String c1 (String c2 (String c3 (String c4 (String c5
                     (String c6 (String c7 ""))))))))
                  2 3 c2 c3) as (g & -> & Hg & Rg); try reflexivity; try assumption.
      destruct (channel_of_digits
                  (String c0 (String c1 (String c2 (String c3 (String c4 (String c5
                     (String c6 (String c7 ""))))))))
                  4 5 c4 c5) as (b & -> & Hb & Rb); try reflexivity; try assumption.
      destruct (channel_of_digits
                  (String c0 (String c1 (String c2 (String c3 (String c4 (String c5
                     (String c6 (String c7 ""))))))))
                  6 7 c6 c7) as (a & -> & Ha & Ra); try reflexivity; try assumption.
      cbn [mbind result_bind]. rewrite new_in_range by assumption.
      eexists. split; [reflexivity|]. cbn [Color.r Color.g Color.b Color.a].
      repeat split; try assumption; try reflexivity;
        match goal with H : String.length _ = _ |- _ => discriminate H end.
Qed.

(** C4. A string that holds a character other than a hexadecimal digit is
    to be refused with [ValueError].  ["+f0000"] has no leading ['#'], has
    length 6 and holds ['+'], yet [from_hex] returns a color with red 15/255:
    [int("+f", 16)] is 15. *)
Lemma from_hex_accepts_plus_sign :
  lstrip_hash "+f0000" = "+f0000"%string /\
  String.length "+f0000" = 6%nat /\
  all_chars is_hex_digit "+f0000" = false /\
  exists c : Color.t,
    Color.from_hex "+f0000" = Ok c /\ Color.r c == 15 # 255.
Proof.
  split; [reflexivity|]. split; [reflexivity|]. split; [reflexivity|].
  eexists. split; [vm_compute; reflexivity | reflexivity].
Qed.

(** ** FakePatternGenerator.generate *)

(** C5. Whatever the design dictionary and [params], [generate] returns a
    pattern whose ['pieces'] are exactly two: ['front_panel'] of type
    ['front'] and ['back_panel'] of type ['back'], each the rectangle (0,0),
    (50,0), (50,70), (0,70) with one plain side seam.  ['design_id'] is
    [design['id']] when present and ['unknown'] otherwise, and the metrics
    stored by the call report [num_pieces] 2, [total_area] 7000.0,
    [seam_count] 2 and [complexity_score] 45.0. *)
Theorem generate_fixed_output
    (self : FakePatternGenerator.t) (design : gmap string value)
    (params : value) (w : world) :
  exists (self' : FakePatternGenerator.t) (pattern metrics : gmap string value),
    FakePatternGenerator.generate self (VDict design) params w
      = Ok (self', VDict pattern) /\
    pattern !! "pieces"
      = Some (VList [FakePatternGenerator.front_panel; FakePatternGenerator.back_panel]) /\
    demo_piece "front_panel" "front" FakePatternGenerator.front_panel /\
    demo_piece "back_panel" "back" FakePatternGenerator.back_panel /\
    pattern !! "design_id"
      = Some (match design !! "id" with Some id => id | None => VStr "unknown" end) /\
    FakePatternGenerator.get_generation_metrics self' = VDict metrics /\
    metrics !! "num_pieces" = Some (VInt 2) /\
    (exists area, metrics !! "total_area" = Some (VFloat area) /\ area == 7000) /\
    metrics !! "seam_count" = Some (VInt 2) /\
    (exists score, metrics !! "complexity_score" = Some (VFloat score) /\ score == 45).
Proof.
  unfold FakePatternGenerator.generate. cbn [py_get mbind result_bind].
  do 3 eexists. split; [reflexivity|].
  split; [reflexivity|].
  split; [do 2 eexists; repeat split; reflexivity|].
  split; [do 2 eexists; repeat split; reflexivity|].
  split; [unfold dict_get; destruct (design !! "id"); reflexivity|].
  split; [reflexivity|].
  split; [reflexivity|].
  split; [eexists; split; reflexivity|].
  split; [reflexivity|].
  eexists; split; reflexivity.
Qed.

(** ** FakeLayoutOptimizer.optimize *)

Section OptimizeFacts.

Import FakeLayoutOptimizer.

(** On a list of dictionaries the placement loop returns one entry per piece,
    the [j]-th at [x = 60 * (i + j)], [y = 0], unrotated. *)
Lemma place_from_dicts (ds : list (gmap string value)) (i : nat) :
  exists layout : list value,
    place_from i (VDict <$> ds) = Ok layout /\
    length layout = length ds /\
    forall (j : nat) (d : gmap string value),
      ds !! j = Some d ->
      exists entry pos : gmap string value,
        layout !! j = Some (VDict entry) /\
        entry !! "piece_id"
          = Some (dict_get d "id" (VStr ("piece_" +:+ pretty (i + j)%nat))) /\
        entry !! "position" = Some (VDict pos) /\
        pos !! "x" = Some (VInt (60 * Z.of_nat (i + j))) /\
        pos !! "y" = Some (VInt 0) /\
        entry !! "rotation" = Some (VInt 0).
Proof.
  revert i. induction ds as [|d ds IH]; intros i.
  - exists []. split; [reflexivity|]. split; [reflexivity|].
    intros j d' Hj. rewrite lookup_nil in Hj. discriminate.
  - destruct (IH (S i)) as (layout & Hl & Hlen & Hent).
    cbn [fmap list_fmap place_from py_get mbind result_bind].
    change (list_fmap _ _ VDict ds) with (VDict <$> ds). rewrite Hl.
    cbn [mbind result_bind].
    eexists. split; [reflexivity|]. split; [cbn; lia|].
    intros [|j] d' Hj.
    + cbn in Hj. injection Hj as <-. rewrite Nat.add_0_r.
      do 2 eexists. split; [reflexivity|].
      split; [reflexivity|]. split; [reflexivity|].
      split; [|split; reflexivity].
      rewrite lookup_insert_eq. do 2 f_equal. lia.
    + cbn in Hj. destruct (Hent j d' Hj) as (entry & pos & H1 & H2 & H3 & H4 & H5 & H6).
      exists entry, pos. replace (i + S j)%nat with (S i + j)%nat by lia.
      repeat split; assumption.
Qed.

Lemma int_truediv_number (n : Z) (v : value) (width : Q) :
  number v = Some width -> ~ width == 0 ->
  int_truediv n v = Ok (inject_Z n / width).
Proof.
  intros Hv Hw.
  assert (Hz : Qeq_bool width 0.0 = false).
  { destruct (Qeq_bool width 0.0) eqn:E; [|reflexivity].
    apply Qeq_bool_iff in E. exfalso. apply Hw. rewrite E. unfold Qeq. reflexivity. }
  destruct v; cbn in Hv; try discriminate; injection Hv as <-;
    unfold int_truediv, float_div; rewrite Hz; reflexivity.
Qed.

Lemma uniform_bounds (a b u : Q) :
  a <= b -> 0 <= u -> u < 1 -> a <= uniform a b u /\ uniform a b u <= b.
Proof. intros Hab H0 H1. unfold uniform. split; nra. Qed.

(** [len] and iteration of a list of dictionaries. *)
Lemma optimize_on_dicts (self : t) (pattern fabric : gmap string value)
    (params : value) (w : world) (ds : list (gmap string value)) (width : Q) :
  dict_get pattern "pieces" (VList []) = VList (VDict <$> ds) ->
  number (dict_get fabric "width" (VInt 150)) = Some width ->
  ~ width == 0 ->
  exists (self' : t) (result : gmap string value) (layout : list value),
    optimize self (VDict pattern) (VDict fabric) params w = Ok (self', VDict result) /\
    place_from 0 (VDict <$> ds) = Ok layout /\
    result !! "layout" = Some (VList layout) /\
    result !! "fabric_length"
      = Some (VFloat (inject_Z (Z.of_nat (length ds) * 60) / width * 100 + 50)) /\
    result !! "utilization" = Some (VFloat (uniform 0.65 0.75 (random_draws w 0))) /\
    result !! "waste_percentage" = Some (VFloat (uniform 25 35 (random_draws w 1))).
Proof.
  intros Hp Hw Hnz.
  destruct (place_from_dicts ds 0) as (layout & Hl & _).
  unfold optimize. cbn [py_get mbind result_bind]. rewrite Hp.
  cbn [py_len py_iter mbind result_bind]. rewrite Hl.
  cbn [mbind result_bind].
  rewrite (int_truediv_number _ _ _ Hw Hnz). cbn [mbind result_bind].
  rewrite length_fmap.
  do 3 eexists. split; [reflexivity|]. split; [reflexivity|].
  repeat split; reflexivity.
Qed.

End OptimizeFacts.

(** C6 as amended.  When ['pieces'] is absent or a list of dictionaries and
    ['width'] (150 when absent) is a nonzero number, [optimize] returns a
    layout with the [i]-th piece at [x = 60 * i], [y = 0], rotation 0, with
    [fabric_length = ((num_pieces * 60) / width) * 100 + 50], a
    ['utilization'] within [[0.65, 0.75]] and a ['waste_percentage'] within
    [[25, 35]]. *)
Theorem optimize_spec
    (self : FakeLayoutOptimizer.t) (pattern fabric : gmap string value)
    (params : value) (w : world) (ds : list (gmap string value)) (width : Q) :
  dict_get pattern "pieces" (VList []) = VList (VDict <$> ds) ->
  number (dict_get fabric "width" (VInt 150)) = Some width ->
  ~ width == 0 ->
  0 <= random_draws w 0 < 1 ->
  0 <= random_draws w 1 < 1 ->
  exists (self' : FakeLayoutOptimizer.t) (result : gmap string value)
         (layout : list value) (fabric_length utilization waste : Q),
    FakeLayoutOptimizer.optimize self (VDict pattern) (VDict fabric) params w
      = Ok (self', VDict result) /\
    result !! "layout" = Some (VList layout) /\
    length layout = length ds /\
    (forall (i : nat) (d : gmap string value),
       ds !! i = Some d ->
       exists entry pos : gmap string value,
         layout !! i = Some (VDict entry) /\
         entry !! "position" = Some (VDict pos) /\
         pos !! "x" = Some (VInt (60 * Z.of_nat i)) /\
         pos !! "y" = Some (VInt 0) /\
         entry !! "rotation" = Some (VInt 0)) /\
    result !! "fabric_length" = Some (VFloat fabric_length) /\
    fabric_length == (inject_Z (Z.of_nat (length ds)) * 60 / width) * 100 + 50 /\
    result !! "utilization" = Some (VFloat utilization) /\
    0.65 <= utilization /\ utilization <= 0.75 /\
    result !! "waste_percentage" = Some (VFloat waste) /\
    25 <= waste /\ waste <= 35.
Proof.
  intros Hp Hw Hnz [Hu0 Hu1] [Hv0 Hv1].
  destruct (optimize_on_dicts self pattern fabric params w ds width Hp Hw Hnz)
    as (self' & result & layout & Hopt & Hl & R1 & R2 & R3 & R4).
  destruct (place_from_dicts ds 0) as (layout' & Hl' & Hlen & Hent).
  assert (layout' = layout) as -> by congruence.
  exists self', result, layout. do 3 eexists.
  split; [exact Hopt|]. split; [exact R1|]. split; [exact Hlen|].
  split.
  { intros i d Hi. destruct (Hent i d Hi) as (entry & pos & H1 & _ & H3 & H4 & H5 & H6).
    exists entry, pos. cbn [Nat.add] in H4. auto. }
  split; [exact R2|].
  split.
  { rewrite inject_Z_mult. reflexivity. }
  split; [exact R3|].
  destruct (uniform_bounds 0.65 0.75 (random_draws w 0)) as [A B]; try assumption.
  { apply Qle_bool_iff. reflexivity. }
  split; [exact A|]. split; [exact B|].
  split; [exact R4|].
  apply uniform_bounds; try assumption. apply Qle_bool_iff. reflexivity.
Qed.

(** C6 counterexample.  A pattern dictionary whose ['pieces'] lists
    the pieces by name makes [optimize] raise [AttributeError] (a string has
    no [get]), although the width, 150 by default, is not zero. *)
Lemma optimize_rejects_piece_names :
  dict_get ∅ "width" (VInt 150) = VInt 150 /\
  FakeLayoutOptimizer.optimize FakeLayoutOptimizer.init
    (VDict {[ "pieces" := VList [VStr "front"] ]}) (VDict ∅) VNone sample_world
  = Raise AttributeError.
Proof. split; reflexivity. Qed.

(** ** The mock API *)

Ltac envelope :=
  unfold success_envelope; do 2 eexists;
  split; [reflexivity|]; repeat split; reflexivity.

Section EnvelopeFacts.

Lemma generate_pattern_envelope (self : MockPatternAPI.t)
    (design_data : gmap string value) (w : world) :
  exists self' v,
    MockPatternAPI.generate_pattern self design_data w = Ok (self', v) /\
    success_envelope v.
Proof.
  unfold MockPatternAPI.generate_pattern, FakePatternGenerator.generate.
  cbn [py_get mbind result_bind].
  do 2 eexists. split; [reflexivity|]. envelope.
Qed.

Lemma optimize_layout_envelope (self self' : MockLayoutAPI.t)
    (request_data : gmap string value) (w : world) (v : value) :
  MockLayoutAPI.optimize_layout self request_data w = Ok (self', v) ->
  success_envelope v.
Proof.
  unfold MockLayoutAPI.optimize_layout.
  destruct (FakeLayoutOptimizer.optimize _ _ _ _ _) as [[o r]|]; [|discriminate].
  cbn [mbind result_bind]. intros [= <- <-]. envelope.
Qed.

End EnvelopeFacts.

(** C8 as amended.  Whenever one of the nine public endpoints returns, it
    returns an envelope with ['success'] [True], a ['meta'] dictionary whose
    ['version'] is ['1.0.0-demo'], and no ['error'] entry.  Every endpoint but
    [optimize_layout] returns on every input; [optimize_layout] returns when
    the request's pattern (when given) is a dictionary whose ['pieces'] is
    absent or a list of dictionaries and its fabric (when given) is a
    dictionary whose ['width'] is absent or a nonzero number.  On every
    request [optimize_layout] raises exactly the exceptions that
    [FakeLayoutOptimizer.optimize] raises on the request's ['pattern'],
    ['fabric'] and ['params'] (an empty dictionary each when absent), and
    returns whenever that call returns. *)
Theorem endpoints_envelope (s : apis) (e : endpoint) (w : world) :
  (forall s' v, call s e w = Ok (s', v) -> success_envelope v) /\
  ((forall request_data, e <> OptimizeLayout request_data) ->
   is_ok (call s e w) = true) /\
  (forall (request_data p f : gmap string value)
          (ds : list (gmap string value)) (width : Q),
     e = OptimizeLayout request_data ->
     dict_get request_data "pattern" (VDict ∅) = VDict p ->
     dict_get request_data "fabric" (VDict ∅) = VDict f ->
     dict_get p "pieces" (VList []) = VList (VDict <$> ds) ->
     number (dict_get f "width" (VInt 150)) = Some width ->
     ~ width == 0 ->
     is_ok (call s e w) = true) /\
  (forall request_data : gmap string value,
     e = OptimizeLayout request_data ->
     let optimized :=
       FakeLayoutOptimizer.optimize (MockLayoutAPI.optimizer (layout_api s))
         (dict_get request_data "pattern" (VDict ∅))
         (dict_get request_data "fabric" (VDict ∅))
         (dict_get request_data "params" (VDict ∅)) w in
     (forall err, call s e w = Raise err <-> optimized = Raise err) /\
     is_ok (call s e w) = is_ok optimized).
Proof.
  split; [|split; [|split]].
  - intros s' v. destruct e as [d|id|id|rd|rd|id|rd|rd|]; cbn [call].
    + destruct (generate_pattern_envelope (pattern_api s) d w) as (a & v' & -> & Hv).
      cbn [mbind result_bind]. intros [= <- <-]. exact Hv.
    + intros [= <- <-]. envelope.
    + intros [= <- <-]. envelope.
    + intros [= <- <-]. envelope.
    + intros [= <- <-]. envelope.
    + intros [= <- <-]. envelope.
    + destruct (MockLayoutAPI.optimize_layout (layout_api s) rd w) as [[a v']|] eqn:E;
        [|discriminate].
      cbn [mbind result_bind]. intros [= <- <-].
      exact (optimize_layout_envelope _ _ _ _ _ E).
    + intros [= <- <-]. envelope.
    + intros [= <- <-]. envelope.
  - intros Hne. destruct e as [d|id|id|rd|rd|id|rd|rd|]; cbn [call]; try reflexivity.
    exfalso. exact (Hne rd eq_refl).
  - intros rd p f ds width -> Hp Hf Hds Hw Hnz. cbn [call].
    unfold MockLayoutAPI.optimize_layout. rewrite Hp, Hf.
    destruct (optimize_on_dicts (MockLayoutAPI.optimizer (layout_api s)) p f
                (dict_get rd "params" (VDict ∅)) w ds width Hds Hw Hnz)
      as (o & r & l & -> & _).
    reflexivity.
  - intros rd -> optimized. subst optimized. cbn [call].
    unfold MockLayoutAPI.optimize_layout. cbv zeta.
    destruct (FakeLayoutOptimizer.optimize _ _ _ _ _) as [[o r]|err'];
      cbn [mbind result_bind is_ok].
    + split; [|reflexivity]. intros err. split; discriminate.
    + split; [|reflexivity]. intros err. split; intros [= ->]; reflexivity.
Qed.

(** C8 counterexample.  A request for [optimize_layout] whose fabric
    has width 0 gets no envelope: [ZeroDivisionError] leaves the endpoint. *)
Lemma optimize_layout_zero_width :
  call sample_apis
       (OptimizeLayout {[ "fabric" := VDict {[ "width" := VInt 0 ]} ]}) sample_world
  = Raise ZeroDivisionError.
Proof. reflexivity. Qed.

(** ** In-place updates of the metadata *)

Section FrameFacts.

Import Store.

Lemma getitem_dict (h : heap) (l : loc) (d : gmap string ref_value)
    (k : string) (v : ref_value) :
  h !! l = Some (ODict d) -> d !! k = Some v -> getitem h (RRef l) k = Ok v.
Proof. intros Hl Hk. unfold getitem. rewrite Hl, Hk. reflexivity. Qed.

Lemma setitem_dict (h : heap) (l : loc) (d : gmap string ref_value)
    (k : string) (v : ref_value) :
  h !! l = Some (ODict d) ->
  setitem h (RRef l) k v = Ok (<[l := ODict (<[k := v]> d)]> h).
Proof. intros Hl. unfold setitem. rewrite Hl. reflexivity. Qed.

(** The shape that the three functions share: read ['metadata'], set one
    item, read ['metadata'] again, set a second item, return the argument. *)
Lemma set_two_items (h : heap) (p m : loc) (d md : gmap string ref_value)
    (k1 k2 : string) (v1 v2 : ref_value) :
  h !! p = Some (ODict d) -> d !! "metadata" = Some (RRef m) ->
  h !! m = Some (ODict md) -> p <> m ->
  exists h' : heap,
    (metadata ← getitem h (RRef p) "metadata";
     h1 ← setitem h metadata k1 v1;
     metadata ← getitem h1 (RRef p) "metadata";
     h2 ← setitem h1 metadata k2 v2;
     Ok (h2, RRef p)) = Ok (h', RRef p) /\
    wrote_metadata_only h h' p m [k1; k2].
Proof.
  intros Hp Hd Hm Hpm.
  exists (<[m := ODict (<[k2 := v2]> (<[k1 := v1]> md))]> h).
  split.
  - rewrite (getitem_dict h p d _ _ Hp Hd). cbn [mbind result_bind].
    rewrite (setitem_dict h m md _ _ Hm). cbn [mbind result_bind].
    rewrite (getitem_dict _ p d "metadata" (RRef m));
      [|rewrite lookup_insert_ne by congruence; exact Hp|exact Hd].
    cbn [mbind result_bind].
    rewrite (setitem_dict _ m (<[k1 := v1]> md)) by apply lookup_insert_eq.
    cbn [mbind result_bind]. rewrite insert_insert_eq. reflexivity.
  - assert (Hframe : forall l, l <> m ->
              <[m := ODict (<[k2 := v2]> (<[k1 := v1]> md))]> h !! l = h !! l).
    { intros l Hl. apply lookup_insert_ne. congruence. }
    split; [exact Hframe|]. split; [apply Hframe; exact Hpm|]. split.
    + exists md, (<[k2 := v2]> (<[k1 := v1]> md)).
      split; [exact Hm|]. split; [apply lookup_insert_eq|]. split.
      * intros k Hk. apply not_elem_of_cons in Hk as [Hk1 Hk].
        apply not_elem_of_cons in Hk as [Hk2 _].
        rewrite !lookup_insert_ne by congruence. reflexivity.
      * intros k Hk. apply elem_of_cons in Hk as [->|Hk].
        -- destruct (decide (k1 = k2)) as [->|Hne].
           ++ rewrite lookup_insert_eq. eauto.
           ++ rewrite lookup_insert_ne by congruence.
              rewrite lookup_insert_eq. eauto.
        -- apply list_elem_of_singleton in Hk as ->.
           rewrite lookup_insert_eq. eauto.
    + intros d' k v Hp' Hk Hne Hreach. split.
      * rewrite Hframe by exact Hpm. exact Hp'.
      * intros l Hl. apply Hframe. intros ->. exact (Hreach Hl).
Qed.

End FrameFacts.

(** C10 as amended.  Let the dictionary at [p] hold under ['metadata'] a
    dictionary at [m] other than itself.  Then [optimize_seams],
    [add_seam_allowance] and [simulate_collision] return the very dictionary
    they were given, and write nothing but two items of the metadata: every
    other object of the store, the items of [p] and the other items of the
    metadata are as before, and so is everything reachable from an item of
    [p] that does not share the metadata dictionary, e.g. ['pieces'] with
    their contours, or ['vertices'], ['faces'] and ['normals']. *)
Theorem metadata_updates_frame
    (h : Store.heap) (p m : Store.loc) (d md : gmap string Store.ref_value)
    (fabric allowance body_mesh : Store.ref_value) :
  h !! p = Some (Store.ODict d) ->
  d !! "metadata" = Some (Store.RRef m) ->
  h !! m = Some (Store.ODict md) ->
  p <> m ->
  (exists h', Store.optimize_seams h (Store.RRef p) fabric = Ok (h', Store.RRef p) /\
              Store.wrote_metadata_only h h' p m ["seam_optimized"; "note"]) /\
  (exists h', Store.add_seam_allowance h (Store.RRef p) allowance = Ok (h', Store.RRef p) /\
              Store.wrote_metadata_only h h' p m ["seam_allowance"; "note"]) /\
  (exists h', Store.simulate_collision h (Store.RRef p) body_mesh fabric
                = Ok (h', Store.RRef p) /\
              Store.wrote_metadata_only h h' p m ["collision_resolved"; "note"]).
Proof.
  intros Hp Hd Hm Hpm. split; [|split].
  - exact (set_two_items h p m d md _ _ _ _ Hp Hd Hm Hpm).
  - exact (set_two_items h p m d md _ _ _ _ Hp Hd Hm Hpm).
  - exact (set_two_items h p m d md _ _ _ _ Hp Hd Hm Hpm).
Qed.

(** C10 counterexample.  When the ['pieces'] item of the pattern is
    the same dictionary as its ['metadata'], [optimize_seams] changes what
    ['pieces'] holds: it was empty and now has the two metadata items. *)
Lemma optimize_seams_shared_metadata :
  exists (d : gmap string Store.ref_value) (h' : Store.heap),
    shared_store !! 1%positive = Some (Store.ODict d) /\
    d !! "metadata" = Some (Store.RRef 2) /\
    d !! "pieces" = Some (Store.RRef 2) /\
    shared_store !! 2%positive = Some (Store.ODict ∅) /\
    Store.optimize_seams shared_store (Store.RRef 1) Store.RNone
      = Ok (h', Store.RRef 1) /\
    h' !! 2%positive
      = Some (Store.ODict
                {[ "seam_optimized" := Store.RBool true;
                   "note" := Store.RStr "DEMO - No real optimization performed" ]}) /\
    ~ Store.untouched shared_store h' (Store.RRef 2).
Proof.
  do 2 eexists. split; [reflexivity|]. split; [reflexivity|].
  split; [reflexivity|]. split; [reflexivity|]. split; [reflexivity|].
  split; [vm_compute; reflexivity|].
  intros H. specialize (H 2%positive (Store.reaches_here _ _)).
  vm_compute in H. discriminate H.
Qed.

(** * Further properties *)

(** ** BoundingBox2D: the geometry of [intersects], [intersection], [iou] and [center] *)

(** X1. [a.intersects(b)] and [b.intersects(a)] always agree, and a box whose
    [min_point] is componentwise below its [max_point] intersects itself. *)
Theorem intersects_symmetric_reflexive (a b : BoundingBox2D.t) :
  BoundingBox2D.intersects a b = BoundingBox2D.intersects b a /\
  (BoundingBox2D.ordered a -> BoundingBox2D.intersects a a = true).
Proof.
  split; [apply intersects_sym|].
  intros [Hx Hy]. apply intersects_true_iff. auto.
Qed.




(** ** Color: [to_hex], [from_rgb], [to_dict] and [from_dict] *)

Section ColorFacts.

Lemma all_bytes_complete (p : Z -> bool) :
  forallb p all_bytes = true -> forall n, is_byte n -> p n = true.
Proof.
  intros H n [H0 H1]. rewrite forallb_forall in H. apply H.
  unfold all_bytes. rewrite <- (Z2Nat.id n) by exact H0.
  apply in_map, in_seq. lia.
Qed.

(** [int(x)] gives back the integer that a float equals. *)
Lemma int_of_float_integer (q : Q) (n : Z) : q == inject_Z n -> int_of_float q = n.
Proof.
  unfold Qeq, int_of_float. cbn. intros E.
  rewrite Z.mul_1_r in E. rewrite E. apply Z.quot_mul. discriminate.
Qed.

(** A channel in [[0, 1]] scales to a byte. *)
Lemma scaled_channel_is_byte (q : Q) :
  Color.in_unit_range q = true -> is_byte (int_of_float (q * 255)).
Proof.
  intros H. apply in_unit_range_iff in H as [H0 H1].
  destruct q as [a b]. unfold Qle in *. cbn in *. unfold int_of_float, is_byte. cbn.
  rewrite Pos.mul_1_r.
  rewrite Z.quot_div_nonneg by lia. split.
  - apply Z.div_pos; lia.
  - apply Z.div_le_upper_bound; lia.
Qed.

(** The two characters that [format_02X] prints for a byte are hexadecimal
    digits that [int(_, 16)] reads back as this byte. *)
Lemma format_byte (n : Z) :
  is_byte n ->
  exists c1 c2 : ascii,
    format_02X n = pair c1 c2 /\
    is_hex_digit c1 = true /\ is_hex_digit c2 = true /\
    ascii_upper c1 = c1 /\ ascii_upper c2 = c2 /\
    int16 (pair c1 c2) = Ok n.
Proof.
  intros Hn.
  pose proof (all_bytes_complete
    (fun n => match format_02X n with
              | String c1 (String c2 EmptyString) =>
                  is_hex_digit c1 && is_hex_digit c2
                  && Ascii.eqb (ascii_upper c1) c1 && Ascii.eqb (ascii_upper c2) c2
                  && match int16 (pair c1 c2) with
                     | Ok m => (m =? n)%Z
                     | Raise _ => false
                     end
              | _ => false
              end)) as H.
  specialize (H ltac:(vm_compute; reflexivity) n Hn). cbv beta in H.
  destruct (format_02X n) as [|c1 [|c2 [|]]]; try discriminate.
  exists c1, c2. split; [reflexivity|].
  repeat match type of H with
         | _ && _ = true => let H' := fresh "D" in apply andb_prop in H as [H H']
         end.
  destruct (int16 (pair c1 c2)) as [m|]; [|discriminate].
  apply Z.eqb_eq in D. apply Ascii.eqb_eq in D0, D1. subst m. auto.
Qed.

(** Two hexadecimal digits read as a channel and printed again come back in
    upper case. *)
Lemma channel_format_pair (c1 c2 : ascii) :
  is_hex_digit c1 = true -> is_hex_digit c2 = true ->
  exists q : Q,
    Color.channel (pair c1 c2) = Ok q /\
    Color.in_unit_range q = true /\
    format_02X (int_of_float (q * 255)) = pair (ascii_upper c1) (ascii_upper c2).
Proof.
  pose proof (all_ascii_pairs
    (fun c1 c2 =>
       if is_hex_digit c1 && is_hex_digit c2 then
         match Color.channel (pair c1 c2) with
         | Ok q => Color.in_unit_range q
                   && String.eqb (format_02X (int_of_float (q * 255)))
                                 (pair (ascii_upper c1) (ascii_upper c2))
         | Raise _ => false
         end
       else true)) as H.
  specialize (H ltac:(vm_compute; reflexivity) c1 c2). cbv beta in H.
  intros D1 D2. rewrite D1, D2 in H. cbn [andb] in H.
  destruct (Color.channel (pair c1 c2)) as [q|]; [|discriminate].
  apply andb_prop in H as [H1 H2]. apply String.eqb_eq in H2.
  exists q. auto.
Qed.

End ColorFacts.

(** X5. Reading a string of 3, 6 or 8 hexadecimal digits (after any number
    of ['#']) with [from_hex] and printing the color with [to_hex] gives
    ['#'] and the eight digits the string stands for in upper case; without
    alpha, the first six of them. *)
Theorem to_hex_after_from_hex (s : string) :
  let h := lstrip_hash s in
  all_chars is_hex_digit h = true ->
  String.length h = 3%nat \/ String.length h = 6%nat \/ String.length h = 8%nat ->
  exists c : Color.t,
    Color.from_hex s = Ok c /\
    Color.to_hex c true = String "#" (map_string ascii_upper (expanded h)) /\
    Color.to_hex c false = String "#" (map_string ascii_upper (slice (expanded h) 0 6)).
Proof.
  intros h Hhex Hlen. subst h.
  destruct (from_hex_shape s) as [c0 c1 c2 Hh Hf|c0 c1 c2 c3 c4 c5 Hh Hf
                                 |c0 c1 c2 c3 c4 c5 c6 c7 Hh Hf|(H3 & H6 & H8) Hf];
    [| | |lia]; rewrite Hf, Hh in *; cbn [all_chars] in Hhex;
    repeat match type of Hhex with
           | _ && _ = true =>
               let H := fresh "D" in apply andb_prop in Hhex as [H Hhex]
           end.
  - destruct (channel_format_pair c0 c0) as (r & -> & Rr & Fr); try assumption.
    destruct (channel_format_pair c1 c1) as (g & -> & Rg & Fg); try assumption.
    destruct (channel_format_pair c2 c2) as (b & -> & Rb & Fb); try assumption.
    cbn [mbind result_bind]. rewrite new_in_range by (assumption || reflexivity).
    eexists. split; [reflexivity|].
    unfold Color.to_hex. cbn [Color.r Color.g Color.b Color.a].
    rewrite Fr, Fg, Fb. split; reflexivity.
  - destruct (channel_format_pair c0 c1) as (r & -> & Rr & Fr); try assumption.
    destruct (channel_format_pair c2 c3) as (g & -> & Rg & Fg); try assumption.
    destruct (channel_format_pair c4 c5) as (b & -> & Rb & Fb); try assumption.
    cbn [mbind result_bind]. rewrite new_in_range by (assumption || reflexivity).
    eexists. split; [reflexivity|].
    unfold Color.to_hex. cbn [Color.r Color.g Color.b Color.a].
    rewrite Fr, Fg, Fb. split; reflexivity.
  - destruct (channel_format_pair c0 c1) as (r & -> & Rr & Fr); try assumption.
    destruct (channel_format_pair c2 c3) as (g & -> & Rg & Fg); try assumption.
    destruct (channel_format_pair c4 c5) as (b & -> & Rb & Fb); try assumption.
    destruct (channel_format_pair c6 c7) as (a & -> & Ra & Fa); try assumption.
    cbn [mbind result_bind]. rewrite new_in_range by assumption.
    eexists. split; [reflexivity|].
    unfold Color.to_hex. cbn [Color.r Color.g Color.b Color.a].
    rewrite Fr, Fg, Fb, Fa. split; reflexivity.
Qed.

(** X6. For a color that passes the check of the constructor and whose
    channels are multiples of [2^-20] (so that [channel * 255] is exact in
    binary64), [to_hex()] is ['#'] and eight characters that [from_hex] takes
    back without raising.  The color read back has in each channel the byte
    [int(channel * 255)] over 255, and printing it again gives the same
    string: one pass through the hex form rounds the channels down to bytes,
    further passes change nothing. *)
Theorem from_hex_after_to_hex (c : Color.t) :
  Color.post_init c = Ok tt ->
  binary_channels c ->
  exists c' : Color.t,
    String.length (Color.to_hex c true) = 9%nat /\
    Color.from_hex (Color.to_hex c true) = Ok c' /\
    Color.r c' == inject_Z (int_of_float (Color.r c * 255)) / 255 /\
    Color.g c' == inject_Z (int_of_float (Color.g c * 255)) / 255 /\
    Color.b c' == inject_Z (int_of_float (Color.b c * 255)) / 255 /\
    Color.a c' == inject_Z (int_of_float (Color.a c * 255)) / 255 /\
    Color.to_hex c' true = Color.to_hex c true.
Proof.
  intros Hc _.
  assert (Hr : Color.in_unit_range (Color.r c) = true
               /\ Color.in_unit_range (Color.g c) = true
               /\ Color.in_unit_range (Color.b c) = true
               /\ Color.in_unit_range (Color.a c) = true).
  { unfold Color.post_init in Hc. cbn [Color.check_channels] in Hc.
    destruct (Color.in_unit_range (Color.r c)), (Color.in_unit_range (Color.g c)),
             (Color.in_unit_range (Color.b c)), (Color.in_unit_range (Color.a c));
      cbn in Hc; try discriminate; auto. }
  destruct Hr as (Rr & Rg & Rb & Ra).
  apply scaled_channel_is_byte in Rr, Rg, Rb, Ra.
  unfold Color.to_hex.
  set (nr := int_of_float (Color.r c * 255)) in *.
  set (ng := int_of_float (Color.g c * 255)) in *.
  set (nb := int_of_float (Color.b c * 255)) in *.
  set (na := int_of_float (Color.a c * 255)) in *.
  destruct (format_byte nr Rr) as (r1 & r2 & Fr & Dr1 & Dr2 & Ur1 & Ur2 & Ir).
  destruct (format_byte ng Rg) as (g1 & g2 & Fg & Dg1 & Dg2 & Ug1 & Ug2 & Ig).
  destruct (format_byte nb Rb) as (b1 & b2 & Fb & Db1 & Db2 & Ub1 & Ub2 & Ib).
  destruct (format_byte na Ra) as (a1 & a2 & Fa & Da1 & Da2 & Ua1 & Ua2 & Ia).
  rewrite Fr, Fg, Fb, Fa.
  change (String "#" (String.append (pair r1 r2) (String.append (pair g1 g2)
            (String.append (pair b1 b2) (pair a1 a2)))))
    with (String "#" (String r1 (String r2 (String g1 (String g2 (String b1 (String b2
            (String a1 (String a2 EmptyString))))))))).
  assert (Hs : lstrip_hash (String "#" (String r1 (String r2 (String g1 (String g2
                 (String b1 (String b2 (String a1 (String a2 EmptyString)))))))))
               = String r1 (String r2 (String g1 (String g2 (String b1 (String b2
                 (String a1 (String a2 EmptyString)))))))).
  { cbn [lstrip_hash]. change (Ascii.eqb "#" "#") with true. cbv iota.
    destruct (Ascii.eqb_spec r1 "#") as [->|_]; [discriminate Dr1 | reflexivity]. }
  unfold Color.from_hex. rewrite Hs.
  change (Color.channel (slice ?s 0 2)) with (Color.channel (pair r1 r2)).
  cbn [String.length Nat.eqb].
  change (slice _ 0 2) with (pair r1 r2).
  change (slice _ 2 4) with (pair g1 g2).
  change (slice _ 4 6) with (pair b1 b2).
  change (slice _ 6 8) with (pair a1 a2).
  unfold Color.channel. rewrite Ir, Ig, Ib, Ia. cbn [mbind result_bind].
  unfold float_div. change (Qeq_bool 255.0 0.0) with false. cbv iota.
  cbn [mbind result_bind].
  assert (Hq : forall n, is_byte n -> Color.in_unit_range (inject_Z n / 255.0) = true).
  { intros n [H0 H1]. apply in_unit_range_iff.
    assert (E : inject_Z n / 255.0 == inject_Z n * (1 # 255)) by field.
    rewrite E. unfold Qle; cbn; lia. }
  rewrite new_in_range by (apply Hq; assumption).
  eexists. split; [reflexivity|]. split; [reflexivity|].
  cbn [Color.r Color.g Color.b Color.a].
  assert (Hv : forall n, inject_Z n / 255.0 == inject_Z n / 255) by (intros; field).
  repeat (split; [apply Hv|]).
  assert (Hi : forall n, int_of_float (inject_Z n / 255.0 * 255) = n).
  { intros n. apply int_of_float_integer. field. }
  rewrite !Hi, Fr, Fg, Fb, Fa. reflexivity.
Qed.

Section ConversionToFloat.

Lemma float_of_int_fits (n : Z) : fits_float n -> float_of_int n = Ok (inject_Z n).
Proof.
  unfold fits_float, float_of_int. intros H.
  apply Z.ltb_lt in H. rewrite H. reflexivity.
Qed.

Lemma float_of_int_overflow (n : Z) : ~ fits_float n -> float_of_int n = Raise OverflowError.
Proof.
  unfold fits_float, float_of_int. intros H.
  destruct (Z.ltb_spec (Z.abs n) (2 ^ 1024 - 2 ^ 970)); [contradiction | reflexivity].
Qed.

Lemma fits_float_dec (n : Z) : fits_float n \/ ~ fits_float n.
Proof. unfold fits_float. lia. Qed.

Lemma byte_fits_float (n : Z) : is_byte n -> fits_float n.
Proof.
  unfold is_byte, fits_float. intros H.
  assert (B : (256 < 2 ^ 1024 - 2 ^ 970)%Z) by (vm_compute; reflexivity).
  lia.
Qed.

Lemma int_div_float_fits (n : Z) :
  fits_float n -> Color.int_div_float n 255.0 = Ok (inject_Z n / 255.0).
Proof.
  intros H. unfold Color.int_div_float. rewrite (float_of_int_fits n H). reflexivity.
Qed.

Lemma int_div_float_overflow (n : Z) (y : Q) :
  ~ fits_float n -> Color.int_div_float n y = Raise OverflowError.
Proof.
  intros H. unfold Color.int_div_float. rewrite (float_of_int_overflow n H). reflexivity.
Qed.

End ConversionToFloat.

(** X7. [Color.from_rgb(r, g, b, a)] returns exactly when the four integers
    are bytes (0 to 255).  It raises [OverflowError], at the division by
    255.0, exactly when one of them is too large for a float, and
    [ValueError], from the constructor, in every other case.  The color
    returned has the channels [r/255], [g/255], [b/255], [a/255], and
    [to_hex] prints the four bytes it was made from. *)
Theorem from_rgb_spec (r g b a : Z) :
  (is_ok (Color.from_rgb r g b a) = true
   <-> is_byte r /\ is_byte g /\ is_byte b /\ is_byte a) /\
  (Color.from_rgb r g b a = Raise OverflowError
   <-> ~ (fits_float r /\ fits_float g /\ fits_float b /\ fits_float a)) /\
  (Color.from_rgb r g b a = Raise ValueError
   <-> (fits_float r /\ fits_float g /\ fits_float b /\ fits_float a)
       /\ ~ (is_byte r /\ is_byte g /\ is_byte b /\ is_byte a)) /\
  (forall e, Color.from_rgb r g b a = Raise e -> e = OverflowError \/ e = ValueError) /\
  (forall c, Color.from_rgb r g b a = Ok c ->
     Color.r c == inject_Z r / 255 /\ Color.g c == inject_Z g / 255 /\
     Color.b c == inject_Z b / 255 /\ Color.a c == inject_Z a / 255 /\
     Color.to_hex c true
     = String "#" (String.append (format_02X r) (String.append (format_02X g)
                  (String.append (format_02X b) (format_02X a))))).
Proof.
  assert (Hq : forall n, Color.in_unit_range (inject_Z n / 255.0) = true <-> is_byte n).
  { intros n. rewrite in_unit_range_iff.
    assert (E : inject_Z n / 255.0 == inject_Z n * (1 # 255)) by field.
    rewrite E. unfold is_byte, Qle; cbn; lia. }
  assert (Hb : is_byte r /\ is_byte g /\ is_byte b /\ is_byte a ->
               fits_float r /\ fits_float g /\ fits_float b /\ fits_float a).
  { intros (?&?&?&?). auto using byte_fits_float. }
  destruct (fits_float_dec r) as [Fr|Fr];
    [destruct (fits_float_dec g) as [Fg|Fg];
      [destruct (fits_float_dec b) as [Fb|Fb];
        [destruct (fits_float_dec a) as [Fa|Fa]|]|]|].
  2-5: assert (Hf : Color.from_rgb r g b a = Raise OverflowError)
         by (unfold Color.from_rgb;
             repeat match goal with
                    | F : fits_float ?n |- _ => rewrite (int_div_float_fits n F); clear F
                    end;
             match goal with
             | F : ~ fits_float ?n |- _ => rewrite (int_div_float_overflow n 255.0 F)
             end;
             reflexivity).
  2-5: rewrite Hf; cbn [is_ok];
       (split; [split; [discriminate | intros H; apply Hb in H; tauto]|]);
       (split; [tauto|]); (split; [split; [discriminate | tauto]|]);
       (split; [intros e [= <-]; auto | discriminate]).
  assert (Hf : Color.from_rgb r g b a
               = Color.new (inject_Z r / 255.0) (inject_Z g / 255.0)
                           (inject_Z b / 255.0) (inject_Z a / 255.0)).
  { unfold Color.from_rgb. rewrite !int_div_float_fits by assumption. reflexivity. }
  rewrite Hf.
  assert (Hok : is_ok (Color.new (inject_Z r / 255.0) (inject_Z g / 255.0)
                                 (inject_Z b / 255.0) (inject_Z a / 255.0)) = true
                <-> is_byte r /\ is_byte g /\ is_byte b /\ is_byte a).
  { rewrite new_ok, !andb_true_iff, !Hq. tauto. }
  split; [exact Hok|]. split; [|split; [|split]].
  - split; [|tauto]. intros H. apply new_raises in H. discriminate.
  - split.
    + intros H. split; [auto|]. intros Hy. apply Hok in Hy. rewrite H in Hy. discriminate.
    + intros [_ Hn].
      destruct (Color.new _ _ _ _) as [c|e] eqn:E.
      * exfalso. apply Hn, Hok. reflexivity.
      * apply new_raises in E. subst e. reflexivity.
  - intros e H. right. exact (new_raises _ _ _ _ _ H).
  - intros c Hc. apply new_Ok in Hc. subst c.
    cbn [Color.r Color.g Color.b Color.a].
    assert (Hv : forall n, inject_Z n / 255.0 == inject_Z n / 255) by (intros; field).
    repeat (split; [apply Hv|]).
    unfold Color.to_hex. cbn [Color.r Color.g Color.b Color.a].
    assert (Hi : forall n, int_of_float (inject_Z n / 255.0 * 255) = n).
    { intros n. apply int_of_float_integer. field. }
    rewrite !Hi. reflexivity.
Qed.

(** X8. [Color.from_dict]: a dictionary lacking ['r'], ['g'] or ['b'] raises
    [KeyError] whatever else it holds, and a value that is no dictionary
    raises [TypeError]; a missing ['a'] stands for 1.0; with the keys at
    hand the outcome is that of the constructor on the four entries, which
    is [TypeError] when ['r'] is not a number.  So
    [from_dict(c.to_dict())] is [c] for a color with channels in range, and
    [ValueError] for any other. *)
Theorem from_dict_spec (data : value) :
  (forall d, data = VDict d ->
     (d !! "r" = None \/ d !! "g" = None \/ d !! "b" = None ->
      Color.from_dict data = Raise KeyError) /\
     (forall r g b, d !! "r" = Some r -> d !! "g" = Some g -> d !! "b" = Some b ->
        Color.from_dict data
        = Color.new_of_values r g b (default (VFloat 1.0) (d !! "a")))) /\
  ((forall d, data <> VDict d) -> Color.from_dict data = Raise TypeError) /\
  (forall d r g b, data = VDict d ->
     d !! "r" = Some r -> d !! "g" = Some g -> d !! "b" = Some b ->
     number r = None -> Color.from_dict data = Raise TypeError) /\
  (forall c, data = Color.to_dict c ->
     Color.from_dict data = Color.new (Color.r c) (Color.g c) (Color.b c) (Color.a c) /\
     (Color.post_init c = Ok tt -> Color.from_dict data = Ok c) /\
     (Color.post_init c <> Ok tt -> Color.from_dict data = Raise ValueError)).
Proof.
  split; [|split; [|split]].
  - intros d ->. split.
    + unfold Color.from_dict, py_getitem.
      intros [H|[H|H]].
      * rewrite H. reflexivity.
      * rewrite H. destruct (d !! "r"); reflexivity.
      * rewrite H. destruct (d !! "r"); [|reflexivity]. destruct (d !! "g"); reflexivity.
    + intros r g b Hr Hg Hb. unfold Color.from_dict, py_getitem, py_get, dict_get.
      rewrite Hr, Hg, Hb. reflexivity.
  - intros Hn. destruct data; try reflexivity. exfalso. eapply Hn. reflexivity.
  - intros d r g b -> Hr Hg Hb Hn.
    unfold Color.from_dict, py_getitem, py_get. rewrite Hr, Hg, Hb.
    destruct r; try discriminate Hn; reflexivity.
  - intros c ->. destruct c as [r g b a]. cbn [Color.r Color.g Color.b Color.a].
    assert (E : Color.from_dict (Color.to_dict (Color.mk r g b a)) = Color.new r g b a).
    { unfold Color.from_dict, Color.to_dict, py_getitem, py_get, dict_get.
      cbn [Color.r Color.g Color.b Color.a].
      repeat (rewrite ?lookup_insert_eq; rewrite ?lookup_insert_ne by discriminate).
      cbn [mbind result_bind from_option id].
      unfold Color.new_of_values, Color.checked_channel, Color.new, Color.post_init.
      cbn [Color.check_channels Color.r Color.g Color.b Color.a].
      destruct (Color.in_unit_range r), (Color.in_unit_range g),
               (Color.in_unit_range b), (Color.in_unit_range a); reflexivity. }
    split; [exact E|]. rewrite E.
    unfold Color.new. destruct (Color.post_init (Color.mk r g b a)) as [[]|e] eqn:Hp.
    + split; [intros _; reflexivity | congruence].
    + split; [congruence|]. intros _.
      unfold Color.post_init in Hp.
      cbn [Color.check_channels Color.r Color.g Color.b Color.a] in Hp.
      destruct (Color.in_unit_range r), (Color.in_unit_range g),
               (Color.in_unit_range b), (Color.in_unit_range a);
        cbn in Hp; try discriminate; inversion Hp; reflexivity.
Qed.

(** ** data_models.py: bounding box, closed outlines and the methods of Pattern *)

Section ExtremeFacts.








End ExtremeFacts.

Section ClosedOutlineFacts.

Lemma closed_outline_area (p : PatternPiece.t) (pts : list Point2D) :
  (2 <= length pts)%nat ->
  PatternPiece.outline p = pts ++ [nth 0 pts PatternPiece.origin] ->
  PatternPiece.get_area p == PatternPiece.shoelace_area pts.
Proof.
  intros Hn Ho.
  rewrite get_area_open_edges by (rewrite Ho, length_app; cbn; lia).
  rewrite Ho, length_app. cbn [length].
  replace (length pts + 1 - 1)%nat with (length pts) by lia.
  unfold PatternPiece.shoelace_area. cbv zeta.
  apply Qmult_comp; [unfold Qeq; reflexivity|].
  assert (E : map (fun i => PatternPiece.cross
                     (nth i (pts ++ [nth 0 pts PatternPiece.origin]) PatternPiece.origin)
                     (nth (i + 1) (pts ++ [nth 0 pts PatternPiece.origin]) PatternPiece.origin))
                  (seq 0 (length pts))
              = map (fun i => PatternPiece.cross
                     (nth (i mod length pts) pts PatternPiece.origin)
                     (nth ((i + 1) mod length pts) pts PatternPiece.origin))
                  (seq 0 (length pts))).
  { apply map_ext_in. intros i Hi. apply in_seq in Hi.
    rewrite (Nat.mod_small i) by lia.
    rewrite (app_nth1 pts) by lia.
    destruct (Nat.eq_dec (i + 1)%nat (length pts)) as [Hl|Hl].
    - rewrite Hl, Nat.Div0.mod_same, app_nth2, Nat.sub_diag by lia. reflexivity.
    - rewrite Nat.mod_small, app_nth1 by lia. reflexivity. }
  rewrite E. reflexivity.
Qed.

(** An outline that is explicitly closed is its polygon followed by the
    first vertex. *)
Lemma explicitly_closed_polygon (p : PatternPiece.t) :
  explicitly_closed p ->
  (2 <= length (polygon p))%nat /\
  PatternPiece.outline p = polygon p ++ [nth 0 (polygon p) PatternPiece.origin].
Proof.
  unfold explicitly_closed, polygon. intros [Hn Hl].
  destruct (PatternPiece.outline p) as [|a [|b [|c l]]] eqn:Ho; cbn in Hn; try lia.
  split.
  - cbn [removelast length]. lia.
  - assert (Hn0 : nth 0 (removelast (a :: b :: c :: l)) PatternPiece.origin = a)
      by reflexivity.
    rewrite Hn0. cbn [nth] in Hl.
    transitivity (removelast (a :: b :: c :: l)
                  ++ [List.last (a :: b :: c :: l) PatternPiece.origin]).
    + apply app_removelast_last. discriminate.
    + rewrite Hl. reflexivity.
Qed.

Lemma fold_plus_ext {A : Type} (f g : A -> Q) (l : list A) (a b : Q) :
  a == b -> (forall q, In q l -> f q == g q) ->
  fold_left Qplus (map f l) a == fold_left Qplus (map g l) b.
Proof.
  revert a b. induction l as [|q l IH]; intros a b Hab Hl; cbn [map fold_left].
  - exact Hab.
  - apply IH.
    + rewrite Hab, (Hl q (or_introl eq_refl)). reflexivity.
    + intros q' Hq'. apply Hl. right. exact Hq'.
Qed.

End ClosedOutlineFacts.



Section PatternFacts.

Lemma fold_plus_nonneg (l : list Q) (acc : Q) :
  0 <= acc -> (forall q, In q l -> 0 <= q) -> acc <= fold_left Qplus l acc.
Proof.
  revert acc. induction l as [|a l IH]; intros acc Ha Hl; cbn [fold_left].
  - lra.
  - assert (0 <= a) by (apply Hl; left; reflexivity).
    assert (acc + a <= fold_left Qplus l (acc + a)).
    { apply IH; [lra|]. intros q Hq. apply Hl. right. exact Hq. }
    lra.
Qed.

Lemma get_area_nonneg (p : PatternPiece.t) : 0 <= PatternPiece.get_area p.
Proof.
  unfold PatternPiece.get_area.
  destruct (length (PatternPiece.outline p) <? 3)%nat; [unfold Qle; cbn; lia|].
  cbv zeta. apply Qmult_le_0_compat; [unfold Qle; cbn; lia | apply Qabs_nonneg].
Qed.

End PatternFacts.

Section TotalAreaFacts.

Lemma areas_fit (pieces : list PatternPiece.t) :
  (forall q, In q pieces -> fits_float (PatternPiece.quantity q)) ->
  Pattern.areas pieces
  = Ok (map (fun piece => PatternPiece.get_area piece
                          * inject_Z (PatternPiece.quantity piece)) pieces).
Proof.
  induction pieces as [|piece rest IH]; intros H; cbn [Pattern.areas map].
  - reflexivity.
  - rewrite float_of_int_fits by (apply H; left; reflexivity).
    cbn [mbind result_bind]. rewrite IH by (intros q Hq; apply H; right; exact Hq).
    reflexivity.
Qed.

Lemma areas_raise (pieces : list PatternPiece.t) (e : exn) :
  Pattern.areas pieces = Raise e ->
  e = OverflowError /\ exists q, In q pieces /\ ~ fits_float (PatternPiece.quantity q).
Proof.
  induction pieces as [|piece rest IH]; cbn [Pattern.areas]; [discriminate|].
  destruct (fits_float_dec (PatternPiece.quantity piece)) as [F|F].
  - rewrite (float_of_int_fits _ F). cbn [mbind result_bind].
    destruct (Pattern.areas rest) as [items|e'] eqn:E; cbn [mbind result_bind];
      [discriminate|].
    intros [= <-]. destruct (IH eq_refl) as (-> & q & Hq & Hn).
    split; [reflexivity|]. exists q. split; [right; exact Hq | exact Hn].
  - rewrite (float_of_int_overflow _ F). cbn [mbind result_bind].
    intros [= <-]. split; [reflexivity|]. exists piece. split; [left; reflexivity | exact F].
Qed.

Lemma moderate_fits (q : PatternPiece.t) :
  PatternPiece.moderate q -> fits_float (PatternPiece.quantity q)
                             /\ (0 <= PatternPiece.quantity q)%Z.
Proof.
  intros [_ [H0 H1]]. split; [|exact H0]. unfold fits_float.
  assert (B : (2 ^ 64 < 2 ^ 1024 - 2 ^ 970)%Z) by (vm_compute; reflexivity).
  lia.
Qed.

Lemma areas_nonneg (pieces : list PatternPiece.t) :
  (forall q, In q pieces -> (0 <= PatternPiece.quantity q)%Z) ->
  forall t,
    In t (map (fun piece => PatternPiece.get_area piece
                            * inject_Z (PatternPiece.quantity piece)) pieces) ->
    0 <= t.
Proof.
  intros H t Ht. apply in_map_iff in Ht as (q & <- & Hq).
  apply Qmult_le_0_compat; [apply get_area_nonneg|].
  specialize (H q Hq). unfold Qle; cbn; lia.
Qed.

End TotalAreaFacts.

(** X11. [Pattern.get_total_area] raises [OverflowError] exactly when some
    piece has a quantity too large for a float, and no other exception.  For
    pieces with coordinates of absolute value at most [2^400] and quantities
    from 0 to [2^64] it returns a total that is not negative; one more such
    piece appended to the pattern does not lower the total; and when the
    outlines all return to their first point the total is the sum, over the
    pieces, of the shoelace area of the polygon times the quantity. *)
Theorem get_total_area_spec (p : Pattern.t) (piece : PatternPiece.t) :
  (Pattern.get_total_area p = Raise OverflowError
   <-> exists q, In q (Pattern.pieces p) /\ ~ fits_float (PatternPiece.quantity q)) /\
  (forall e, Pattern.get_total_area p = Raise e -> e = OverflowError) /\
  ((forall q, In q (Pattern.pieces p) -> PatternPiece.moderate q) ->
   exists total : Q,
     Pattern.get_total_area p = Ok total /\
     0 <= total /\
     (PatternPiece.moderate piece ->
      exists total' : Q,
        Pattern.get_total_area
          (Pattern.mk (Pattern.pattern_id p) (Pattern.name p) (Pattern.pieces p ++ [piece]))
        = Ok total' /\
        total <= total') /\
     ((forall q, In q (Pattern.pieces p) -> explicitly_closed q) ->
      total == py_sum (map (fun q => PatternPiece.shoelace_area (polygon q)
                                     * inject_Z (PatternPiece.quantity q))
                           (Pattern.pieces p)))).
Proof.
  unfold Pattern.get_total_area. cbn [Pattern.pieces]. split; [|split].
  - split.
    + destruct (Pattern.areas (Pattern.pieces p)) as [items|e] eqn:E;
        cbn [mbind result_bind]; [discriminate|].
      intros _. exact (proj2 (areas_raise _ _ E)).
    + intros (q & Hq & Hn).
      destruct (Pattern.areas (Pattern.pieces p)) as [items|e] eqn:E;
        cbn [mbind result_bind].
      * exfalso. revert E Hq. generalize (Pattern.pieces p) as l. intros l. revert items.
        induction l as [|a l IH]; intros items E [].
        -- subst a. cbn [Pattern.areas] in E.
           rewrite (float_of_int_overflow _ Hn) in E. discriminate.
        -- cbn [Pattern.areas] in E.
           destruct (float_of_int (PatternPiece.quantity a)); [|discriminate].
           cbn [mbind result_bind] in E.
           destruct (Pattern.areas l) as [rest|]; [|discriminate].
           eapply IH; [reflexivity | assumption].
      * destruct (areas_raise _ _ E) as [-> _]. reflexivity.
  - intros e. destruct (Pattern.areas (Pattern.pieces p)) as [items|e'] eqn:E;
      cbn [mbind result_bind]; [discriminate|].
    intros [= <-]. exact (proj1 (areas_raise _ _ E)).
  - intros Hm.
    assert (Hfit : forall q, In q (Pattern.pieces p) -> fits_float (PatternPiece.quantity q))
      by (intros q Hq; apply moderate_fits, Hm, Hq).
    assert (Hpos : forall q, In q (Pattern.pieces p) -> (0 <= PatternPiece.quantity q)%Z)
      by (intros q Hq; apply moderate_fits, Hm, Hq).
    rewrite (areas_fit _ Hfit). cbn [mbind result_bind].
    eexists. split; [reflexivity|]. split; [|split].
    + unfold py_sum. apply fold_plus_nonneg; [lra|]. apply areas_nonneg, Hpos.
    + intros Hpiece. destruct (moderate_fits piece Hpiece) as [Fp Pp].
      rewrite areas_fit.
      2:{ intros q Hq. apply in_app_iff in Hq as [Hq|[<-|[]]]; auto. }
      cbn [mbind result_bind]. eexists. split; [reflexivity|].
      rewrite map_app. cbn [map]. rewrite py_sum_snoc.
      assert (0 <= PatternPiece.get_area piece * inject_Z (PatternPiece.quantity piece)).
      { apply Qmult_le_0_compat; [apply get_area_nonneg | unfold Qle; cbn; lia]. }
      lra.
    + intros Hc. unfold py_sum. apply fold_plus_ext; [reflexivity|].
      intros q Hq. destruct (explicitly_closed_polygon q (Hc q Hq)) as [Hn Ho].
      rewrite (closed_outline_area q (polygon q) Hn Ho). reflexivity.
Qed.

(** X12. [Pattern.get_piece_by_id] returns the first piece carrying the
    identifier: the pieces before it carry other identifiers, so of two
    pieces with one identifier the later is never returned.  It returns
    [None] exactly when no piece carries the identifier. *)
Theorem get_piece_by_id_spec (p : Pattern.t) (piece_id : string) :
  match Pattern.get_piece_by_id p piece_id with
  | Some piece =>
      exists before after : list PatternPiece.t,
        Pattern.pieces p = before ++ piece :: after /\
        PatternPiece.piece_id piece = piece_id /\
        (forall q, In q before -> PatternPiece.piece_id q <> piece_id)
  | None => forall q, In q (Pattern.pieces p) -> PatternPiece.piece_id q <> piece_id
  end.
Proof.
  unfold Pattern.get_piece_by_id.
  induction (Pattern.pieces p) as [|a l IH]; cbn [Pattern.first_with_id].
  - intros q [].
  - destruct (String.eqb_spec (PatternPiece.piece_id a) piece_id) as [E|E].
    + exists [], l. split; [reflexivity|]. split; [exact E|]. intros q [].
    + destruct (Pattern.first_with_id l piece_id) as [piece|].
      * destruct IH as (before & after & -> & Hid & Hb).
        exists (a :: before), after. split; [reflexivity|]. split; [exact Hid|].
        intros q [<-|Hq]; auto.
      * intros q [<-|Hq]; auto.
Qed.

(** ** pattern.py: bounding boxes and seam references *)

Section PatternPyFacts.

Import pattern_py.





Lemma check_seams_Ok (ids : gset string) (seams : list Seam.t) :
  Pattern2D.check_seams ids seams = Ok tt
  <-> forall seam, In seam seams -> Seam.piece1_id seam ∈ ids /\ Seam.piece2_id seam ∈ ids.
Proof.
  induction seams as [|s l IH]; cbn [Pattern2D.check_seams].
  - split; [intros _ seam [] | reflexivity].
  - destruct (decide (Seam.piece1_id s ∈ ids)) as [H1|H1].
    + rewrite (bool_decide_eq_true_2 _ H1). cbn [negb].
      destruct (decide (Seam.piece2_id s ∈ ids)) as [H2|H2].
      * rewrite (bool_decide_eq_true_2 _ H2). cbn [negb]. rewrite IH. split.
        -- intros H seam [<-|Hin]; auto.
        -- intros H seam Hin. apply H. right. exact Hin.
      * rewrite (bool_decide_eq_false_2 _ H2). cbn [negb]. split; [discriminate|].
        intros H. destruct (H s (or_introl eq_refl)). contradiction.
    + rewrite (bool_decide_eq_false_2 _ H1). cbn [negb]. split; [discriminate|].
      intros H. destruct (H s (or_introl eq_refl)). contradiction.
Qed.

Lemma check_seams_raises (ids : gset string) (seams : list Seam.t) (e : exn) :
  Pattern2D.check_seams ids seams = Raise e -> e = ValueError.
Proof.
  induction seams as [|s l IH]; cbn [Pattern2D.check_seams]; [discriminate|].
  destruct (negb (bool_decide (Seam.piece1_id s ∈ ids))); [congruence|].
  destruct (negb (bool_decide (Seam.piece2_id s ∈ ids))); [congruence|].
  exact IH.
Qed.

Lemma first_with_id_found (pieces : list PatternPiece.t) (piece_id : string) :
  (exists piece, In piece pieces /\ PatternPiece.id piece = piece_id) ->
  exists piece, Pattern2D.first_with_id pieces piece_id = Some piece /\
                In piece pieces /\ PatternPiece.id piece = piece_id.
Proof.
  induction pieces as [|a l IH]; intros (piece & Hin & Hid).
  - destruct Hin.
  - cbn [Pattern2D.first_with_id].
    destruct (String.eqb_spec (PatternPiece.id a) piece_id) as [E|E].
    + exists a. split; [reflexivity|]. split; [left; reflexivity | exact E].
    + destruct Hin as [<-|Hin]; [contradiction|].
      destruct IH as (p & Hp & Hpin & Hpid); [exists piece; auto|].
      exists p. split; [exact Hp|]. split; [right; exact Hpin | exact Hpid].
Qed.

Lemma id_in_piece_ids (pieces : list PatternPiece.t) (piece_id : string) :
  piece_id ∈ (list_to_set (map PatternPiece.id pieces) : gset string)
  <-> exists piece, In piece pieces /\ PatternPiece.id piece = piece_id.
Proof.
  rewrite elem_of_list_to_set, list_elem_of_In, in_map_iff.
  split; intros (piece & H1 & H2); exists piece; auto.
Qed.

End PatternPyFacts.



(** X15. [Pattern2D(...)] returns exactly when there is at least one piece
    and both piece identifiers of every seam are identifiers of pieces; it
    raises nothing but [ValueError].  In a pattern it returned,
    [get_piece_by_id] finds a piece with the right identifier for both ends
    of every seam. *)
Theorem pattern2d_seams_resolve (id name : string) (design_id : option string)
    (pieces : list pattern_py.PatternPiece.t) (seams : list pattern_py.Seam.t) :
  (is_ok (pattern_py.Pattern2D.new id name design_id pieces seams) = true
   <-> pieces <> [] /\
       forall seam, In seam seams ->
         pattern_py.Pattern2D.known_id pieces (pattern_py.Seam.piece1_id seam) /\
         pattern_py.Pattern2D.known_id pieces (pattern_py.Seam.piece2_id seam)) /\
  (forall e, pattern_py.Pattern2D.new id name design_id pieces seams = Raise e ->
     e = ValueError) /\
  (forall p, pattern_py.Pattern2D.new id name design_id pieces seams = Ok p ->
     p = pattern_py.Pattern2D.mk id name design_id pieces seams /\
     forall seam, In seam (pattern_py.Pattern2D.seams p) ->
       exists piece1 piece2,
         pattern_py.Pattern2D.get_piece_by_id p (pattern_py.Seam.piece1_id seam)
         = Some piece1 /\
         pattern_py.PatternPiece.id piece1 = pattern_py.Seam.piece1_id seam /\
         pattern_py.Pattern2D.get_piece_by_id p (pattern_py.Seam.piece2_id seam)
         = Some piece2 /\
         pattern_py.PatternPiece.id piece2 = pattern_py.Seam.piece2_id seam).
Proof.
  unfold pattern_py.Pattern2D.new, pattern_py.Pattern2D.post_init.
  cbn [pattern_py.Pattern2D.pieces pattern_py.Pattern2D.seams].
  destruct pieces as [|p0 ps].
  { cbn. split; [|split]; [|congruence|discriminate].
    split; [discriminate | intros [H _]; exfalso; apply H; reflexivity]. }
  assert (Hne : p0 :: ps <> []) by discriminate.
  cbv iota. revert Hne. generalize (p0 :: ps) as pieces. intros pieces Hne.
  destruct (pattern_py.Pattern2D.check_seams
              (list_to_set (map pattern_py.PatternPiece.id pieces)) seams)
    as [[]|e0] eqn:Hc; cbn [mbind result_bind is_ok].
  - pose proof (proj1 (check_seams_Ok _ _) Hc) as Hs.
    assert (Hk : forall seam, In seam seams ->
              pattern_py.Pattern2D.known_id pieces (pattern_py.Seam.piece1_id seam)
              /\ pattern_py.Pattern2D.known_id pieces (pattern_py.Seam.piece2_id seam)).
    { intros seam Hin. destruct (Hs seam Hin) as [H1 H2].
      apply id_in_piece_ids in H1, H2. auto. }
    split; [|split].
    + split; [|reflexivity]. intros _. split; [exact Hne | exact Hk].
    + discriminate.
    + intros p [= <-]. split; [reflexivity|].
      cbn [pattern_py.Pattern2D.seams]. intros seam Hin.
      destruct (Hk seam Hin) as [K1 K2].
      apply first_with_id_found in K1 as (piece1 & F1 & _ & I1).
      apply first_with_id_found in K2 as (piece2 & F2 & _ & I2).
      exists piece1, piece2. unfold pattern_py.Pattern2D.get_piece_by_id.
      cbn [pattern_py.Pattern2D.pieces]. auto.
  - split; [|split].
    + split; [discriminate|]. intros [_ Hk]. exfalso.
      assert (Hok : pattern_py.Pattern2D.check_seams
                      (list_to_set (map pattern_py.PatternPiece.id pieces)) seams = Ok tt).
      { apply check_seams_Ok. intros seam Hin. destruct (Hk seam Hin) as [K1 K2].
        split; apply id_in_piece_ids; assumption. }
      congruence.
    + intros e [= <-]. exact (check_seams_raises _ _ _ Hc).
    + discriminate.
Qed.

(** ** common.py and pattern.py: [to_dict] and [from_dict] *)

Ltac lookup_dict :=
  repeat (rewrite lookup_insert_eq || (rewrite lookup_insert_ne by discriminate)).

Section DictFacts.

Import Untyped.

Lemma point_round_trip (p : Point2D.t) : Point2D.from_dict (Point2D.to_dict p) = Ok p.
Proof.
  destruct p as [px py]. unfold Point2D.from_dict, Point2D.to_dict, py_getitem.
  cbn [Point2D.x Point2D.y]. lookup_dict. reflexivity.
Qed.

Lemma points_round_trip (l : list Point2D.t) :
  map_result Point2D.from_dict (map Point2D.to_dict l) = Ok l.
Proof.
  induction l as [|p l IH]; [reflexivity|].
  cbn [map map_result]. rewrite point_round_trip, IH. reflexivity.
Qed.

Lemma transform_round_trip (t : Transform2D.t) :
  Transform2D.from_dict (Transform2D.to_dict t) = Ok t.
Proof.
  destruct t as [tr ro sc]. unfold Transform2D.from_dict, Transform2D.to_dict, py_getitem.
  cbn [Transform2D.translation Transform2D.rotation Transform2D.scale].
  lookup_dict. cbn [mbind result_bind]. rewrite !point_round_trip. reflexivity.
Qed.

Lemma contour_round_trip (c : Contour.t) :
  Contour.from_dict (Contour.to_dict c)
  = Contour.new (Contour.points c) (Contour.closed c) (Contour.label c).
Proof.
  unfold Contour.from_dict, Contour.to_dict, py_getitem, py_get, dict_get.
  lookup_dict. cbn [mbind result_bind py_iter from_option id].
  rewrite points_round_trip. reflexivity.
Qed.

Lemma contour_valid_round_trip (c : Contour.t) :
  Contour.post_init c = Ok tt -> Contour.from_dict (Contour.to_dict c) = Ok c.
Proof.
  intros H. rewrite contour_round_trip. unfold Contour.new.
  destruct c as [pts cl lb]. cbn [Contour.points Contour.closed Contour.label].
  rewrite H. reflexivity.
Qed.

Lemma contours_round_trip (l : list Contour.t) :
  Forall (fun c => Contour.post_init c = Ok tt) l ->
  map_result Contour.from_dict (map Contour.to_dict l) = Ok l.
Proof.
  induction 1 as [|c l Hc Hl IH]; [reflexivity|].
  cbn [map map_result]. rewrite (contour_valid_round_trip c Hc), IH. reflexivity.
Qed.

Lemma grain_line_round_trip (g : GrainLine.t) :
  GrainLine.from_dict (GrainLine.to_dict g) = Ok g /\ truthy (GrainLine.to_dict g) = true.
Proof.
  destruct g as [s e l]. split.
  - unfold GrainLine.from_dict, GrainLine.to_dict, py_getitem, py_get, dict_get.
    cbn [GrainLine.start GrainLine.end_ GrainLine.label].
    lookup_dict. cbn [mbind result_bind from_option id].
    rewrite !point_round_trip. reflexivity.
  - unfold GrainLine.to_dict. cbn [truthy].
    destruct (map_to_list _) eqn:E; [|reflexivity].
    apply map_to_list_empty_iff in E. exfalso. exact (insert_non_empty _ _ _ E).
Qed.

Lemma notch_type_round_trip (m : NotchType.t) :
  NotchType.call (VStr (NotchType.value_of m)) = Ok m.
Proof. destruct m; reflexivity. Qed.

Lemma piece_type_round_trip (m : PatternPieceType.t) :
  PatternPieceType.call (VStr (PatternPieceType.value_of m)) = Ok m.
Proof. destruct m; reflexivity. Qed.

Lemma notch_round_trip (n : Notch.t) : Notch.from_dict (Notch.to_dict n) = Ok n.
Proof.
  destruct n as [i p t l]. unfold Notch.from_dict, Notch.to_dict, py_getitem, py_get, dict_get.
  cbn [Notch.id Notch.position Notch.type Notch.label].
  lookup_dict. cbn [mbind result_bind from_option id].
  rewrite point_round_trip, notch_type_round_trip. reflexivity.
Qed.

Lemma notches_round_trip (l : list Notch.t) :
  map_result Notch.from_dict (map Notch.to_dict l) = Ok l.
Proof.
  induction l as [|n l IH]; [reflexivity|].
  cbn [map map_result]. rewrite notch_round_trip, IH. reflexivity.
Qed.

(** [PatternPiece.from_dict] on a dictionary that holds, under the keys other
    than ['transform'], what [to_dict] writes for [p]: all that is left to
    do is to read the transform. *)
Lemma piece_from_entries (p : PatternPiece.t) (d : gmap string value) :
  Contour.post_init (PatternPiece.outer_contour p) = Ok tt ->
  Forall (fun c => Contour.post_init c = Ok tt) (PatternPiece.inner_contours p) ->
  (forall k v, k <> "transform"%string ->
     (forall e, PatternPiece.to_dict p = VDict e -> e !! k = Some v) -> d !! k = Some v) ->
  PatternPiece.from_dict (VDict d)
  = (transform ← Transform2D.from_dict
                   (default PatternPiece.default_transform (d !! "transform"));
     Ok (PatternPiece.mk (PatternPiece.id p) (PatternPiece.name p) (PatternPiece.type p)
           (PatternPiece.outer_contour p) (PatternPiece.inner_contours p)
           (PatternPiece.grain_line p) (PatternPiece.notches p) transform
           (PatternPiece.metadata p))).
Proof.
  intros Ho Hi Hd.
  assert (L : forall k v, k <> "transform"%string ->
            (forall e, PatternPiece.to_dict p = VDict e -> e !! k = Some v) ->
            d !! k = Some v) by exact Hd.
  unfold PatternPiece.from_dict, py_getitem, py_get, dict_get.
  rewrite (L "id"%string (PatternPiece.id p)); [|discriminate|].
  2:{ intros e [= <-]. lookup_dict. reflexivity. }
  rewrite (L "name"%string (PatternPiece.name p)); [|discriminate|].
  2:{ intros e [= <-]. lookup_dict. reflexivity. }
  rewrite (L "type"%string (VStr (PatternPieceType.value_of (PatternPiece.type p))));
    [|discriminate|].
  2:{ intros e [= <-]. lookup_dict. reflexivity. }
  rewrite (L "outer_contour"%string (Contour.to_dict (PatternPiece.outer_contour p)));
    [|discriminate|].
  2:{ intros e [= <-]. lookup_dict. reflexivity. }
  rewrite (L "inner_contours"%string
             (VList (map Contour.to_dict (PatternPiece.inner_contours p))));
    [|discriminate|].
  2:{ intros e [= <-]. lookup_dict. reflexivity. }
  rewrite (L "grain_line"%string
             (match PatternPiece.grain_line p with
              | Some grain_line => GrainLine.to_dict grain_line
              | None => VNone
              end)); [|discriminate|].
  2:{ intros e [= <-]. lookup_dict. reflexivity. }
  rewrite (L "notches"%string (VList (map Notch.to_dict (PatternPiece.notches p))));
    [|discriminate|].
  2:{ intros e [= <-]. lookup_dict. reflexivity. }
  rewrite (L "metadata"%string (PatternPiece.metadata p)); [|discriminate|].
  2:{ intros e [= <-]. lookup_dict. reflexivity. }
  cbn [mbind result_bind from_option id py_iter].
  rewrite piece_type_round_trip. cbn [mbind result_bind].
  rewrite (contour_valid_round_trip _ Ho). cbn [mbind result_bind].
  rewrite (contours_round_trip _ Hi). cbn [mbind result_bind].
  rewrite notches_round_trip.
  destruct (PatternPiece.grain_line p) as [g|].
  - destruct (grain_line_round_trip g) as [-> ->]. reflexivity.
  - reflexivity.
Qed.

(** A call that raises after every outcome of the one before it raises. *)
Lemma bind_never {A B : Type} (m : result A) (k : A -> result B) :
  (forall a, exists e, k a = Raise e) -> exists e, (m ≫= k) = Raise e.
Proof.
  intros H. destruct m as [a|e]; [apply H | exists e; reflexivity].
Qed.

(** A piece without its transform is not loaded. *)
Lemma piece_without_transform (d : gmap string value) :
  d !! "transform" = None -> exists e, PatternPiece.from_dict (VDict d) = Raise e.
Proof.
  intros Hd. unfold PatternPiece.from_dict.
  do 14 (apply bind_never; intros ?).
  unfold py_get, dict_get. rewrite Hd. cbn [mbind result_bind from_option id].
  assert (Hk : Transform2D.from_dict PatternPiece.default_transform = Raise KeyError).
  { unfold Transform2D.from_dict, PatternPiece.default_transform, py_getitem.
    lookup_dict. rewrite lookup_empty. reflexivity. }
  rewrite Hk. eexists. reflexivity.
Qed.

End DictFacts.

(** X16. [Point2D], [BoundingBox2D] and [Transform2D] survive the trip
    through their dictionary: [from_dict(v.to_dict())] returns an instance
    equal to [v], whatever the fields hold.  [Point2D.from_dict] returns
    exactly on a dictionary with the keys ['x'] and ['y'], taking these two
    entries and ignoring any other; on a dictionary without one of them it
    raises [KeyError], on a value that is no dictionary [TypeError]. *)
Theorem common_dict_round_trip :
  (forall p, Untyped.Point2D.from_dict (Untyped.Point2D.to_dict p) = Ok p) /\
  (forall b, Untyped.BoundingBox2D.from_dict (Untyped.BoundingBox2D.to_dict b) = Ok b) /\
  (forall t, Untyped.Transform2D.from_dict (Untyped.Transform2D.to_dict t) = Ok t) /\
  (forall d : gmap string value,
     match d !! "x", d !! "y" with
     | Some vx, Some vy =>
         Untyped.Point2D.from_dict (VDict d) = Ok (Untyped.Point2D.mk vx vy)
     | _, _ => Untyped.Point2D.from_dict (VDict d) = Raise KeyError
     end) /\
  (forall data, (forall d, data <> VDict d) ->
     Untyped.Point2D.from_dict data = Raise TypeError).
Proof.
  split; [exact point_round_trip|].
  split.
  { intros [lo hi].
    unfold Untyped.BoundingBox2D.from_dict, Untyped.BoundingBox2D.to_dict, py_getitem.
    cbn [Untyped.BoundingBox2D.min_point Untyped.BoundingBox2D.max_point].
    lookup_dict. cbn [mbind result_bind]. rewrite !point_round_trip. reflexivity. }
  split; [exact transform_round_trip|].
  split.
  - intros d. unfold Untyped.Point2D.from_dict, py_getitem.
    destruct (d !! "x"), (d !! "y"); reflexivity.
  - intros data Hn. destruct data; try reflexivity. exfalso. eapply Hn. reflexivity.
Qed.

(** X17. A pattern piece whose contours have at least two points each comes
    back from its dictionary: [PatternPiece.from_dict(p.to_dict())] returns
    an instance equal to [p].  Keys that [to_dict] does not write are
    ignored, so any dictionary that extends [p.to_dict()] gives [p] as
    well. *)
Theorem piece_dict_round_trip (p : Untyped.PatternPiece.t) (e d : gmap string value) :
  Untyped.Contour.post_init (Untyped.PatternPiece.outer_contour p) = Ok tt ->
  Forall (fun c => Untyped.Contour.post_init c = Ok tt)
         (Untyped.PatternPiece.inner_contours p) ->
  Untyped.PatternPiece.to_dict p = VDict e ->
  e ⊆ d ->
  Untyped.PatternPiece.from_dict (VDict d) = Ok p.
Proof.
  intros Ho Hi He Hsub.
  rewrite (piece_from_entries p d Ho Hi).
  - assert (Ht : d !! "transform"
                 = Some (Untyped.Transform2D.to_dict (Untyped.PatternPiece.transform p))).
    { eapply lookup_weaken; [|exact Hsub].
      injection He as <-. lookup_dict. reflexivity. }
    rewrite Ht. cbn [from_option id]. rewrite transform_round_trip.
    destruct p. reflexivity.
  - intros k v _ Hk. eapply lookup_weaken; [|exact Hsub]. apply Hk. exact He.
Qed.

(** X18. A dictionary without the key ['transform'] is never loaded:
    [PatternPiece.from_dict] raises on it, whatever else it holds, because
    the dictionary that stands in for the missing entry has none of the keys
    that [Transform2D.from_dict] reads.  On [p.to_dict()] with the entry
    ['transform'] removed the exception is [KeyError]. *)
Theorem piece_from_dict_needs_transform (d : gmap string value) :
  d !! "transform" = None ->
  (exists e, Untyped.PatternPiece.from_dict (VDict d) = Raise e) /\
  Untyped.Transform2D.from_dict Untyped.PatternPiece.default_transform = Raise KeyError /\
  (forall p e,
     Untyped.Contour.post_init (Untyped.PatternPiece.outer_contour p) = Ok tt ->
     Forall (fun c => Untyped.Contour.post_init c = Ok tt)
            (Untyped.PatternPiece.inner_contours p) ->
     Untyped.PatternPiece.to_dict p = VDict e ->
     d = delete "transform" e ->
     Untyped.PatternPiece.from_dict (VDict d) = Raise KeyError).
Proof.
  intros Hd.
  assert (Hk : Untyped.Transform2D.from_dict Untyped.PatternPiece.default_transform
               = Raise KeyError).
  { unfold Untyped.Transform2D.from_dict, Untyped.PatternPiece.default_transform, py_getitem.
    lookup_dict. rewrite lookup_empty. reflexivity. }
  split; [|split; [exact Hk|]].
  - exact (piece_without_transform d Hd).
  - intros p e Ho Hi He ->.
    rewrite (piece_from_entries p _ Ho Hi).
    + rewrite lookup_delete_eq. cbn [from_option id]. rewrite Hk. reflexivity.
    + intros k v Hne Hkv. rewrite lookup_delete_ne by congruence. apply Hkv. exact He.
Qed.

(** ** The demo engines and the mock API: sessions and workflows *)

Section SessionFacts.

Lemma optimize_appends (self self' : FakeLayoutOptimizer.t) (pattern fabric params : value)
    (w : world) (r : value) :
  FakeLayoutOptimizer.optimize self pattern fabric params w = Ok (self', r) ->
  FakeLayoutOptimizer.optimization_history self'
  = FakeLayoutOptimizer.optimization_history self ++ [r].
Proof.
  unfold FakeLayoutOptimizer.optimize.
  repeat match goal with
         | |- (?m ≫= _) = Ok _ -> _ =>
             destruct m; cbn [mbind result_bind]; [|discriminate]
         end.
  intros [= <- <-]. reflexivity.
Qed.

(** One call: the history grows by the ['data'] of a response to
    [optimize_layout], and stays as it is on any other endpoint. *)
Lemma call_history (s s' : apis) (e : endpoint) (w : world) (v : value) :
  call s e w = Ok (s', v) ->
  FakeLayoutOptimizer.optimization_history (MockLayoutAPI.optimizer (layout_api s'))
  = FakeLayoutOptimizer.optimization_history (MockLayoutAPI.optimizer (layout_api s))
    ++ optimized [(e, w)] [Ok v].
Proof.
  destruct e as [d|id|id|rd|rd|id|rd|rd|]; cbn [call optimized].
  - destruct (MockPatternAPI.generate_pattern (pattern_api s) d w) as [[a v']|];
      cbn [mbind result_bind]; [|discriminate].
    intros [= <- <-]. cbn. rewrite app_nil_r. reflexivity.
  - intros [= <- <-]. rewrite app_nil_r. reflexivity.
  - intros [= <- <-]. rewrite app_nil_r. reflexivity.
  - destruct (MockFabricAPI.simulate_draping (fabric_api s) rd w) as [a v'].
    intros [= <- <-]. cbn. rewrite app_nil_r. reflexivity.
  - intros [= <- <-]. rewrite app_nil_r. reflexivity.
  - intros [= <- <-]. rewrite app_nil_r. reflexivity.
  - unfold MockLayoutAPI.optimize_layout.
    destruct (FakeLayoutOptimizer.optimize _ _ _ _ _) as [[o r]|] eqn:E;
      cbn [mbind result_bind]; [|discriminate].
    intros [= <- <-]. cbn [layout_api MockLayoutAPI.optimizer].
    rewrite (optimize_appends _ _ _ _ _ _ _ E).
    rewrite lookup_insert_ne by discriminate. rewrite lookup_insert_eq. reflexivity.
  - intros [= <- <-]. rewrite app_nil_r. reflexivity.
  - intros [= <- <-]. rewrite app_nil_r. reflexivity.
Qed.

End SessionFacts.

(** X19. Over any sequence of calls to the nine endpoints, from any state of
    the APIs: the optimization history grows by exactly the ['data'] of the
    responses to [optimize_layout] that came back, in the order of the
    calls; no other endpoint and no call that raised adds or removes an
    entry.  [get_optimization_history] reports this list and its length as
    ['count']. *)
Theorem session_history (s : apis) (calls : list (endpoint * world)) :
  let history (s : apis) :=
    FakeLayoutOptimizer.optimization_history (MockLayoutAPI.optimizer (layout_api s)) in
  length (session s calls).2 = length calls /\
  history (session s calls).1 = history s ++ optimized calls (session s calls).2 /\
  MockLayoutAPI.get_optimization_history (layout_api (session s calls).1)
  = VDict {[ "success" := VBool true;
             "data" :=
               VDict {[ "history" := VList (history s ++ optimized calls (session s calls).2);
                        "count" := VInt (Z.of_nat (length (history s)
                                          + length (optimized calls (session s calls).2))) ]};
             "meta" := VDict {[ "version" := VStr "1.0.0-demo" ]} ]}.
Proof.
  intros history.
  assert (H : length (session s calls).2 = length calls /\
              history (session s calls).1
              = history s ++ optimized calls (session s calls).2).
  { revert s. induction calls as [|[e w] calls IH]; intros s.
    - cbn. rewrite app_nil_r. auto.
    - cbn [session].
      destruct (call s e w) as [[s1 v]|err] eqn:E.
      + destruct (IH s1) as [IH1 IH2].
        destruct (session s1 calls) as [s2 vs]. cbn [fst snd] in *.
        split; [cbn; lia|].
        rewrite IH2. subst history. cbv beta.
        rewrite (call_history _ _ _ _ _ E), <- app_assoc. f_equal.
        cbn [optimized]. destruct e; try reflexivity.
        destruct v; try reflexivity.
        destruct (d !! "data"); reflexivity.
      + destruct (IH s) as [IH1 IH2].
        destruct (session s calls) as [s2 vs]. cbn [fst snd] in *.
        split; [cbn; lia|].
        rewrite IH2. f_equal. cbn [optimized]. destruct e; reflexivity. }
  destruct H as [H1 H2]. split; [exact H1|]. split; [exact H2|].
  unfold MockLayoutAPI.get_optimization_history. fold (history (session s calls).1).
  rewrite H2, length_app. reflexivity.
Qed.

(** X20. The workflow of the demo: whatever the design data, the pattern
    that [generate_pattern] returns is accepted by [optimize_layout] for any
    fabric whose ['width'] is absent or a nonzero number.  The layout has
    the front panel at [x = 0] and the back panel at [x = 60], and the
    fabric length is [(120 / width) * 100 + 50]; both responses are success
    envelopes. *)
Theorem demo_workflow (s : apis) (design_data fabric : gmap string value)
    (params : value) (w1 w2 : world) (width : Q) :
  number (dict_get fabric "width" (VInt 150)) = Some width ->
  ~ width == 0 ->
  exists (s1 s2 : apis) (response1 data1 response2 result : gmap string value)
         (pattern : value) (fabric_length : Q),
    call s (GeneratePattern design_data) w1 = Ok (s1, VDict response1) /\
    success_envelope (VDict response1) /\
    response1 !! "data" = Some (VDict data1) /\
    data1 !! "pattern" = Some pattern /\
    call s1 (OptimizeLayout {[ "pattern" := pattern; "fabric" := VDict fabric;
                               "params" := params ]}) w2
    = Ok (s2, VDict response2) /\
    success_envelope (VDict response2) /\
    response2 !! "data" = Some (VDict result) /\
    result !! "layout"
    = Some (VList [placement "front_panel" 0; placement "back_panel" 60]) /\
    result !! "fabric_length" = Some (VFloat fabric_length) /\
    fabric_length == 120 / width * 100 + 50.
Proof.
  intros Hw Hnz.
  cbn [call]. unfold MockPatternAPI.generate_pattern, FakePatternGenerator.generate.
  cbn [py_get mbind result_bind].
  set (pattern :=
         ({[ "id" := VStr ("pattern_" +:+ pretty (randint_draw w1));
             "design_id" := dict_get design_data "id" (VStr "unknown");
             "pieces" := VList [FakePatternGenerator.front_panel;
                                FakePatternGenerator.back_panel];
             "metadata" := VDict {[ "version" := VStr "1.0.0-demo";
                                    "generated_by" := VStr "FakePatternGenerator";
                                    "note" := VStr "DEMO ONLY - Not real pattern data" ]} ]}
          : gmap string value)).
  unfold MockLayoutAPI.optimize_layout.
  assert (Hp : dict_get ({[ "pattern" := VDict pattern; "fabric" := VDict fabric;
                            "params" := params ]} : gmap string value)
                        "pattern" (VDict ∅) = VDict pattern).
  { unfold dict_get. rewrite lookup_insert_eq. reflexivity. }
  assert (Hf : dict_get ({[ "pattern" := VDict pattern; "fabric" := VDict fabric;
                            "params" := params ]} : gmap string value)
                        "fabric" (VDict ∅) = VDict fabric).
  { unfold dict_get. rewrite lookup_insert_ne by discriminate.
    rewrite lookup_insert_eq. reflexivity. }
  pose (ds := [ match FakePatternGenerator.front_panel with VDict d => d | _ => ∅ end;
                match FakePatternGenerator.back_panel with VDict d => d | _ => ∅ end ]).
  assert (Hds : dict_get pattern "pieces" (VList []) = VList (VDict <$> ds)).
  { unfold dict_get, pattern. rewrite lookup_insert_ne by discriminate.
    rewrite lookup_insert_ne by discriminate. rewrite lookup_insert_eq. reflexivity. }
  destruct (optimize_on_dicts
              (MockLayoutAPI.optimizer (layout_api s)) pattern fabric
              (dict_get ({[ "pattern" := VDict pattern; "fabric" := VDict fabric;
                            "params" := params ]} : gmap string value)
                        "params" (VDict ∅)) w2 ds width Hds Hw Hnz)
    as (o & result & layout & Hopt & Hl & R1 & R2 & _).
  assert (Hlayout : layout = [placement "front_panel" 0; placement "back_panel" 60]).
  { assert (E : FakeLayoutOptimizer.place_from 0 (VDict <$> ds)
                = Ok [placement "front_panel" 0; placement "back_panel" 60]).
    { vm_compute. reflexivity. }
    congruence. }
  do 5 eexists. exists result, (VDict pattern). eexists.
  split; [reflexivity|].
  split; [unfold success_envelope; do 2 eexists;
          split; [reflexivity|]; repeat split; reflexivity|].
  split; [reflexivity|]. split; [reflexivity|].
  rewrite Hp, Hf. cbn [layout_api]. rewrite Hopt. cbn [mbind result_bind].
  split; [reflexivity|].
  split; [unfold success_envelope; do 2 eexists;
          split; [reflexivity|]; repeat split; reflexivity|].
  split; [reflexivity|].
  split; [rewrite R1, Hlayout; reflexivity|].
  split; [exact R2|].
  cbn [length]. reflexivity.
Qed.

(** X21. Whatever the request and the state, [evaluate_layout] returns a
    success envelope whose four metrics lie in fixed ranges: utilization in
    [[0.65, 0.75]], waste in [[2000, 3000]], compactness in [[0.6, 0.8]] and
    grain alignment in [[0.7, 0.9]], for draws of [random()] in [[0, 1)].
    The layout, the pattern and the fabric of the request have no influence
    on them. *)
Theorem evaluate_layout_ranges (self : MockLayoutAPI.t) (request_data : gmap string value)
    (w : world) :
  (forall i : nat, 0 <= random_draws w i /\ random_draws w i < 1) ->
  exists (response data metrics : gmap string value)
         (utilization waste compactness grain_alignment : Q),
    MockLayoutAPI.evaluate_layout self request_data w = VDict response /\
    success_envelope (VDict response) /\
    response !! "data" = Some (VDict data) /\
    data !! "metrics" = Some (VDict metrics) /\
    metrics !! "utilization" = Some (VFloat utilization) /\
    0.65 <= utilization <= 0.75 /\
    metrics !! "waste" = Some (VFloat waste) /\
    2000 <= waste <= 3000 /\
    metrics !! "compactness" = Some (VFloat compactness) /\
    0.6 <= compactness <= 0.8 /\
    metrics !! "grain_alignment" = Some (VFloat grain_alignment) /\
    0.7 <= grain_alignment <= 0.9 /\
    MockLayoutAPI.evaluate_layout self request_data w
    = MockLayoutAPI.evaluate_layout MockLayoutAPI.init ∅ w.
Proof.
  intros Hd.
  unfold MockLayoutAPI.evaluate_layout, FakeLayoutOptimizer.evaluate_layout.
  do 7 eexists.
  split; [reflexivity|].
  split; [unfold success_envelope; do 2 eexists;
          split; [reflexivity|]; repeat split; reflexivity|].
  split; [reflexivity|]. split; [reflexivity|].
  split; [reflexivity|].
  split; [apply uniform_bounds; try apply Hd; apply Qle_bool_iff; reflexivity|].
  split; [reflexivity|].
  split; [apply uniform_bounds; try apply Hd; apply Qle_bool_iff; reflexivity|].
  split; [reflexivity|].
  split; [apply uniform_bounds; try apply Hd; apply Qle_bool_iff; reflexivity|].
  split; [reflexivity|].
  split; [apply uniform_bounds; try apply Hd; apply Qle_bool_iff; reflexivity|].
  reflexivity.
Qed.

Section MultiFabricFacts.

Import FakeLayoutOptimizer.

Lemma optimize_pairs_spec (pairs : list (value * value)) (params : value)
    (ws : nat -> world) (self : t) (i : nat) :
  match optimize_pairs self pairs params ws i with
  | (self', Ok results) =>
      length results = length pairs /\
      optimization_history self' = optimization_history self ++ results /\
      forall (j : nat) (pattern fabric : value),
        pairs !! j = Some (pattern, fabric) ->
        exists (before after : t) (r : value),
          optimize before pattern fabric params (ws (i + j)%nat) = Ok (after, r) /\
          results !! j = Some r /\
          optimization_history before
          = optimization_history self ++ take j results
  | (self', Raise e) =>
      exists (done : list value) (before : t) (pattern fabric : value),
        optimization_history self' = optimization_history self ++ done /\
        (length done < length pairs)%nat /\
        pairs !! length done = Some (pattern, fabric) /\
        optimization_history before = optimization_history self ++ done /\
        optimize before pattern fabric params (ws (i + length done)%nat) = Raise e /\
        forall (j : nat) (pattern fabric : value),
          (j < length done)%nat ->
          pairs !! j = Some (pattern, fabric) ->
          exists (before after : t) (r : value),
            optimize before pattern fabric params (ws (i + j)%nat) = Ok (after, r) /\
            done !! j = Some r /\
            optimization_history before
            = optimization_history self ++ take j done
  end.
Proof.
  revert self i. induction pairs as [|[pattern fabric] pairs IH]; intros self i.
  - cbn [optimize_pairs]. split; [reflexivity|]. split; [rewrite app_nil_r; reflexivity|].
    intros j p f Hj. rewrite lookup_nil in Hj. discriminate.
  - cbn [optimize_pairs].
    destruct (optimize self pattern fabric params (ws i)) as [[self1 r]|e] eqn:E.
    + pose proof (optimize_appends _ _ _ _ _ _ _ E) as Hh.
      specialize (IH self1 (S i)).
      destruct (optimize_pairs self1 pairs params ws (S i)) as [self2 [results|e]].
      * destruct IH as (Hlen & Hhist & Hall). cbn [mbind result_bind].
        split; [cbn; lia|]. split.
        { rewrite Hhist, Hh, <- app_assoc. reflexivity. }
        intros [|j] p f Hj.
        -- cbn in Hj. injection Hj as <- <-.
           exists self, self1, r. rewrite Nat.add_0_r.
           split; [exact E|]. split; [reflexivity|].
           cbn. rewrite app_nil_r. reflexivity.
        -- cbn in Hj. destruct (Hall j p f Hj) as (b & a & r' & Ho & Hr & Hb).
           exists b, a, r'. replace (i + S j)%nat with (S i + j)%nat by lia.
           split; [exact Ho|]. split; [exact Hr|].
           rewrite Hb, Hh, <- app_assoc. reflexivity.
      * destruct IH as (done & b & p & f & Hhist & Hlen & Hp & Hb & Ho & Hall).
        cbn [mbind result_bind].
        exists (r :: done), b, p, f.
        split; [rewrite Hhist, Hh, <- app_assoc; reflexivity|].
        split; [cbn; lia|]. split; [exact Hp|].
        split; [rewrite Hb, Hh, <- app_assoc; reflexivity|].
        cbn [length]. replace (i + S (length done))%nat with (S i + length done)%nat by lia.
        split; [exact Ho|].
        intros [|j] p' f' Hj Hpj.
        -- cbn in Hpj. injection Hpj as <- <-.
           exists self, self1, r. rewrite Nat.add_0_r.
           split; [exact E|]. split; [reflexivity|].
           cbn. rewrite app_nil_r. reflexivity.
        -- cbn in Hpj. destruct (Hall j p' f' ltac:(lia) Hpj) as (b' & a' & r' & Ho' & Hr' & Hb').
           exists b', a', r'. replace (i + S j)%nat with (S i + j)%nat by lia.
           split; [exact Ho'|]. split; [exact Hr'|].
           rewrite Hb', Hh, <- app_assoc. reflexivity.
    + exists [], self, pattern, fabric.
      split; [rewrite app_nil_r; reflexivity|]. split; [cbn; lia|].
      split; [reflexivity|]. split; [rewrite app_nil_r; reflexivity|].
      cbn [length]. rewrite Nat.add_0_r. split; [exact E|].
      intros j p' f' Hj. lia.
Qed.

End MultiFabricFacts.

(** X22. [optimize_multi_fabric] pairs the patterns with the fabrics in
    order and stops at the shorter list.  When it returns, there is one
    result per pair, each the result of [optimize] on that pair, and the
    history has grown by these results.  When the call for some pair raises,
    the exception leaves [optimize_multi_fabric], whose caller gets no
    result, while the history has grown by the results of the pairs before
    it: one entry per earlier pair, each the result that [optimize] returned
    on that pair, in order. *)
Theorem optimize_multi_fabric_spec (self : FakeLayoutOptimizer.t)
    (patterns fabrics : list value) (params : value) (ws : nat -> world) :
  match FakeLayoutOptimizer.optimize_multi_fabric self patterns fabrics params ws with
  | (self', Ok results) =>
      length results = Nat.min (length patterns) (length fabrics) /\
      FakeLayoutOptimizer.optimization_history self'
      = FakeLayoutOptimizer.optimization_history self ++ results /\
      forall (j : nat) (pattern fabric : value),
        patterns !! j = Some pattern -> fabrics !! j = Some fabric ->
        exists (before after : FakeLayoutOptimizer.t) (r : value),
          FakeLayoutOptimizer.optimize before pattern fabric params (ws j) = Ok (after, r) /\
          results !! j = Some r /\
          FakeLayoutOptimizer.optimization_history before
          = FakeLayoutOptimizer.optimization_history self ++ take j results
  | (self', Raise e) =>
      exists (done : list value) (before : FakeLayoutOptimizer.t) (pattern fabric : value),
        FakeLayoutOptimizer.optimization_history self'
        = FakeLayoutOptimizer.optimization_history self ++ done /\
        (length done < Nat.min (length patterns) (length fabrics))%nat /\
        patterns !! length done = Some pattern /\
        fabrics !! length done = Some fabric /\
        FakeLayoutOptimizer.optimization_history before
        = FakeLayoutOptimizer.optimization_history self ++ done /\
        FakeLayoutOptimizer.optimize before pattern fabric params (ws (length done))
        = Raise e /\
        forall (j : nat) (pattern fabric : value),
          (j < length done)%nat ->
          patterns !! j = Some pattern -> fabrics !! j = Some fabric ->
          exists (before after : FakeLayoutOptimizer.t) (r : value),
            FakeLayoutOptimizer.optimize before pattern fabric params (ws j)
            = Ok (after, r) /\
            done !! j = Some r /\
            FakeLayoutOptimizer.optimization_history before
            = FakeLayoutOptimizer.optimization_history self ++ take j done
  end.
Proof.
  unfold FakeLayoutOptimizer.optimize_multi_fabric.
  pose proof (optimize_pairs_spec (combine patterns fabrics) params ws self 0) as H.
  assert (Hzip : forall j p f,
            combine patterns fabrics !! j = Some (p, f)
            <-> patterns !! j = Some p /\ fabrics !! j = Some f).
  { clear. revert fabrics. induction patterns as [|a l IH]; intros fabrics j p f.
    - cbn. rewrite !lookup_nil. split; [discriminate | intros [H _]; discriminate].
    - destruct fabrics as [|b fs].
      + cbn. rewrite !lookup_nil. split; [discriminate | intros [_ H]; discriminate].
      + destruct j as [|j]; cbn.
        * split; [intros [= <- <-]; auto | intros [[= <-] [= <-]]; reflexivity].
        * apply IH. }
  destruct (FakeLayoutOptimizer.optimize_pairs self (combine patterns fabrics) params ws 0)
    as [self' [results|e]].
  - destruct H as (Hlen & Hhist & Hall).
    rewrite length_combine in Hlen.
    split; [exact Hlen|]. split; [exact Hhist|].
    intros j p f Hp Hf. apply (Hall j p f). apply Hzip. auto.
  - destruct H as (done & b & p & f & Hhist & Hlen & Hp & Hb & Ho & Hall).
    rewrite length_combine in Hlen. apply Hzip in Hp as [Hp Hf].
    exists done, b, p, f. cbn [Nat.add] in Ho.
    do 5 (split; [assumption|]). split; [exact Ho|].
    intros j p' f' Hj Hp' Hf'. apply (Hall j p' f' Hj). apply Hzip. auto.
Qed.

(** X23. [optimize_with_constraints] returns what [optimize] returns, with
    two entries of ['metadata'] written afterwards: ['constraints_applied']
    is the number of constraints and ['note'] ends in the remark that they
    were ignored.  The result is the dictionary that [optimize] has put into
    the history, so the last entry of the history shows the two entries as
    well.  When the constraints have no length ([None], a number), the
    [TypeError] comes after [optimize] has returned: the call raises and the
    history has grown all the same. *)
Theorem optimize_with_constraints_spec (self : FakeLayoutOptimizer.t)
    (pattern fabric constraints : value) (w : world) :
  match FakeLayoutOptimizer.optimize self pattern fabric VNone w with
  | Raise e =>
      FakeLayoutOptimizer.optimize_with_constraints self pattern fabric constraints w
      = (self, Raise e)
  | Ok (self1, plain) =>
      match py_len constraints with
      | Raise e =>
          FakeLayoutOptimizer.optimize_with_constraints self pattern fabric constraints w
          = (self1, Raise e) /\
          FakeLayoutOptimizer.optimization_history self1
          = FakeLayoutOptimizer.optimization_history self ++ [plain]
      | Ok n =>
          exists r m : gmap string value,
            plain = VDict r /\
            r !! "metadata" = Some (VDict m) /\
            let noted :=
              VDict (<["metadata" :=
                         VDict (<["note" := VStr "DEMO ONLY - Not real optimization (no RL, no genetic algorithm) - Constraints ignored in demo"]>
                               (<["constraints_applied" := VInt n]> m))]> r) in
            FakeLayoutOptimizer.optimize_with_constraints self pattern fabric constraints w
            = (FakeLayoutOptimizer.mk
                 (FakeLayoutOptimizer.optimization_history self ++ [noted])
                 (FakeLayoutOptimizer.last_optimization_time self1),
               Ok noted)
      end
  end.
Proof.
  unfold FakeLayoutOptimizer.optimize_with_constraints.
  destruct (FakeLayoutOptimizer.optimize self pattern fabric VNone w)
    as [[self1 plain]|e] eqn:E; [|reflexivity].
  pose proof (optimize_appends _ _ _ _ _ _ _ E) as Hh.
  destruct (py_len constraints) as [n|e]; cbn [mbind result_bind].
  - revert E. unfold FakeLayoutOptimizer.optimize.
    repeat match goal with
           | |- (?m ≫= _) = Ok _ -> _ =>
               destruct m; cbn [mbind result_bind]; [|discriminate]
           end.
    intros [= <- <-].
    do 2 eexists. split; [reflexivity|]. split; [reflexivity|].
    cbv zeta. reflexivity.
  - split; [reflexivity | exact Hh].
Qed.

(** ** In-place updates of the metadata: outcome, repetition, composition *)

Section UpdateFacts.

Import Store.

Lemma two_writes_Ok (h : heap) (v : ref_value) (m : loc) (md : gmap string ref_value)
    (k1 k2 : string) (v1 v2 : ref_value) :
  k1 <> "metadata"%string ->
  metadata_at h v m md ->
  two_writes h v k1 k2 v1 v2
  = Ok (<[m := ODict (<[k2 := v2]> (<[k1 := v1]> md))]> h, v).
Proof.
  intros Hk (p & d & -> & Hp & Hd & Hm). unfold two_writes.
  rewrite (getitem_dict h p d _ _ Hp Hd). cbn [mbind result_bind].
  rewrite (setitem_dict h m md _ _ Hm). cbn [mbind result_bind].
  destruct (decide (p = m)) as [->|Hpm].
  - assert (d = md) as -> by congruence.
    rewrite (getitem_dict _ m (<[k1 := v1]> md) "metadata" (RRef m));
      [|apply lookup_insert_eq|rewrite lookup_insert_ne by congruence; exact Hd].
    cbn [mbind result_bind].
    rewrite (setitem_dict _ m (<[k1 := v1]> md)) by apply lookup_insert_eq.
    cbn [mbind result_bind]. rewrite insert_insert_eq. reflexivity.
  - rewrite (getitem_dict _ p d "metadata" (RRef m));
      [|rewrite lookup_insert_ne by congruence; exact Hp|exact Hd].
    cbn [mbind result_bind].
    rewrite (setitem_dict _ m (<[k1 := v1]> md)) by apply lookup_insert_eq.
    cbn [mbind result_bind]. rewrite insert_insert_eq. reflexivity.
Qed.

Lemma two_writes_inv (h h' : heap) (v v' : ref_value) (k1 k2 : string) (v1 v2 : ref_value) :
  two_writes h v k1 k2 v1 v2 = Ok (h', v') ->
  exists m md, metadata_at h v m md.
Proof.
  unfold two_writes.
  destruct (getitem h v "metadata") as [mv|] eqn:G; cbn [mbind result_bind]; [|discriminate].
  destruct (setitem h mv k1 v1) as [h1|] eqn:S; cbn [mbind result_bind]; [|discriminate].
  intros _.
  unfold getitem in G. destruct v as [| | | | |p]; try discriminate.
  destruct (h !! p) as [[d|]|] eqn:Hp; try discriminate.
  destruct (d !! "metadata") as [mv'|] eqn:Hd; [|discriminate].
  injection G as ->.
  unfold setitem in S. destruct mv as [| | | | |m]; try discriminate.
  destruct (h !! m) as [[md|]|] eqn:Hm; try discriminate.
  exists m, md, p, d. auto.
Qed.

Lemma two_writes_raises (h : heap) (v : ref_value) (k1 k2 : string) (v1 v2 : ref_value)
    (e : exn) :
  two_writes h v k1 k2 v1 v2 = Raise e -> e = KeyError \/ e = TypeError.
Proof.
  assert (G : forall h v k e, getitem h v k = Raise e -> e = KeyError \/ e = TypeError).
  { intros h0 v0 k e0. unfold getitem. destruct v0 as [| | | | |l].
    1-5: intros [= <-]; auto.
    destruct (h0 !! l) as [[d|]|].
    2-3: intros [= <-]; auto.
    destruct (d !! k); [discriminate | intros [= <-]; auto]. }
  assert (S : forall h v k x e, setitem h v k x = Raise e -> e = KeyError \/ e = TypeError).
  { intros h0 v0 k x e0. unfold setitem. destruct v0 as [| | | | |l].
    1-5: intros [= <-]; auto.
    destruct (h0 !! l) as [[d|]|].
    2-3: intros [= <-]; auto.
    discriminate. }
  unfold two_writes.
  destruct (getitem h v "metadata") as [mv|e1] eqn:G1; cbn [mbind result_bind];
    [|intros [= <-]; eauto].
  destruct (setitem h mv k1 v1) as [h1|e1] eqn:S1; cbn [mbind result_bind];
    [|intros [= <-]; eauto].
  destruct (getitem h1 v "metadata") as [mv2|e1] eqn:G2; cbn [mbind result_bind];
    [|intros [= <-]; eauto].
  destruct (setitem h1 mv2 k2 v2) as [h2|e1] eqn:S2; cbn [mbind result_bind];
    [|intros [= <-]; eauto].
  discriminate.
Qed.

(** After the two writes the argument still refers to a dictionary with the
    metadata at [m]. *)
Lemma metadata_at_after (h : heap) (v : ref_value) (m : loc)
    (md md' : gmap string ref_value) :
  metadata_at h v m md ->
  md' !! "metadata" = md !! "metadata" ->
  metadata_at (<[m := ODict md']> h) v m md'.
Proof.
  intros (p & d & -> & Hp & Hd & Hm) Hk.
  destruct (decide (p = m)) as [->|Hpm].
  - assert (d = md) as -> by congruence.
    exists m, md'. rewrite lookup_insert_eq. repeat split; congruence.
  - exists p, d. rewrite lookup_insert_ne by congruence. rewrite lookup_insert_eq. auto.
Qed.

End UpdateFacts.

(** X24. [optimize_seams] returns exactly when its argument is a dictionary
    whose ['metadata'] is a dictionary; otherwise it raises [KeyError] or
    [TypeError].  It returns its argument.  A second call changes
    nothing, and [add_seam_allowance] after it keeps [seam_optimized],
    records the allowance and replaces the note: of the two notes only the
    one of the last call is kept.  All else in the store is as before the two
    calls. *)
Theorem seam_updates_outcome (h : Store.heap) (pattern fabric allowance : Store.ref_value) :
  (is_ok (Store.optimize_seams h pattern fabric) = true
   <-> exists m md, metadata_at h pattern m md) /\
  (forall e, Store.optimize_seams h pattern fabric = Raise e ->
     e = KeyError \/ e = TypeError) /\
  (forall h' v, Store.optimize_seams h pattern fabric = Ok (h', v) ->
     v = pattern /\
     Store.optimize_seams h' pattern fabric = Ok (h', pattern) /\
     exists (m : Store.loc) (md md'' : gmap string Store.ref_value) (h'' : Store.heap),
       metadata_at h pattern m md /\
       Store.add_seam_allowance h' pattern allowance = Ok (h'', pattern) /\
       h'' !! m = Some (Store.ODict md'') /\
       md'' !! "seam_optimized" = Some (Store.RBool true) /\
       md'' !! "seam_allowance" = Some allowance /\
       md'' !! "note" = Some (Store.RStr "DEMO - No real seam allowance added") /\
       (forall k : string,
          k <> "seam_optimized"%string -> k <> "seam_allowance"%string ->
          k <> "note"%string -> md'' !! k = md !! k) /\
       (forall l : Store.loc, l <> m -> h'' !! l = h !! l)).
Proof.
  change (Store.optimize_seams h pattern fabric)
    with (two_writes h pattern "seam_optimized" "note" (Store.RBool true)
            (Store.RStr "DEMO - No real optimization performed")).
  split; [|split].
  - split.
    + destruct (two_writes _ _ _ _ _ _) as [[h' v]|] eqn:E; [|discriminate].
      intros _. exact (two_writes_inv _ _ _ _ _ _ _ _ E).
    + intros (m & md & Hm). rewrite (two_writes_Ok h pattern m md) by (discriminate || exact Hm).
      reflexivity.
  - apply two_writes_raises.
  - intros h' v E.
    destruct (two_writes_inv _ _ _ _ _ _ _ _ E) as (m & md & Hm).
    rewrite (two_writes_Ok h pattern m md) in E by (discriminate || exact Hm).
    injection E as <- <-. split; [reflexivity|].
    set (md1 := <["note" := Store.RStr "DEMO - No real optimization performed"]>
                  (<["seam_optimized" := Store.RBool true]> md)).
    assert (Hm1 : metadata_at (<[m := Store.ODict md1]> h) pattern m md1).
    { apply (metadata_at_after h pattern m md md1 Hm).
      unfold md1. rewrite !lookup_insert_ne by discriminate. reflexivity. }
    split.
    + change (Store.optimize_seams (<[m := Store.ODict md1]> h) pattern fabric)
        with (two_writes (<[m := Store.ODict md1]> h) pattern "seam_optimized" "note"
                (Store.RBool true) (Store.RStr "DEMO - No real optimization performed")).
      rewrite (two_writes_Ok _ pattern m md1) by (discriminate || exact Hm1).
      rewrite insert_insert_eq. do 4 f_equal.
      apply map_eq. intros k. unfold md1.
      destruct (decide (k = "note"%string)) as [->|Hn].
      { rewrite !lookup_insert_eq. reflexivity. }
      rewrite (lookup_insert_ne _ "note"%string k) by congruence.
      destruct (decide (k = "seam_optimized"%string)) as [->|Hs].
      { rewrite lookup_insert_eq. rewrite lookup_insert_ne by discriminate.
        rewrite lookup_insert_eq. reflexivity. }
      rewrite (lookup_insert_ne _ "seam_optimized"%string k) by congruence.
      reflexivity.
    + exists m, md. do 2 eexists. split; [exact Hm|].
      change (Store.add_seam_allowance (<[m := Store.ODict md1]> h) pattern allowance)
        with (two_writes (<[m := Store.ODict md1]> h) pattern "seam_allowance" "note"
                allowance (Store.RStr "DEMO - No real seam allowance added")).
      rewrite (two_writes_Ok _ pattern m md1) by (discriminate || exact Hm1).
      split; [reflexivity|].
      rewrite insert_insert_eq.
      split; [apply lookup_insert_eq|].
      split.
      { rewrite !lookup_insert_ne by discriminate. unfold md1.
        rewrite lookup_insert_ne by discriminate. apply lookup_insert_eq. }
      split.
      { rewrite lookup_insert_ne by discriminate. apply lookup_insert_eq. }
      split; [apply lookup_insert_eq|].
      split.
      { intros k H1 H2 H3. unfold md1. rewrite !lookup_insert_ne by congruence. reflexivity. }
      intros l Hl. apply lookup_insert_ne. congruence.
Qed.

(** ** Measurement.convert_to and the field constraints *)

Section ConversionFacts.

Lemma conversion_factor (u t : MeasurementUnit.t) :
  exists factor : Q,
    float_div (Measurement.to_cm u) (Measurement.to_cm t) = Ok factor /\ 0 < factor.
Proof.
  destruct u, t; (eexists; split; [reflexivity|]); unfold Qlt; cbn; lia.
Qed.

Lemma scaled_positive (factor : Q) (value : option Q) :
  0 < factor ->
  match value with Some v => 0 < v | None => True end ->
  match Measurement.scaled factor value with Some v => 0 < v | None => True end.
Proof.
  intros Hf. destruct value as [v|]; cbn; [|auto].
  intros Hv. apply Qmult_lt_0_compat; assumption.
Qed.

Lemma sizeable_positive (v : Q) : sizeable v -> 0 < v.
Proof.
  intros [H _]. apply Qlt_le_trans with (y := tiny); [|exact H].
  unfold tiny, bound. apply Qinv_lt_0_compat. unfold Qlt. cbn. lia.
Qed.

Lemma all_sizeable_positive (m : Measurement.t) : all_sizeable m -> all_positive m.
Proof.
  unfold all_sizeable, all_positive. apply List.Forall_impl.
  intros f. destruct (f.2 m); [apply sizeable_positive | auto].
Qed.

End ConversionFacts.

(** X25. [convert_to] keeps a measurement within the constraints of its
    fields: if every numeric field that is set lies between [2^-400] and
    [2^400] (above zero, and neither so small nor so large that a multiple
    by the factor between two units is rounded to zero or beyond the
    floats), the call returns (no division by zero, whatever the two units)
    a measurement in the target unit with the same fields set, each still
    above zero, and the same custom keys.  Converting the result to the
    target unit once more returns it as it is. *)
Theorem convert_to_keeps_constraints (m : Measurement.t) (t : MeasurementUnit.t) :
  all_sizeable m ->
  exists m' : Measurement.t,
    Measurement.convert_to m t = Ok m' /\
    Measurement.unit m' = t /\
    all_positive m' /\
    Forall (fun f : string * (Measurement.t -> option Q) =>
              is_Some (f.2 m') <-> is_Some (f.2 m))
           Measurement.numeric_fields /\
    dom (Measurement.custom m') = dom (Measurement.custom m) /\
    Measurement.convert_to m' t = Ok m'.
Proof.
  intros Hpos. apply all_sizeable_positive in Hpos.
  unfold Measurement.convert_to at 1.
  destruct (decide (Measurement.unit m = t)) as [Hu|Hu].
  - exists m. split; [reflexivity|]. split; [exact Hu|]. split; [exact Hpos|].
    split; [apply Forall_forall; intros; reflexivity|]. split; [reflexivity|].
    unfold Measurement.convert_to.
    destruct (decide (Measurement.unit m = t)); [reflexivity | contradiction].
  - destruct (conversion_factor (Measurement.unit m) t) as (factor & -> & Hf).
    cbn [mbind result_bind]. eexists. split; [reflexivity|].
    split; [reflexivity|]. split; [|split; [|split]].
    + unfold all_positive in *. unfold Measurement.numeric_fields in *.
      repeat match goal with
             | H : Forall _ (_ :: _) |- _ => apply Forall_cons in H as [? H]
             end.
      repeat (apply Forall_cons; split;
              [cbn; apply scaled_positive; assumption|]).
      apply Forall_nil. exact I.
    + unfold Measurement.numeric_fields.
      repeat (apply Forall_cons; split;
              [cbn; match goal with
                    | |- is_Some (Measurement.scaled _ ?o) <-> _ =>
                        destruct o; cbn;
                        [split; intros _; eexists; reflexivity | reflexivity]
                    end|]).
      apply Forall_nil. exact I.
    + cbn. apply dom_fmap_L.
    + unfold Measurement.convert_to. cbn [Measurement.unit].
      destruct (decide (t = t)); [reflexivity | contradiction].
Qed.

(** ** Texture *)

(** X26. The constructor of [Texture], on wrap modes that are strings and
    sizes that are [None] or integers, returns exactly when both modes are
    among ['repeat'], ['clamp'], ['mirror'] and each size given is above
    zero; otherwise it raises [ValueError].  [from_dict] needs only
    ['file_path'] ([KeyError] without it) and fills in no sizes and the mode
    ['repeat'], and [from_dict(t.to_dict())] is what the constructor makes
    of the fields of [t]: [t] itself when [t] passes the check. *)
Theorem texture_spec (path format metadata : value) (width height : option Z)
    (wrap_u wrap_v : string) :
  let valid (mode : string) :=
    mode = "repeat"%string \/ mode = "clamp"%string \/ mode = "mirror"%string in
  let positive (size : option Z) :=
    match size with Some n => (0 < n)%Z | None => True end in
  let made :=
    Texture.new path (optional_int width) (optional_int height) format
      (VStr wrap_u) (VStr wrap_v) metadata in
  (valid wrap_u /\ valid wrap_v /\ positive width /\ positive height ->
   made = Ok (Texture.mk path (optional_int width) (optional_int height) format
                (VStr wrap_u) (VStr wrap_v) metadata)) /\
  (~ (valid wrap_u /\ valid wrap_v /\ positive width /\ positive height) ->
   made = Raise ValueError) /\
  (forall d : gmap string value,
     d !! "file_path" = None -> Texture.from_dict (VDict d) = Raise KeyError) /\
  Texture.from_dict (VDict {[ "file_path" := path ]})
  = Ok (Texture.mk path VNone VNone VNone (VStr "repeat") (VStr "repeat") (VDict ∅)) /\
  (forall t : Texture.t,
     Texture.from_dict (Texture.to_dict t)
     = Texture.new (Texture.file_path t) (Texture.width t) (Texture.height t)
         (Texture.format t) (Texture.wrap_u t) (Texture.wrap_v t) (Texture.metadata t)) /\
  (forall t : Texture.t,
     Texture.post_init t = Ok tt -> Texture.from_dict (Texture.to_dict t) = Ok t).
Proof.
  intros valid positive made.
  assert (Hmode : forall mode,
            Texture.not_in_modes (VStr mode) = Ok false <-> valid mode).
  { intros mode. unfold valid. cbn [Texture.not_in_modes Texture.valid_wrap_modes existsb].
    destruct (String.eqb_spec mode "repeat") as [->|H1]; [cbn; split; auto|].
    destruct (String.eqb_spec mode "clamp") as [->|H2]; [cbn; split; auto|].
    destruct (String.eqb_spec mode "mirror") as [->|H3]; [cbn; split; auto|].
    cbn. split; [discriminate | intros [?|[?|?]]; contradiction]. }
  assert (Hmode' : forall mode,
            Texture.not_in_modes (VStr mode) = Ok false
            \/ Texture.not_in_modes (VStr mode) = Ok true).
  { intros mode. cbn [Texture.not_in_modes].
    destruct (negb _); auto. }
  assert (Hsize : forall size,
            Texture.not_positive (optional_int size) = Ok false <-> positive size).
  { intros [n|]; unfold positive; cbn.
    - destruct (Z.leb_spec n 0); split; intros; try discriminate; try lia; reflexivity.
    - split; auto. }
  assert (Hsize' : forall size,
            Texture.not_positive (optional_int size) = Ok false
            \/ Texture.not_positive (optional_int size) = Ok true).
  { intros [n|]; cbn; [destruct (n <=? 0)%Z|]; auto. }
  assert (Hround : forall t : Texture.t,
            Texture.from_dict (Texture.to_dict t)
            = Texture.new (Texture.file_path t) (Texture.width t) (Texture.height t)
                (Texture.format t) (Texture.wrap_u t) (Texture.wrap_v t)
                (Texture.metadata t)).
  { intros t. unfold Texture.from_dict, Texture.to_dict, py_getitem, py_get, dict_get.
    lookup_dict. reflexivity. }
  split; [|split; [|split; [|split; [|split]]]].
  - intros (Hu & Hv & Hw & Hh). subst made.
    unfold Texture.new, Texture.post_init, Texture.refuse_if.
    cbn [Texture.wrap_u Texture.wrap_v Texture.width Texture.height].
    apply Hmode in Hu, Hv. apply Hsize in Hw, Hh. rewrite Hu, Hv, Hw, Hh. reflexivity.
  - intros Hn. subst made.
    unfold Texture.new, Texture.post_init, Texture.refuse_if.
    cbn [Texture.wrap_u Texture.wrap_v Texture.width Texture.height].
    destruct (Hmode' wrap_u) as [Hu| ->]; [|reflexivity].
    destruct (Hmode' wrap_v) as [Hv| ->]; [|rewrite Hu; reflexivity].
    destruct (Hsize' width) as [Hw| ->]; [|rewrite Hu, Hv; reflexivity].
    destruct (Hsize' height) as [Hh| ->]; [|rewrite Hu, Hv, Hw; reflexivity].
    exfalso. apply Hn. rewrite <- !Hmode, <- !Hsize. auto.
  - intros d Hd. unfold Texture.from_dict, py_getitem. rewrite Hd. reflexivity.
  - unfold Texture.from_dict, py_getitem, py_get, dict_get.
    rewrite lookup_singleton_eq. rewrite !lookup_singleton_ne by discriminate.
    reflexivity.
  - exact Hround.
  - intros t Ht. rewrite Hround. unfold Texture.new. destruct t. cbn in *. rewrite Ht.
    reflexivity.
Qed.

(** ** pattern.py: seams and whole patterns through [to_dict] and [from_dict] *)

Section PatternDictFacts.

Import Untyped.

Lemma piece_round_trip (p : PatternPiece.t) :
  loadable_piece p -> PatternPiece.from_dict (PatternPiece.to_dict p) = Ok p.
Proof.
  intros [Ho Hi]. unfold PatternPiece.to_dict.
  rewrite (piece_from_entries p _ Ho Hi).
  - lookup_dict. cbn [from_option id]. rewrite transform_round_trip.
    destruct p. reflexivity.
  - intros k v _ Hk. apply Hk. reflexivity.
Qed.

Lemma pieces_round_trip (l : list PatternPiece.t) :
  Forall loadable_piece l ->
  map_result PatternPiece.from_dict (map PatternPiece.to_dict l) = Ok l.
Proof.
  induction 1 as [|p l Hp Hl IH]; [reflexivity|].
  cbn [map map_result]. rewrite (piece_round_trip p Hp), IH. reflexivity.
Qed.

Lemma seam_type_round_trip (m : SeamType.t) :
  SeamType.call (VStr (SeamType.value_of m)) = Ok m.
Proof. destruct m; reflexivity. Qed.

Lemma seam_round_trip (s : Seam.t) :
  Seam.post_init s = Ok tt -> Seam.from_dict (Seam.to_dict s) = Ok s.
Proof.
  intros Hs. destruct s as [i p1 p2 e1 e2 t a m].
  unfold Seam.from_dict, Seam.to_dict, py_getitem, py_get, dict_get.
  cbn [Seam.id Seam.piece1_id Seam.piece2_id Seam.edge1_indices Seam.edge2_indices
       Seam.type Seam.allowance Seam.metadata].
  lookup_dict. cbn [mbind result_bind from_option id].
  rewrite seam_type_round_trip. cbn [mbind result_bind].
  unfold Seam.new. rewrite Hs. reflexivity.
Qed.

Lemma seams_round_trip (l : list Seam.t) :
  Forall (fun s => Seam.post_init s = Ok tt) l ->
  map_result Seam.from_dict (map Seam.to_dict l) = Ok l.
Proof.
  induction 1 as [|s l Hs Hl IH]; [reflexivity|].
  cbn [map map_result]. rewrite (seam_round_trip s Hs), IH. reflexivity.
Qed.

(** A comprehension over a list with an item on which the call raises,
    raises. *)
Lemma map_result_never {A B : Type} (f : A -> result B) (l : list A) (a : A) :
  In a l -> (exists e, f a = Raise e) -> exists e, map_result f l = Raise e.
Proof.
  intros Hin (e & He). induction l as [|b l IH]; [destruct Hin|].
  cbn [map_result]. destruct Hin as [->|Hin].
  - rewrite He. exists e. reflexivity.
  - destruct (f b) as [y|e']; cbn [mbind result_bind]; [|eexists; reflexivity].
    destruct (IH Hin) as (e' & ->). exists e'. reflexivity.
Qed.

End PatternDictFacts.

(** X28. A whole pattern comes back from its dictionary:
    [Pattern2D.from_dict(p.to_dict())] returns an instance equal to [p],
    pieces and seams included, for every pattern that passes the checks of
    the constructors: a piece at hand, seams between pieces of the pattern
    with as many indices on one edge as on the other and an allowance that
    is not negative, contours of two points or more. *)
Theorem pattern_dict_round_trip (p : Untyped.Pattern2D.t) :
  Untyped.Pattern2D.post_init p = Ok tt ->
  Forall loadable_piece (Untyped.Pattern2D.pieces p) ->
  Forall (fun s => Untyped.Seam.post_init s = Ok tt) (Untyped.Pattern2D.seams p) ->
  Untyped.Pattern2D.from_dict (Untyped.Pattern2D.to_dict p) = Ok p.
Proof.
  intros Hp Hpieces Hseams. destruct p as [i n di ps ss f m v].
  cbn [Untyped.Pattern2D.pieces Untyped.Pattern2D.seams] in *.
  unfold Untyped.Pattern2D.from_dict, Untyped.Pattern2D.to_dict, py_getitem, py_get, dict_get.
  cbn [Untyped.Pattern2D.id Untyped.Pattern2D.name Untyped.Pattern2D.design_id
       Untyped.Pattern2D.pieces Untyped.Pattern2D.seams Untyped.Pattern2D.format
       Untyped.Pattern2D.metadata Untyped.Pattern2D.version].
  lookup_dict. cbn [mbind result_bind from_option id py_iter].
  rewrite (pieces_round_trip ps Hpieces). cbn [mbind result_bind].
  rewrite (seams_round_trip ss Hseams). cbn [mbind result_bind].
  unfold Untyped.Pattern2D.new. rewrite Hp. reflexivity.
Qed.

(** X29. One piece without ['transform'] keeps a whole pattern from being
    loaded: [Pattern2D.from_dict] raises on every dictionary whose ['pieces']
    is a list holding a dictionary without that key. *)
Theorem pattern_from_dict_needs_transforms (d pd : gmap string value) (items : list value) :
  d !! "pieces" = Some (VList items) ->
  In (VDict pd) items ->
  pd !! "transform" = None ->
  exists e, Untyped.Pattern2D.from_dict (VDict d) = Raise e.
Proof.
  intros Hd Hin Hpd. unfold Untyped.Pattern2D.from_dict.
  do 3 (apply bind_never; intros ?).
  unfold py_getitem at 1. rewrite Hd. cbn [mbind result_bind py_iter].
  destruct (map_result_never Untyped.PatternPiece.from_dict items (VDict pd) Hin
              (piece_without_transform pd Hpd)) as (e & ->).
  exists e. reflexivity.
Qed.

(** * Examples: the docstrings' and a few more, run on the embedding *)

Section Examples.

Example area_docstring :
  BoundingBox2D.area (BoundingBox2D.mk (mkPoint2D 0 0) (mkPoint2D 10 5)) == 50.
Proof. reflexivity. Qed.

Example intersects_docstring : BoundingBox2D.intersects box_a box_b = true.
Proof. reflexivity. Qed.

Example intersection_docstring :
  BoundingBox2D.min_point <$> BoundingBox2D.intersection box_a box_b
  = Some (mkPoint2D 5 5).
Proof. reflexivity. Qed.

Example iou_docstring :
  exists r, BoundingBox2D.iou box_a box_b = Ok r /\ r == 1 # 7.
Proof. eexists. split; reflexivity. Qed.

Example from_hex_rrggbb :
  exists c, Color.from_hex "#FF0000" = Ok c /\
            Color.r c == 1 /\ Color.g c == 0 /\ Color.b c == 0 /\ Color.a c == 1.
Proof. eexists. split; [vm_compute; reflexivity|]. repeat split. Qed.

Example from_hex_rrggbbaa :
  exists c, Color.from_hex "#FF0000FF" = Ok c /\
            Color.r c == 1 /\ Color.g c == 0 /\ Color.b c == 0 /\ Color.a c == 1.
Proof. eexists. split; [vm_compute; reflexivity|]. repeat split. Qed.

Example from_hex_rgb :
  exists c, Color.from_hex "#F00" = Ok c /\
            Color.r c == 1 /\ Color.g c == 0 /\ Color.b c == 0 /\ Color.a c == 1.
Proof. eexists. split; [vm_compute; reflexivity|]. repeat split. Qed.

(** The rectangle of the demo pattern, 50 by 70: its first point is the
    origin, so [get_area] is right about it. *)
Example get_area_demo_rectangle :
  PatternPiece.get_area
    (PatternPiece.mk "front_panel" "front"
       [mkPoint2D 0 0; mkPoint2D 50 0; mkPoint2D 50 70; mkPoint2D 0 70] false 1)
  == 3500.
Proof. reflexivity. Qed.

(** 10 inches are 25.4 centimetres. *)
Example convert_inches :
  exists m,
    Measurement.convert_to
      (Measurement.mk (Some 10) None None None None None None None None None None None
         None None None None MeasurementUnit.INCHES None None ∅)
      MeasurementUnit.CENTIMETERS = Ok m /\
    exists chest, Measurement.chest m = Some chest /\ chest == 254 # 10.
Proof. eexists. split; [reflexivity|]. eexists. split; reflexivity. Qed.

(** A request in the shape the endpoint expects gets its envelope. *)
Example optimize_layout_returns :
  is_ok (call sample_apis
              (OptimizeLayout {[ "pattern" := VDict sample_pattern;
                                 "fabric" := VDict {[ "width" := VInt 150 ]} ]})
              sample_world) = true.
Proof. reflexivity. Qed.

(** The first piece of the demo pattern keeps its id, the second, which has
    none, is named after its index. *)
Example place_two_pieces :
  exists e0 e1 : gmap string value,
    FakeLayoutOptimizer.place_from 0 (VDict <$> two_pieces) = Ok [VDict e0; VDict e1] /\
    e0 !! "piece_id" = Some (VStr "front_panel") /\
    e1 !! "piece_id" = Some (VStr "piece_1").
Proof. do 2 eexists. split; [reflexivity|]. split; reflexivity. Qed.

End Examples.

Section MoreExamples.

Example center_docstring :
  exists c,
    BoundingBox2D.center (BoundingBox2D.mk (mkPoint2D 0 0) (mkPoint2D 10 20)) = Ok c /\
    x c == 5 /\ y c == 10.
Proof. eexists. split; [reflexivity|]. split; reflexivity. Qed.

Example to_hex_docstring :
  Color.to_hex (Color.mk 1.0 0.0 0.0 1.0) true = "#FF0000FF"%string /\
  Color.to_hex (Color.mk 1.0 0.0 0.0 1.0) false = "#FF0000"%string.
Proof. split; reflexivity. Qed.

Example from_rgb_docstring :
  exists c, Color.from_rgb 255 0 0 255 = Ok c /\
            Color.r c == 1 /\ Color.g c == 0 /\ Color.b c == 0 /\ Color.a c == 1.
Proof. eexists. split; [reflexivity|]. repeat split. Qed.

Example color_to_dict_docstring :
  Color.to_dict (Color.mk 1.0 0.5 0.0 1.0)
  = VDict {[ "r" := VFloat 1.0; "g" := VFloat 0.5; "b" := VFloat 0.0; "a" := VFloat 1.0 ]}.
Proof. reflexivity. Qed.

Example color_from_dict_docstring :
  Color.from_dict (VDict {[ "r" := VFloat 1.0; "g" := VFloat 0.0; "b" := VFloat 0.0;
                            "a" := VFloat 1.0 ]})
  = Ok (Color.mk 1.0 0.0 0.0 1.0).
Proof. reflexivity. Qed.

Example point_to_dict_docstring :
  Untyped.Point2D.to_dict (Untyped.Point2D.mk (VFloat 1.0) (VFloat 2.0))
  = VDict {[ "x" := VFloat 1.0; "y" := VFloat 2.0 ]}.
Proof. reflexivity. Qed.

(** The bounding box of the closed square is the square. *)
Example closed_square_bounding_box :
  PatternPiece.get_bounding_box closed_square = Ok (mkPoint2D 1 1, mkPoint2D 3 3).
Proof. reflexivity. Qed.

(** A texture of width 0 is refused. *)
Example texture_of_width_zero :
  Texture.new (VStr "fabric.png") (VInt 0) VNone VNone (VStr "repeat") (VStr "repeat")
    (VDict ∅) = Raise ValueError.
Proof. reflexivity. Qed.

(** Constraints without a length: the call raises, the history has grown. *)
Example constraints_without_length :
  exists self,
    FakeLayoutOptimizer.optimize_with_constraints FakeLayoutOptimizer.init
      (VDict ∅) (VDict ∅) VNone sample_world = (self, Raise TypeError) /\
    length (FakeLayoutOptimizer.optimization_history self) = 1%nat.
Proof. eexists. split; reflexivity. Qed.

(** A pattern of two pieces with a seam between them is accepted, its
    bounding box spans both pieces, and a seam to a piece that is not there
    is refused. *)
Example pattern2d_accepted :
  exists p,
    pattern_py.Pattern2D.new "p1" "Shirt" None [triangle_piece; segment_piece] [side_seam]
    = Ok p /\
    pattern_py.Pattern2D.get_bounding_box p
    = Ok (BoundingBox2D.mk (mkPoint2D 0 (-2)) (mkPoint2D 30 9)) /\
    pattern_py.Pattern2D.get_piece_by_id p "back" = Some segment_piece.
Proof. eexists. split; [vm_compute; reflexivity|]. split; reflexivity. Qed.

Example pattern2d_unknown_piece :
  pattern_py.Pattern2D.new "p1" "Shirt" None [triangle_piece] [side_seam]
  = Raise ValueError.
Proof. vm_compute. reflexivity. Qed.

(** Two patterns and three fabrics: two results, two entries in the history. *)
Example multi_fabric_two_of_three :
  exists self results,
    FakeLayoutOptimizer.optimize_multi_fabric FakeLayoutOptimizer.init
      [VDict ∅; VDict ∅] [VDict ∅; VDict ∅; VDict ∅] VNone (fun _ => sample_world)
    = (self, Ok results) /\
    length results = 2%nat /\
    FakeLayoutOptimizer.optimization_history self = results.
Proof. do 2 eexists. split; [reflexivity|]. split; reflexivity. Qed.

(** A session of four calls, one of them an optimization that raises:
    [count] is 1. *)
Example session_count :
  exists response data,
    MockLayoutAPI.get_optimization_history
      (layout_api
         (session sample_apis
            [ (GeneratePattern ∅, sample_world);
              (OptimizeLayout {[ "fabric" := VDict {[ "width" := VInt 0 ]} ]}, sample_world);
              (OptimizeLayout ∅, sample_world);
              (GetOptimizationHistory, sample_world) ]).1)
    = VDict response /\
    response !! "data" = Some (VDict data) /\
    data !! "count" = Some (VInt 1).
Proof. do 2 eexists. split; [reflexivity|]. split; reflexivity. Qed.

(** [optimize_seams] on the tree-shaped store, then on a pattern without
    metadata. *)
Example optimize_seams_twice :
  exists h',
    Store.optimize_seams tree_store (Store.RRef 1) Store.RNone = Ok (h', Store.RRef 1) /\
    Store.optimize_seams h' (Store.RRef 1) Store.RNone = Ok (h', Store.RRef 1).
Proof. eexists. split; [reflexivity|]. vm_compute. reflexivity. Qed.

Example optimize_seams_without_metadata :
  Store.optimize_seams {[ 1%positive := Store.ODict ∅ ]} (Store.RRef 1) Store.RNone
  = Raise KeyError.
Proof. reflexivity. Qed.

(** The sample pattern, saved and then stripped of the transform of its
    piece, is refused with [KeyError]. *)
Example pattern_without_transform :
  Untyped.Pattern2D.from_dict
    (VDict {[ "id" := VStr "pattern_1"; "name" := VStr "Pocket";
              "pieces" := VList [VDict sample_piece_without_transform] ]})
  = Raise KeyError.
Proof. vm_compute. reflexivity. Qed.

(** The closed square, twice: the total area is 2 * 4. *)
Example total_area_of_two_squares :
  exists total : Q,
    Pattern.get_total_area
      (Pattern.mk "p" "squares"
         [PatternPiece.mk "square" "Square" (square_corners ++ [mkPoint2D 1 1]) false 2])
    = Ok total /\
    total == 8.
Proof. eexists. split; [vm_compute; reflexivity | reflexivity]. Qed.

(** A quantity of [10 ** 400] is too large for a float. *)
Example total_area_of_too_many_squares :
  Pattern.get_total_area
    (Pattern.mk "p" "squares"
       [PatternPiece.mk "square" "Square" (square_corners ++ [mkPoint2D 1 1]) false
          (10 ^ 400)])
  = Raise OverflowError.
Proof. vm_compute. reflexivity. Qed.

(** [Color.from_rgb(2 ** 1024, 0, 0)] fails at the first division, and
    [Color.from_rgb(256, 0, 0)] in the constructor. *)
Example from_rgb_of_a_huge_integer :
  Color.from_rgb (2 ^ 1024) 0 0 255 = Raise OverflowError /\
  Color.from_rgb 256 0 0 255 = Raise ValueError.
Proof. split; vm_compute; reflexivity. Qed.

End MoreExamples.

(** ** Beyond the range of the rationals' counterpart: binary64 *)

Section Binary64Examples.

Import PrimFloat.

(** The square of side [2^-600] has its corners in order and a side above
    zero, yet its area is rounded to zero: its IoU with itself is [0.0]. *)
Example iou_of_minute_box :
  Binary64.BoundingBox2D.ordered Binary64.minute_box = true /\
  (0 <? Binary64.BoundingBox2D.width Binary64.minute_box)%float = true /\
  Binary64.BoundingBox2D.area Binary64.minute_box = 0%float /\
  Binary64.BoundingBox2D.iou Binary64.minute_box Binary64.minute_box = Ok 0%float.
Proof. repeat split. Qed.

(** The sum of two abscissas [2^1023] is an infinity: the center of that box
    is not in the box, although its corners are in order. *)
Example center_of_far_box :
  Binary64.BoundingBox2D.ordered Binary64.far_box = true /\
  exists c : Binary64.Point2D,
    Binary64.BoundingBox2D.center Binary64.far_box = Ok c /\
    Binary64.x c = infinity /\
    Binary64.BoundingBox2D.inside Binary64.far_box c = false.
Proof. split; [reflexivity|]. eexists. repeat split. Qed.

(** Where no result leaves the range, the floats give what the rationals
    give: the boxes [(0,0)-(10,10)] and [(5,5)-(15,15)] of the docstring
    have the IoU [25 / 175]. *)
Example iou_docstring_binary64 :
  Binary64.BoundingBox2D.iou
    (Binary64.BoundingBox2D.mk (Binary64.mkPoint2D 0 0) (Binary64.mkPoint2D 10 10))
    (Binary64.BoundingBox2D.mk (Binary64.mkPoint2D 5 5) (Binary64.mkPoint2D 15 15))
  = Ok (25 / 175)%float.
Proof. reflexivity. Qed.

End Binary64Examples.

(** * Witnesses: the theorems with hypotheses, at sample inputs *)



Lemma layout_result_waste_invariant_witness :
  exists r : LayoutResult.t unit unit unit unit,
    LayoutResult.model_validate sample_kwargs = Ok r /\
    LayoutResult.waste_percentage sample_kwargs = 10 /\
    LayoutResult.waste_percentage r = (1 - LayoutResult.utilization_rate r) * 100.
Proof.
  eexists. split; [reflexivity|]. split; [reflexivity|].
  exact (proj2 (layout_result_waste_invariant sample_kwargs _ eq_refl)).
Defined.

Lemma optimize_spec_witness :
  exists (self' : FakeLayoutOptimizer.t) (result : gmap string value)
         (layout : list value) (fabric_length utilization waste : Q),
    FakeLayoutOptimizer.optimize FakeLayoutOptimizer.init
      (VDict sample_pattern) (VDict ∅) VNone sample_world
      = Ok (self', VDict result) /\
    result !! "layout" = Some (VList layout) /\
    length layout = length two_pieces /\
    (forall (i : nat) (d : gmap string value),
       two_pieces !! i = Some d ->
       exists entry pos : gmap string value,
         layout !! i = Some (VDict entry) /\
         entry !! "position" = Some (VDict pos) /\
         pos !! "x" = Some (VInt (60 * Z.of_nat i)) /\
         pos !! "y" = Some (VInt 0) /\
         entry !! "rotation" = Some (VInt 0)) /\
    result !! "fabric_length" = Some (VFloat fabric_length) /\
    fabric_length == (inject_Z (Z.of_nat (length two_pieces)) * 60 / 150) * 100 + 50 /\
    result !! "utilization" = Some (VFloat utilization) /\
    0.65 <= utilization /\ utilization <= 0.75 /\
    result !! "waste_percentage" = Some (VFloat waste) /\
    25 <= waste /\ waste <= 35.
Proof.
  apply (optimize_spec FakeLayoutOptimizer.init sample_pattern ∅ VNone sample_world
           two_pieces 150).
  - reflexivity.
  - reflexivity.
  - vm_compute. discriminate.
  - split; vm_compute; [discriminate | reflexivity].
  - split; vm_compute; [discriminate | reflexivity].
Defined.

Lemma metadata_updates_frame_witness :
  (exists h', Store.optimize_seams tree_store (Store.RRef 1) Store.RNone
                = Ok (h', Store.RRef 1) /\
              Store.wrote_metadata_only tree_store h' 1 2 ["seam_optimized"; "note"]) /\
  (exists h', Store.add_seam_allowance tree_store (Store.RRef 1) (Store.RFloat 1.5)
                = Ok (h', Store.RRef 1) /\
              Store.wrote_metadata_only tree_store h' 1 2 ["seam_allowance"; "note"]) /\
  (exists h', Store.simulate_collision tree_store (Store.RRef 1) Store.RNone Store.RNone
                = Ok (h', Store.RRef 1) /\
              Store.wrote_metadata_only tree_store h' 1 2 ["collision_resolved"; "note"]).
Proof.
  apply (metadata_updates_frame tree_store 1 2
           {[ "metadata" := Store.RRef 2; "pieces" := Store.RRef 3 ]}
           {[ "version" := Store.RStr "1.0.0-demo" ]}).
  - reflexivity.
  - reflexivity.
  - reflexivity.
  - discriminate.
Defined.



Lemma to_hex_after_from_hex_witness :
  exists c : Color.t,
    Color.from_hex "#f80" = Ok c /\
    Color.to_hex c true = "#FF8800FF"%string /\
    Color.to_hex c false = "#FF8800"%string.
Proof.
  exact (to_hex_after_from_hex "#f80" eq_refl (or_introl eq_refl)).
Defined.

Lemma from_hex_after_to_hex_witness :
  Color.post_init (Color.mk 1.0 0.5 0.0 1.0) = Ok tt /\
  binary_channels (Color.mk 1.0 0.5 0.0 1.0) /\
  exists c' : Color.t,
    String.length (Color.to_hex (Color.mk 1.0 0.5 0.0 1.0) true) = 9%nat /\
    Color.from_hex (Color.to_hex (Color.mk 1.0 0.5 0.0 1.0) true) = Ok c' /\
    Color.r c' == inject_Z (int_of_float (1.0 * 255)) / 255 /\
    Color.g c' == inject_Z (int_of_float (0.5 * 255)) / 255 /\
    Color.b c' == inject_Z (int_of_float (0.0 * 255)) / 255 /\
    Color.a c' == inject_Z (int_of_float (1.0 * 255)) / 255 /\
    Color.to_hex c' true = Color.to_hex (Color.mk 1.0 0.5 0.0 1.0) true.
Proof.
  assert (H : binary_channels (Color.mk 1.0 0.5 0.0 1.0)).
  { repeat split; [exists (2 ^ 20)%Z | exists (2 ^ 19)%Z | exists 0%Z | exists (2 ^ 20)%Z];
      vm_compute; reflexivity. }
  split; [reflexivity|]. split; [exact H|].
  exact (from_hex_after_to_hex (Color.mk 1.0 0.5 0.0 1.0) eq_refl H).
Defined.


Lemma piece_dict_round_trip_witness :
  Untyped.PatternPiece.from_dict (Untyped.PatternPiece.to_dict sample_piece)
  = Ok sample_piece.
Proof.
  eapply (piece_dict_round_trip sample_piece).
  - reflexivity.
  - repeat constructor.
  - reflexivity.
  - reflexivity.
Defined.

Lemma piece_from_dict_needs_transform_witness :
  sample_piece_without_transform !! "transform" = None /\
  Untyped.PatternPiece.from_dict (VDict sample_piece_without_transform) = Raise KeyError.
Proof.
  assert (H : sample_piece_without_transform !! "transform" = None).
  { vm_compute. reflexivity. }
  split; [exact H|].
  destruct (piece_from_dict_needs_transform sample_piece_without_transform H)
    as (_ & _ & Hk).
  eapply (Hk sample_piece).
  - reflexivity.
  - repeat constructor.
  - reflexivity.
  - reflexivity.
Defined.

Lemma demo_workflow_witness :
  number (dict_get sample_fabric "width" (VInt 150)) = Some 150.0 /\
  ~ 150.0 == 0 /\
  exists (s1 s2 : apis) (response1 data1 response2 result : gmap string value)
         (pattern : value) (fabric_length : Q),
    call sample_apis (GeneratePattern ∅) sample_world = Ok (s1, VDict response1) /\
    success_envelope (VDict response1) /\
    response1 !! "data" = Some (VDict data1) /\
    data1 !! "pattern" = Some pattern /\
    call s1 (OptimizeLayout {[ "pattern" := pattern; "fabric" := VDict sample_fabric;
                               "params" := VNone ]}) sample_world
    = Ok (s2, VDict response2) /\
    success_envelope (VDict response2) /\
    response2 !! "data" = Some (VDict result) /\
    result !! "layout"
    = Some (VList [placement "front_panel" 0; placement "back_panel" 60]) /\
    result !! "fabric_length" = Some (VFloat fabric_length) /\
    fabric_length == 120 / 150.0 * 100 + 50.
Proof.
  assert (H1 : number (dict_get sample_fabric "width" (VInt 150)) = Some 150.0).
  { reflexivity. }
  assert (H2 : ~ 150.0 == 0) by discriminate.
  split; [exact H1|]. split; [exact H2|].
  exact (demo_workflow sample_apis ∅ sample_fabric VNone sample_world sample_world
           150.0 H1 H2).
Defined.

Lemma evaluate_layout_ranges_witness :
  (forall i : nat, 0 <= random_draws sample_world i /\ random_draws sample_world i < 1) /\
  exists (response data metrics : gmap string value)
         (utilization waste compactness grain_alignment : Q),
    MockLayoutAPI.evaluate_layout MockLayoutAPI.init ∅ sample_world = VDict response /\
    success_envelope (VDict response) /\
    response !! "data" = Some (VDict data) /\
    data !! "metrics" = Some (VDict metrics) /\
    metrics !! "utilization" = Some (VFloat utilization) /\
    0.65 <= utilization <= 0.75 /\
    metrics !! "waste" = Some (VFloat waste) /\
    2000 <= waste <= 3000 /\
    metrics !! "compactness" = Some (VFloat compactness) /\
    0.6 <= compactness <= 0.8 /\
    metrics !! "grain_alignment" = Some (VFloat grain_alignment) /\
    0.7 <= grain_alignment <= 0.9 /\
    MockLayoutAPI.evaluate_layout MockLayoutAPI.init ∅ sample_world
    = MockLayoutAPI.evaluate_layout MockLayoutAPI.init ∅ sample_world.
Proof.
  assert (H : forall i : nat,
            0 <= random_draws sample_world i /\ random_draws sample_world i < 1).
  { intros i. split; [unfold Qle | unfold Qlt]; simpl; lia. }
  split; [exact H | exact (evaluate_layout_ranges MockLayoutAPI.init ∅ sample_world H)].
Defined.

Lemma convert_to_keeps_constraints_witness :
  all_sizeable sample_measurement /\
  exists m' : Measurement.t,
    Measurement.convert_to sample_measurement MeasurementUnit.CENTIMETERS = Ok m' /\
    Measurement.unit m' = MeasurementUnit.CENTIMETERS /\
    all_positive m' /\
    Forall (fun f : string * (Measurement.t -> option Q) =>
              is_Some (f.2 m') <-> is_Some (f.2 sample_measurement))
           Measurement.numeric_fields /\
    dom (Measurement.custom m') = dom (Measurement.custom sample_measurement) /\
    Measurement.convert_to m' MeasurementUnit.CENTIMETERS = Ok m'.
Proof.
  assert (H : all_sizeable sample_measurement).
  { unfold all_sizeable, Measurement.numeric_fields.
    repeat (apply List.Forall_cons;
            [simpl; try exact I; split; vm_compute; discriminate|]).
    apply List.Forall_nil. }
  split; [exact H|].
  exact (convert_to_keeps_constraints sample_measurement MeasurementUnit.CENTIMETERS H).
Defined.

Lemma pattern_dict_round_trip_witness :
  Untyped.Pattern2D.from_dict (Untyped.Pattern2D.to_dict sample_pattern2d)
  = Ok sample_pattern2d.
Proof.
  apply (pattern_dict_round_trip sample_pattern2d).
  - reflexivity.
  - repeat constructor.
  - repeat constructor.
Defined.

Lemma pattern_from_dict_needs_transforms_witness :
  exists e,
    Untyped.Pattern2D.from_dict
      (VDict {[ "id" := VStr "pattern_1"; "name" := VStr "Pocket";
                "pieces" := VList [VDict sample_piece_without_transform] ]})
    = Raise e.
Proof.
  apply (pattern_from_dict_needs_transforms _ sample_piece_without_transform
           [VDict sample_piece_without_transform]).
  - reflexivity.
  - left. reflexivity.
  - vm_compute. reflexivity.
Defined.
